(** * Veusz document engine: datasets, linked files and the widget tree

    A shallow embedding of [document/doc.py] and
    [document/commandinterface.py].  Python objects that the code only
    reads are values; the document, which every operation mutates, is
    the state of a small state-and-exception monad in which the state
    survives a raised exception, as it does in Python. *)

From Stdlib Require Import ZArith String Ascii List Floats Uint63 Lia.
From stdpp Require Import base option list gmap strings sorting.

Local Open Scope string_scope.
Local Open Scope Z_scope.
Local Open Scope list_scope.

(** ** Python values *)

(** The exceptions the two modules raise or let through. *)
Inductive PyErr : Type :=
| ValueError (msg : string)
| KeyError (key : string)
| AttributeError (msg : string)
| TypeError (msg : string)
| AssertionError
| RuntimeError (msg : string)
| IOError (msg : string)
| IndexError (msg : string)
| Read2DError (msg : string)
| DatasetExpressionException (msg : string).

(** A [Float64] numarray of rank 0 or 1.  A Python float is treated as
    the rank-0 array it converts to. *)
Inductive ndarray : Type :=
| Arr0 (x : float)
| Arr1 (l : list float).

(** [a.shape] *)
Definition nd_shape (a : ndarray) : list nat :=
  match a with
  | Arr0 _ => []
  | Arr1 l => [length l]
  end.

(** [len(a)]: a rank-0 array is unsized. *)
Definition nd_len (a : ndarray) : PyErr + nat :=
  match a with
  | Arr0 _ => inl (TypeError "len() of unsized object")
  | Arr1 l => inr (length l)
  end.

(** [a * k] for a Python float [k]. *)
Definition nd_scale (a : ndarray) (k : float) : ndarray :=
  match a with
  | Arr0 x => Arr0 (PrimFloat.mul x k)
  | Arr1 l => Arr1 (map (fun x => PrimFloat.mul x k) l)
  end.

Fixpoint zip_add (l1 l2 : list float) : list float :=
  match l1, l2 with
  | x :: l1', y :: l2' => PrimFloat.add x y :: zip_add l1' l2'
  | _, _ => []
  end.

(** [a + b] with numarray's broadcasting: equal lengths add pointwise, a
    rank-0 or length-1 operand is stretched, anything else is refused. *)
Definition nd_add (a b : ndarray) : PyErr + ndarray :=
  match a, b with
  | Arr0 x, Arr0 y => inr (Arr0 (PrimFloat.add x y))
  | Arr0 x, Arr1 l => inr (Arr1 (map (fun y => PrimFloat.add x y) l))
  | Arr1 l, Arr0 y => inr (Arr1 (map (fun x => PrimFloat.add x y) l))
  | Arr1 l1, Arr1 l2 =>
      if Nat.eqb (length l1) (length l2) then inr (Arr1 (zip_add l1 l2))
      else match l1, l2 with
           | [x], _ => inr (Arr1 (map (fun y => PrimFloat.add x y) l2))
           | _, [y] => inr (Arr1 (map (fun x => PrimFloat.add x y) l1))
           | _, _ => inl (ValueError "Arrays have incompatible shapes")
           end
  end.

(** [_cnvt_numarray]: [None] stays [None]; anything else becomes a fresh
    [Float64] array with the same contents, whatever its rank. *)
Definition _cnvt_numarray {A : Type} (a : option A) : option A :=
  match a with
  | None => None
  | Some x => Some x
  end.

(** A rank-2 numarray: its shape and its rows, first row first. *)
Record array2d : Type := Array2d {
  shape0 : nat;
  shape1 : nat;
  rows : list (list float)
}.

(** Python numbers that appear in ranges: ints stay ints. *)
Inductive pynum : Type :=
| PyInt (z : Z)
| PyFloat (x : float).

Definition pyrange : Type := (pynum * pynum)%type.

(** [str.split('/')] *)
Fixpoint str_split_slash (s : string) : list string :=
  match s with
  | EmptyString => [EmptyString]
  | String c rest =>
      if Ascii.eqb c "/"%char then EmptyString :: str_split_slash rest
      else match str_split_slash rest with
           | [] => [String c EmptyString]
           | h :: t => String c h :: t
           end
  end.

(** [', '.join(l)] *)
Fixpoint str_join (sep : string) (l : list string) : string :=
  match l with
  | [] => ""
  | [x] => x
  | x :: rest => x +:+ sep +:+ str_join sep rest
  end.

(** [list(s)]: the one-character strings of [s]. *)
Fixpoint str_chars (s : string) : list string :=
  match s with
  | EmptyString => []
  | String c rest => String c EmptyString :: str_chars rest
  end.

(** ** Linkage objects *)

(** Instances of the three link classes define no [__eq__] and no
    [__hash__]: [==] and dictionary keys go by object identity.  The
    attributes are never reassigned once the link is attached to a
    dataset, so a link is its identity together with its attributes. *)
Definition objid : Type := positive.

Record LinkedFile : Type := MkLinkedFile {
  lf_filename : string;
  lf_descriptor : string;
  lf_useblocks : bool
}.

Record Linked2DFile : Type := MkLinked2DFile {
  l2_filename : string;
  l2_datasets : list string;
  l2_xrange : option pyrange;
  l2_yrange : option pyrange;
  l2_invertrows : option bool;
  l2_invertcols : option bool;
  l2_transpose : option bool
}.

(** An HDU or a column is addressed by number or by name. *)
Inductive fitskey : Type :=
| KeyNum (n : Z)
| KeyName (s : string).

Record LinkedFITSFile : Type := MkLinkedFITSFile {
  lfits_dsname : string;
  lfits_filename : string;
  lfits_hdu : fitskey;
  lfits_columns : list (option fitskey)
}.

Inductive LinkClass : Type :=
| IsLinkedFile (l : LinkedFile)
| IsLinked2DFile (l : Linked2DFile)
| IsLinkedFITSFile (l : LinkedFITSFile).

Record Link : Type := MkLink {
  link_id : objid;
  link_obj : LinkClass
}.

(** [a == b] on link objects. *)
Definition link_is (a b : Link) : bool :=
  Pos.eqb (link_id a) (link_id b).

(** [ds.linked == l] *)
Definition linked_is (linked : option Link) (l : Link) : bool :=
  match linked with
  | None => false
  | Some a => link_is a l
  end.

(** ** Datasets *)

(** A dataset object sits in one document's mapping under one name.  Its
    back-reference [document] is either [None] ([false]) or that
    document ([true]). *)
Module Dataset.
Record t : Type := Mk {
  document : bool;
  data : option ndarray;
  serr : option ndarray;
  nerr : option ndarray;
  perr : option ndarray;
  linked : option Link
}.
Definition set_document (v : bool) (d : t) : t :=
  Mk v (data d) (serr d) (nerr d) (perr d) (linked d).
Definition set_data (v : option ndarray) (d : t) : t :=
  Mk (document d) v (serr d) (nerr d) (perr d) (linked d).
Definition set_serr (v : option ndarray) (d : t) : t :=
  Mk (document d) (data d) v (nerr d) (perr d) (linked d).
Definition set_nerr (v : option ndarray) (d : t) : t :=
  Mk (document d) (data d) (serr d) v (perr d) (linked d).
Definition set_perr (v : option ndarray) (d : t) : t :=
  Mk (document d) (data d) (serr d) (nerr d) v (linked d).
Definition set_linked (v : option Link) (d : t) : t :=
  Mk (document d) (data d) (serr d) (nerr d) (perr d) v.
End Dataset.

Module Dataset2D.
Record t : Type := Mk {
  document : bool;
  linked : option Link;
  data : option array2d;
  xrange : pyrange;
  yrange : pyrange
}.
Definition set_document (v : bool) (d : t) : t :=
  Mk v (linked d) (data d) (xrange d) (yrange d).
Definition set_linked (v : option Link) (d : t) : t :=
  Mk (document d) v (data d) (xrange d) (yrange d).
End Dataset2D.

(** [expr] and [evaluated] are dictionaries keyed by the part names
    ['data'], ['serr'], ['nerr'], ['perr'].  [changeset] is the attribute
    that [_propValues] assigns; it does not exist before. *)
Module DatasetExpression.
Record t : Type := Mk {
  document : bool;
  docchangeset : option Z;
  changeset : option Z;
  linked : option Link;
  expr : gmap string (option string);
  evaluated : gmap string (option ndarray)
}.
Definition set_document (v : bool) (d : t) : t :=
  Mk v (docchangeset d) (changeset d) (linked d) (expr d) (evaluated d).
Definition set_changeset (v : option Z) (d : t) : t :=
  Mk (document d) (docchangeset d) v (linked d) (expr d) (evaluated d).
Definition set_linked (v : option Link) (d : t) : t :=
  Mk (document d) (docchangeset d) (changeset d) v (expr d) (evaluated d).
Definition set_evaluated (v : gmap string (option ndarray)) (d : t) : t :=
  Mk (document d) (docchangeset d) (changeset d) (linked d) (expr d) v.
End DatasetExpression.

Inductive AnyDataset : Type :=
| IsDataset (d : Dataset.t)
| IsDataset2D (d : Dataset2D.t)
| IsDatasetExpression (d : DatasetExpression.t).

(** The class attribute [dimensions]. *)
Definition dimensions (ds : AnyDataset) : Z :=
  match ds with
  | IsDataset _ => 1
  | IsDataset2D _ => 2
  | IsDatasetExpression _ => 1
  end.

(** [ds.linked] *)
Definition ds_linked (ds : AnyDataset) : option Link :=
  match ds with
  | IsDataset d => Dataset.linked d
  | IsDataset2D d => Dataset2D.linked d
  | IsDatasetExpression d => DatasetExpression.linked d
  end.

(** [ds.linked = v] *)
Definition ds_set_linked (v : option Link) (ds : AnyDataset) : AnyDataset :=
  match ds with
  | IsDataset d => IsDataset (Dataset.set_linked v d)
  | IsDataset2D d => IsDataset2D (Dataset2D.set_linked v d)
  | IsDatasetExpression d => IsDatasetExpression (DatasetExpression.set_linked v d)
  end.

(** [ds.document = document] (or [None]) *)
Definition ds_set_document (v : bool) (ds : AnyDataset) : AnyDataset :=
  match ds with
  | IsDataset d => IsDataset (Dataset.set_document v d)
  | IsDataset2D d => IsDataset2D (Dataset2D.set_document v d)
  | IsDatasetExpression d => IsDatasetExpression (DatasetExpression.set_document v d)
  end.

(** ** Widgets *)

(** Modelled from the spec: the [widgets] module is not among the
    sources.  A widget node has a name, a type tag, a back-reference to
    its parent and an ordered sequence of children; nodes are objects,
    kept here in a store indexed by identity. *)
Module Widget.
Record t : Type := Mk {
  name : string;
  typename : string;
  parent : option objid;
  children : list objid
}.
End Widget.

Abbreviation widget_store := (gmap objid Widget.t).

(** Modelled from the spec: [obj.parent], [None] at the root. *)
Definition Widget_parent (ws : widget_store) (obj : objid) : option objid :=
  match ws !! obj with
  | Some w => Widget.parent w
  | None => None
  end.

Definition has_name (ws : widget_store) (nm : string) (c : objid) : bool :=
  match ws !! c with
  | Some w => String.eqb (Widget.name w) nm
  | None => false
  end.

(** Modelled from the spec: [obj.getChild(name)] looks a child up by
    exact name and gives [None] when there is none. *)
Definition Widget_getChild (ws : widget_store) (obj : objid) (nm : string)
  : option objid :=
  match ws !! obj with
  | Some w => List.find (has_name ws nm) (Widget.children w)
  | None => None
  end.

(** Modelled from the spec: [widgets.Root(None, document=self)], a node
    without parent and without children. *)
Definition Widget_Root : Widget.t := Widget.Mk "/" "document" None [].

(** ** The document *)

(** What an observer of a document can see happen: the two signals it
    emits, and every entry into [updateValues] and into [reloadLinks],
    the calls whose number the specification speaks of. *)
Inductive Event : Type :=
| sigModified (ismodified : bool)
| sigWiped
| call_updateValues (name : string)
| call_reloadLinks (link : objid).

#[global] Instance Event_eq_dec : EqDecision Event.
Proof. solve_decision. Defined.

Module Document.
Record t : Type := Mk {
  changeset : Z;
  modified : bool;
  data : gmap string AnyDataset;
  widgets : widget_store;
  basewidget : objid;
  events : list Event
}.
Definition set_changeset (v : Z) (d : t) : t :=
  Mk v (modified d) (data d) (widgets d) (basewidget d) (events d).
Definition set_modified (v : bool) (d : t) : t :=
  Mk (changeset d) v (data d) (widgets d) (basewidget d) (events d).
Definition set_data (v : gmap string AnyDataset) (d : t) : t :=
  Mk (changeset d) (modified d) v (widgets d) (basewidget d) (events d).
Definition set_tree (ws : widget_store) (root : objid) (d : t) : t :=
  Mk (changeset d) (modified d) (data d) ws root (events d).
Definition emit (e : Event) (d : t) : t :=
  Mk (changeset d) (modified d) (data d) (widgets d) (basewidget d)
     (e :: events d).
End Document.

(** ** Computations on a document *)

Definition M (A : Type) : Type := Document.t -> (PyErr + A) * Document.t.

Definition ret {A} (a : A) : M A := fun d => (inr a, d).
Definition raise {A} (e : PyErr) : M A := fun d => (inl e, d).
Definition bind {A B} (m : M A) (k : A -> M B) : M B :=
  fun d => match m d with
           | (inr a, d') => k a d'
           | (inl e, d') => (inl e, d')
           end.
Definition gets {A} (f : Document.t -> A) : M A := fun d => (inr (f d), d).
Definition modify (f : Document.t -> Document.t) : M unit :=
  fun d => (inr tt, f d).
Definition lift {A} (r : PyErr + A) : M A := fun d => (r, d).

Notation "x <- m ;; k" := (bind m (fun x => k))
  (at level 100, m at next level, right associativity).
Notation "m ;;; k" := (bind m (fun _ => k))
  (at level 100, right associativity).

(** [for x in l: body x] *)
Fixpoint for_each {A} (l : list A) (body : A -> M unit) : M unit :=
  match l with
  | [] => ret tt
  | x :: rest => body x ;;; for_each rest body
  end.

(** A loop that threads a local variable. *)
Fixpoint for_fold {A S} (l : list A) (body : S -> A -> M S) (s : S) : M S :=
  match l with
  | [] => ret s
  | x :: rest => s' <- body s x ;; for_fold rest body s'
  end.

(** ** Path resolution *)

(** The body of the [for p in parts] loop of [Document.resolve]. *)
Fixpoint Document_resolve_parts (ws : widget_store) (obj : objid)
    (parts : list string) : PyErr + objid :=
  match parts with
  | [] => inr obj
  | p :: rest =>
      if String.eqb p ".." then
        match Widget_parent ws obj with
        | None => inl (ValueError "Base graph has no parent")
        | Some q => Document_resolve_parts ws q rest
        end
      else if String.eqb p "." || Nat.eqb (String.length p) 0 then
        Document_resolve_parts ws obj rest
      else
        match Widget_getChild ws obj p with
        | None => inl (ValueError ("Child '" +:+ p +:+ "' does not exist"))
        | Some c => Document_resolve_parts ws c rest
        end
  end.

(** [Document.resolve(fromwidget, where)] *)
Definition Document_resolve (self : Document.t) (fromwidget : objid)
    (where_ : string) : PyErr + objid :=
  let parts := str_split_slash where_ in
  let obj :=
    if String.eqb (String.substring 0 1 where_) "/"
    then Document.basewidget self
    else fromwidget in
  Document_resolve_parts (Document.widgets self) obj parts.

(** The command interface keeps a reference to its document, which is
    the state the computations run on, and its current widget. *)
Module CommandInterface.
Record t : Type := Mk {
  currentwidget : objid;
  verbose : bool
}.
End CommandInterface.

(** The body of the loop of [CommandInterface._resolve]. *)
Fixpoint CommandInterface__resolve_parts (ws : widget_store) (obj : objid)
    (parts : list string) : PyErr + objid :=
  match parts with
  | [] => inr obj
  | p :: rest =>
      if String.eqb p ".." then
        match Widget_parent ws obj with
        | None => inl (ValueError "Base graph has no parent")
        | Some q => CommandInterface__resolve_parts ws q rest
        end
      else if String.eqb p "." || Nat.eqb (String.length p) 0 then
        CommandInterface__resolve_parts ws obj rest
      else
        match Widget_getChild ws obj p with
        | None => inl (ValueError ("Child '" +:+ p +:+ "' does not exist"))
        | Some c => CommandInterface__resolve_parts ws c rest
        end
  end.

(** [CommandInterface._resolve(where)], on the document [document] that
    [self.document] refers to. *)
Definition CommandInterface__resolve (self : CommandInterface.t)
    (document : Document.t) (where_ : string) : PyErr + objid :=
  let parts := str_split_slash where_ in
  let obj :=
    if String.eqb (String.substring 0 1 where_) "/"
    then Document.basewidget document
    else CommandInterface.currentwidget self in
  CommandInterface__resolve_parts (Document.widgets document) obj parts.

(** A segment that the resolver treats as a child's name. *)
Definition is_child_segment (p : string) : bool :=
  negb (String.eqb p "..") && negb (String.eqb p ".")
  && negb (Nat.eqb (String.length p) 0).

Fixpoint has_slash (s : string) : bool :=
  match s with
  | EmptyString => false
  | String c rest => Ascii.eqb c "/"%char || has_slash rest
  end.

(** Parent owns children: every child that a node lists points back to
    that node. *)
Definition child_points_back (ws : widget_store) (o c : objid) : bool :=
  match ws !! c with
  | Some w => bool_decide (Widget.parent w = Some o)
  | None => false
  end.

Definition widgets_ok (ws : widget_store) : bool :=
  forallb (fun ow => forallb (child_points_back ws (fst ow))
                             (Widget.children (snd ow)))
          (map_to_list ws).

(** ** What lies outside the two modules *)

(** What a [SimpleRead] holds once [readData] has consumed the file: the
    datasets the descriptor names, and the count of values per dataset
    that did not convert. *)
Record SimpleRead : Type := MkSimpleRead {
  sr_datasets : list (string * Dataset.t);
  sr_invalid : gmap string Z
}.

(** A [SimpleRead2D]: the dataset's name and the reading options. *)
Record SimpleRead2D : Type := MkSimpleRead2D {
  sr2_name : string;
  sr2_xrange : option pyrange;
  sr2_yrange : option pyrange;
  sr2_invertrows : bool;
  sr2_invertcols : bool;
  sr2_transpose : bool
}.

(** What a [SimpleRead2D] holds once [readData] has run. *)
Record Read2D : Type := MkRead2D {
  r2_data : option array2d;
  r2_xrange : option pyrange;
  r2_yrange : option pyrange
}.

(** One HDU of a FITS file.  A table has columns, read with
    [data.field(col)]; an image has none, and [get_coldefs] raises
    [AttributeError].  [hdu_image] is [rhdu.data] taken as a rank-2
    array, [hdu_header] the numeric header cards. *)
Record FitsHDU : Type := MkFitsHDU {
  hdu_field : option (fitskey -> PyErr + ndarray);
  hdu_image : PyErr + option array2d;
  hdu_header : string -> option float
}.

(** The interpreter, the file system and the modules [simpleread],
    [pyfits], [utils], [os], [time] and [widgets], as far as the code
    calls into them. *)
Class External : Type := {
  (** [eval(expr, env)] in the default environment extended by [env]:
      the value, or the text of the exception. *)
  py_eval : string -> gmap string (option ndarray) -> string + option ndarray;
  (** [simpleread.FileStream(open(filename))] *)
  stream : Type;
  open_stream : string -> PyErr + stream;
  (** [SimpleRead(descriptor).readData(stream)] *)
  SimpleRead_readData : string -> stream -> PyErr + SimpleRead;
  (** [sr.readData(stream)] for a [SimpleRead2D], which moves on in the
      stream *)
  SimpleRead2D_readData : SimpleRead2D -> stream -> PyErr + (Read2D * stream);
  (** [import pyfits] succeeds *)
  pyfits_installed : bool;
  (** [pyfits.open(filename, 'readonly')[hdu]] *)
  pyfits_open : string -> fitskey -> PyErr + FitsHDU;
  (** [repr] of a string, [repr] of a number, and the [%e] format *)
  repr_str : string -> string;
  repr_num : pynum -> string;
  fmt_e : pynum -> string;
  (** [utils.version()], [os.environ['LOGNAME']], the formatted time *)
  utils_version : string;
  environ_LOGNAME : option string;
  time_now : string;
  (** [widget.getSaveText()] *)
  Widget_getSaveText : widget_store -> objid -> string;
  (** how many property reads of expression datasets may nest before the
      interpreter's recursion limit is hit *)
  recursion_limit : nat
}.

(** Sequencing of results without state. *)
Definition ebind {A B} (r : PyErr + A) (k : A -> PyErr + B) : PyErr + B :=
  match r with
  | inl e => inl e
  | inr a => k a
  end.

Notation "x <~ r ;; k" := (ebind r (fun x => k))
  (at level 100, r at next level, right associativity).

(** A list comprehension whose items may raise. *)
Fixpoint emap {A B} (f : A -> PyErr + B) (l : list A) : PyErr + list B :=
  match l with
  | [] => inr []
  | x :: rest => y <~ f x ;; ys <~ emap f rest ;; inr (y :: ys)
  end.

Definition nl : string := String (Ascii.ascii_of_nat 10) EmptyString.

(** ** [Dataset] *)

(** [i == None or i.shape == s] *)
Definition shape_ok (s : list nat) (i : option ndarray) : bool :=
  match i with
  | None => true
  | Some a => bool_decide (nd_shape a = s)
  end.

(** The check that ends [Dataset.__init__] and [Dataset.changeValues]:
    [s = self.data.shape], then the three assertions. *)
Definition Dataset_check_shapes (self : Dataset.t) : PyErr + unit :=
  match Dataset.data self with
  | None => inl (AttributeError "'NoneType' object has no attribute 'shape'")
  | Some a =>
      let s := nd_shape a in
      if shape_ok s (Dataset.serr self) && shape_ok s (Dataset.nerr self)
         && shape_ok s (Dataset.perr self)
      then inr tt
      else inl AssertionError
  end.

(** [err + self.data*0.] when [err] is given. *)
Definition same_type_as (data : ndarray) (err : option ndarray)
  : PyErr + option ndarray :=
  match err with
  | None => inr None
  | Some e => r <~ nd_add e (nd_scale data 0%float) ;; inr (Some r)
  end.

(** [Dataset.__init__] *)
Definition Dataset_init (data serr nerr perr : option ndarray)
    (linked : option Link) : PyErr + Dataset.t :=
  let data' := _cnvt_numarray data in
  errs <~ match data' with
          | Some a =>
              s <~ same_type_as a serr ;;
              n <~ same_type_as a nerr ;;
              p <~ same_type_as a perr ;;
              inr (s, n, p)
          | None => inr (None, None, None)
          end ;;
  let '(s, n, p) := errs in
  let self := Dataset.Mk false data' s n p linked in
  _ <~ Dataset_check_shapes self ;;
  inr self.

(** [Dataset.duplicate], for a plain dataset. *)
Definition Dataset_duplicate (self : Dataset.t) : PyErr + Dataset.t :=
  Dataset_init (Dataset.data self) (Dataset.serr self) (Dataset.nerr self)
               (Dataset.perr self) None.

(** [Dataset.hasErrors] *)
Definition Dataset_hasErrors (self : Dataset.t) : bool :=
  bool_decide (Dataset.serr self <> None)
  || bool_decide (Dataset.nerr self <> None)
  || bool_decide (Dataset.perr self <> None).

(** The assignment that opens [Dataset.changeValues]. *)
Definition Dataset_changeValues_assign (self : Dataset.t) (type : string)
    (vals : option ndarray) : PyErr + Dataset.t :=
  if String.eqb type "vals" then inr (Dataset.set_data vals self)
  else if String.eqb type "serr" then inr (Dataset.set_serr vals self)
  else if String.eqb type "nerr" then inr (Dataset.set_nerr vals self)
  else if String.eqb type "perr" then inr (Dataset.set_perr vals self)
  else inl (ValueError "type does not contain an allowed value").

(** ** [Dataset2D] *)

(** [Dataset2D.__init__]: [data.shape] is read only when a range is
    missing ([None] or an empty tuple, which no [pyrange] is). *)
Definition Dataset2D_init (data : option array2d) (xrange yrange : option pyrange)
  : PyErr + Dataset2D.t :=
  let data' := _cnvt_numarray data in
  let no_shape := AttributeError "'NoneType' object has no attribute 'shape'" in
  xr <~ match xrange with
        | Some r => inr r
        | None => match data with
                  | Some a => inr (PyInt 0, PyInt (Z.of_nat (shape0 a)))
                  | None => inl no_shape
                  end
        end ;;
  yr <~ match yrange with
        | Some r => inr r
        | None => match data with
                  | Some a => inr (PyInt 0, PyInt (Z.of_nat (shape1 a)))
                  | None => inl no_shape
                  end
        end ;;
  inr (Dataset2D.Mk false None data' xr yr).

(** [Dataset2D.getDataRanges] *)
Definition Dataset2D_getDataRanges (self : Dataset2D.t) : pyrange * pyrange :=
  (Dataset2D.xrange self, Dataset2D.yrange self).

(** ** [Document]: the change counter and the mapping *)

(** [Document.setModified(ismodified)] *)
Definition Document_setModified (ismodified : bool) : M unit :=
  modify (Document.set_modified ismodified) ;;;
  modify (fun d => Document.set_changeset (Document.changeset d + 1) d) ;;;
  modify (Document.emit (sigModified ismodified)).

(** [Document.isModified] *)
Definition Document_isModified : M bool := gets Document.modified.

(** [Document.wipe] *)
Definition Document_wipe : M unit :=
  modify (Document.set_data ∅) ;;;
  modify (Document.set_tree {[1%positive := Widget_Root]} 1%positive) ;;;
  Document_setModified false ;;;
  modify (Document.emit sigWiped).

(** [Document()]: [__init__] sets the counter to zero and wipes. *)
Definition Document_new : Document.t :=
  snd (Document_wipe (Document.Mk 0 false ∅ ∅ 1%positive [])).

(** [self.data[name]] *)
Definition data_item (name : string) : M AnyDataset :=
  d <- gets Document.data ;;
  match d !! name with
  | Some ds => ret ds
  | None => raise (KeyError name)
  end.

(** [self.data[name] = ds] *)
Definition data_setitem (name : string) (ds : AnyDataset) : M unit :=
  modify (fun d => Document.set_data (<[name := ds]> (Document.data d)) d).

(** [Document.setData(name, dataset)] *)
Definition Document_setData (name : string) (dataset : AnyDataset) : M unit :=
  data_setitem name (ds_set_document true dataset) ;;;
  Document_setModified true.

(** [Document.deleteDataset(name)] *)
Definition Document_deleteDataset (name : string) : M unit :=
  _ <- data_item name ;;
  modify (fun d => Document.set_data (delete name (Document.data d)) d) ;;;
  Document_setModified true.

(** [Document.renameDataset(oldname, newname)] *)
Definition Document_renameDataset (oldname newname : string) : M unit :=
  d <- data_item oldname ;;
  modify (fun s => Document.set_data (delete oldname (Document.data s)) s) ;;;
  data_setitem newname d ;;;
  Document_setModified true.

(** [Document.unlinkDataset(name)] *)
Definition Document_unlinkDataset (name : string) : M unit :=
  d <- data_item name ;;
  data_setitem name (ds_set_linked None d) ;;;
  Document_setModified true.

(** [Document.getData(name)] *)
Definition Document_getData (name : string) : M AnyDataset := data_item name.

(** [Document.hasData(name)] *)
Definition Document_hasData (name : string) : M bool :=
  d <- gets Document.data ;; ret (bool_decide (is_Some (d !! name))).

(** [document.data[name].changeValues(type, vals)]: the method of the
    dataset stored under [name].  A 2-D dataset has no such method; on an
    expression dataset the four parts are read-only properties. *)
Definition Dataset_changeValues (name : string) (type : string)
    (vals : option ndarray) : M unit :=
  ds <- data_item name ;;
  match ds with
  | IsDataset self =>
      self' <- lift (Dataset_changeValues_assign self type vals) ;;
      data_setitem name (IsDataset self') ;;;
      lift (Dataset_check_shapes self') ;;;
      if Dataset.document self'
      then Document_setModified true
      else raise (AttributeError "'NoneType' object has no attribute 'setModified'")
  | IsDataset2D _ =>
      raise (AttributeError "Dataset2D instance has no attribute 'changeValues'")
  | IsDatasetExpression _ =>
      if String.eqb type "vals" || String.eqb type "serr"
         || String.eqb type "nerr" || String.eqb type "perr"
      then raise (AttributeError "can't set attribute")
      else raise (ValueError "type does not contain an allowed value")
  end.

(** ** [DatasetExpression] *)

(** [DatasetExpression.__init__] *)
Definition DatasetExpression_init (data serr nerr perr : option string)
  : DatasetExpression.t :=
  DatasetExpression.Mk false None None None
    (<["perr" := perr]> (<["nerr" := nerr]> (<["serr" := serr]>
       (<["data" := data]> ∅))))
    ∅.

Definition is_part (part : string) : bool :=
  String.eqb part "data" || String.eqb part "serr"
  || String.eqb part "nerr" || String.eqb part "perr".

(** [getattr(ds, part)] on a plain dataset. *)
Definition Dataset_getattr (ds : Dataset.t) (part : string)
  : PyErr + option ndarray :=
  if String.eqb part "data" then inr (Dataset.data ds)
  else if String.eqb part "serr" then inr (Dataset.serr ds)
  else if String.eqb part "nerr" then inr (Dataset.nerr ds)
  else if String.eqb part "perr" then inr (Dataset.perr ds)
  else inl (AttributeError ("'Dataset' object has no attribute '" +:+ part +:+ "'")).

(** The expression dataset stored under [self]. *)
Definition self_expression (self : string) : M DatasetExpression.t :=
  ds <- data_item self ;;
  match ds with
  | IsDatasetExpression e => ret e
  | _ => raise (AttributeError "not a DatasetExpression")
  end.

(** [self.evaluated[part] = v] *)
Definition set_evaluated (self part : string) (v : option ndarray) : M unit :=
  e <- self_expression self ;;
  data_setitem self
    (IsDatasetExpression
       (DatasetExpression.set_evaluated
          (<[part := v]> (DatasetExpression.evaluated e)) e)).

(** The check that ends [updateValues]: [last] is the length of the
    previous part that is not [None]. *)
Fixpoint check_lengths (vals : list (option ndarray)) (last : option Z)
  : PyErr + unit :=
  match vals with
  | [] => inr tt
  | None :: rest => check_lengths rest last
  | Some val :: rest =>
      let l := match nd_len val with
               | inr n => Z.of_nat n
               | inl _ => -100
               end in
      if match last with
         | Some x => negb (Z.eqb x l)
         | None => false
         end
      then inl (DatasetExpressionException
                  "Expressions for dataset parts do not yield results of the same length")
      else n <~ nd_len val ;; check_lengths rest (Some (Z.of_nat n))
  end.

(** [self.document.changeset != self.docchangeset]; an int differs from
    [None]. *)
Definition changeset_differs (changeset : Z) (docchangeset : option Z) : bool :=
  match docchangeset with
  | None => true
  | Some v => negb (Z.eqb changeset v)
  end.

Section Expressions.
Context `{External}.

(** [getattr(ds, part)] for the dataset stored under [name]; [prop] is
    the property read of an expression dataset.  Two-dimensional
    datasets are never asked: the caller filters on [dimensions]. *)
Definition getattr_part (prop : string -> string -> M (option ndarray))
    (name part : string) : M (option ndarray) :=
  ds <- data_item name ;;
  match ds with
  | IsDataset d => lift (Dataset_getattr d part)
  | IsDatasetExpression _ =>
      if is_part part then prop name part
      else raise (AttributeError
             ("'DatasetExpression' object has no attribute '" +:+ part +:+ "'"))
  | IsDataset2D _ =>
      raise (AttributeError
             ("'Dataset2D' object has no attribute '" +:+ part +:+ "'"))
  end.

(** The loop over [self.document.data.iteritems()] that fills the
    environment for one part. *)
Definition populate_env (prop : string -> string -> M (option ndarray))
    (self part : string) (names : list string)
  : M (gmap string (option ndarray)) :=
  for_fold names
    (fun env name =>
       ds <- data_item name ;;
       if negb (String.eqb name self) && Z.eqb (dimensions ds) 1 then
         v <- getattr_part prop name part ;;
         for_fold ["data"; "serr"; "nerr"; "perr"]
           (fun env otherpart =>
              w <- getattr_part prop name otherpart ;;
              ret (<[name +:+ "_" +:+ otherpart := w]> env))
           (<[name := v]> env)
       else ret env)
    ∅.

(** [DatasetExpression.updateValues], for the dataset stored under
    [self]. *)
Definition DatasetExpression_updateValues
    (prop : string -> string -> M (option ndarray)) (self : string) : M unit :=
  modify (Document.emit (call_updateValues self)) ;;;
  e <- self_expression self ;;
  for_each (map_to_list (DatasetExpression.expr e))
    (fun part_expr =>
       let part := fst part_expr in
       match snd part_expr with
       | None => set_evaluated self part None
       | Some expr =>
           if String.eqb expr "" then set_evaluated self part None
           else
             e' <- self_expression self ;;
             if negb (DatasetExpression.document e') then
               raise (AttributeError "'NoneType' object has no attribute 'data'")
             else
               names <- gets (fun d => (map_to_list (Document.data d)).*1) ;;
               env <- populate_env prop self part names ;;
               match py_eval expr env with
               | inr v => set_evaluated self part v
               | inl msg =>
                   raise (DatasetExpressionException
                            ("Error evaluating expession '" +:+ expr +:+ "'"
                             +:+ nl +:+ "Error: '" +:+ msg +:+ "'"))
               end
       end) ;;;
  e <- self_expression self ;;
  lift (check_lengths (map_to_list (DatasetExpression.evaluated e)).*2 None).

(** [document.data[self]._propValues(name)]; [depth] is what is left of
    the recursion limit. *)
Fixpoint DatasetExpression__propValues_at (depth : nat) (self name : string)
  : M (option ndarray) :=
  match depth with
  | O => raise (RuntimeError "maximum recursion depth exceeded")
  | S depth' =>
      ds <- data_item self ;;
      match ds with
      | IsDatasetExpression e =>
          if negb (DatasetExpression.document e) then raise AssertionError
          else
            changeset <- gets Document.changeset ;;
            (if changeset_differs changeset (DatasetExpression.docchangeset e)
             then
               data_setitem self
                 (IsDatasetExpression
                    (DatasetExpression.set_changeset (Some changeset) e)) ;;;
               DatasetExpression_updateValues
                 (DatasetExpression__propValues_at depth') self
             else ret tt) ;;;
            e' <- self_expression self ;;
            match DatasetExpression.evaluated e' !! name with
            | Some v => ret v
            | None => raise (KeyError name)
            end
      | _ => raise (AttributeError "object has no attribute '_propValues'")
      end
  end.

Definition DatasetExpression__propValues (self name : string)
  : M (option ndarray) :=
  DatasetExpression__propValues_at recursion_limit self name.

(** [document.data[name].duplicate()]: the parts of an expression
    dataset are read through its properties; a 2-D dataset has no such
    method. *)
Definition duplicate (name : string) : M AnyDataset :=
  ds <- data_item name ;;
  match ds with
  | IsDataset d => d' <- lift (Dataset_duplicate d) ;; ret (IsDataset d')
  | IsDataset2D _ =>
      raise (AttributeError "'Dataset2D' object has no attribute 'duplicate'")
  | IsDatasetExpression _ =>
      data <- DatasetExpression__propValues name "data" ;;
      serr <- DatasetExpression__propValues name "serr" ;;
      nerr <- DatasetExpression__propValues name "nerr" ;;
      perr <- DatasetExpression__propValues name "perr" ;;
      d' <- lift (Dataset_init data serr nerr perr None) ;;
      ret (IsDataset d')
  end.

(** [Document.duplicateDataset(name, newname)] *)
Definition Document_duplicateDataset (name newname : string) : M unit :=
  d <- gets Document.data ;;
  if bool_decide (is_Some (d !! newname)) then
    raise (ValueError ("Dataset " +:+ newname +:+ " already exists"))
  else
    dup <- duplicate name ;;
    data_setitem newname dup ;;;
    Document_setModified true.

End Expressions.

(** ** Importing *)

(** What [reloadLinks] returns first: a list of names, or, from
    [LinkedFITSFile], the bare name. *)
Inductive names_read : Type :=
| NameList (l : list string)
| NameStr (s : string).

(** [read += nread]: a list is extended by the items of any sequence,
    and the items of a string are its characters. *)
Definition list_extend (read : list string) (nread : names_read) : list string :=
  match nread with
  | NameList l => read ++ l
  | NameStr s => read ++ str_chars s
  end.

(** [float(n)] for a dimension of an array. *)
Definition float_of_nat (n : nat) : float :=
  PrimFloat.of_uint63 (Uint63.of_Z (Z.of_nat n)).

(** The order of [cmp] on strings. *)
Definition str_le (a b : string) : Prop := String.leb a b = true.

#[global] Instance str_le_dec : RelDecision str_le.
Proof. intros a b. unfold str_le. apply _. Defined.

(** [read.sort()] on a list of strings. *)
Definition list_sort (l : list string) : list string :=
  merge_sort str_le l.

Section Importing.
Context `{External}.

(** Modelled from the spec: [SimpleRead.setInDocument(document,
    linkedfile)] of the missing [simpleread] module sets every dataset
    that was read in the document, linked to [linkedfile]. *)
Definition SimpleRead_setInDocument (sr : SimpleRead)
    (linkedfile : option Link) : M unit :=
  for_each (sr_datasets sr)
    (fun nd => Document_setData (fst nd)
                 (IsDataset (Dataset.set_linked linkedfile (snd nd)))).

(** Modelled from the spec: [SimpleRead2D.setInDocument(document,
    linkedfile)] of the missing [simpleread] module builds the
    [Dataset2D], links it and sets it in the document. *)
Definition SimpleRead2D_setInDocument (name : string) (r : Read2D)
    (linkedfile : option Link) : M unit :=
  ds <- lift (Dataset2D_init (r2_data r) (r2_xrange r) (r2_yrange r)) ;;
  Document_setData name (IsDataset2D (Dataset2D.set_linked linkedfile ds)).

(** Modelled from the spec: a new [SimpleRead2D] of the missing
    [simpleread] module has no ranges and neither inverts nor
    transposes; [sr.<option> = v] replaces that when [v] is given. *)
Definition override {A} (v : option A) (default : A) : A :=
  match v with
  | Some x => x
  | None => default
  end.

(** [Document.import2D].  [linked] is [None] for [linked=False] and
    otherwise the identity of the [Linked2DFile] the call creates. *)
Definition Document_import2D (filename : string) (datasets : list string)
    (xrange yrange : option pyrange)
    (invertrows invertcols transpose : option bool)
    (linked : option objid) : M unit :=
  let LF :=
    match linked with
    | Some id =>
        Some (MkLink id (IsLinked2DFile
                (MkLinked2DFile filename datasets xrange yrange
                                invertrows invertcols transpose)))
    | None => None
    end in
  stream0 <- lift (open_stream filename) ;;
  _ <- for_fold datasets
         (fun strm name =>
            let sr := MkSimpleRead2D name
                        (override (Some <$> xrange) None)
                        (override (Some <$> yrange) None)
                        (override invertrows false)
                        (override invertcols false)
                        (override transpose false) in
            r <- lift (SimpleRead2D_readData sr strm) ;;
            SimpleRead2D_setInDocument name (fst r) LF ;;;
            ret (snd r))
         stream0 ;;
  ret tt.

(** [data.field(col)] when [col] is given. *)
Definition read_column (field : fitskey -> PyErr + ndarray)
    (col : option fitskey) : PyErr + option ndarray :=
  match col with
  | None => inr None
  | Some c => v <~ field c ;; inr (Some v)
  end.

(** The [try] block of [importFITS]: the HDU as a table. *)
Definition importFITS_table (rhdu : FitsHDU)
    (datacol symerrcol poserrcol negerrcol : option fitskey)
  : PyErr + AnyDataset :=
  match hdu_field rhdu with
  | None => inl (AttributeError "get_coldefs")
  | Some field =>
      datav <~ read_column field datacol ;;
      symv <~ read_column field symerrcol ;;
      posv <~ read_column field poserrcol ;;
      negv <~ read_column field negerrcol ;;
      ds <~ Dataset_init datav symv negv posv None ;;
      inr (IsDataset ds)
  end.

(** The six header cards of the world coordinate system, when all are
    there. *)
Definition read_wcs (header : string -> option float) : option (list float) :=
  mapM header ["CRVAL1"; "CRPIX1"; "CDELT1"; "CRVAL2"; "CRPIX2"; "CDELT2"].

(** The [except AttributeError] block of [importFITS]: the HDU as an
    image. *)
Definition importFITS_image (rhdu : FitsHDU) : PyErr + AnyDataset :=
  data <~ hdu_image rhdu ;;
  ranges <~ match read_wcs (hdu_header rhdu) with
            | Some [crval1; crpix1; cdelt1; crval2; crpix2; cdelt2] =>
                match data with
                | None =>
                    inl (AttributeError
                           "'NoneType' object has no attribute 'shape'")
                | Some a =>
                    let x0 := ((float_of_nat (shape1 a) - crpix1) * cdelt1
                               + crval1)%float in
                    let x1 := ((0 - crpix1) * cdelt1 + crval1)%float in
                    let y0 := ((0 - crpix2) * cdelt2 + crval2)%float in
                    let y1 := ((float_of_nat (shape0 a) - crpix2) * cdelt2
                               + crval2)%float in
                    inr (Some (PyFloat x1, PyFloat x0),
                         Some (PyFloat y0, PyFloat y1))
                end
            | _ => inr (None, None)
            end ;;
  ds <~ Dataset2D_init data (fst ranges) (snd ranges) ;;
  inr (IsDataset2D ds).

(** [Document.importFITS].  [linked] is [None] for [linked=False] and
    otherwise the identity of the [LinkedFITSFile] the call creates. *)
Definition Document_importFITS (dsname filename : string) (hdu : fitskey)
    (datacol symerrcol poserrcol negerrcol : option fitskey)
    (linked : option objid) : M unit :=
  if negb pyfits_installed then
    raise (RuntimeError "PyFITS is required to import data from FITS files")
  else
    rhdu <- lift (pyfits_open filename hdu) ;;
    ds <- lift (match importFITS_table rhdu datacol symerrcol
                                       poserrcol negerrcol with
                | inl (AttributeError _) => importFITS_image rhdu
                | r => r
                end) ;;
    let ds' :=
      match linked with
      | Some id =>
          ds_set_linked
            (Some (MkLink id (IsLinkedFITSFile
                     (MkLinkedFITSFile dsname filename hdu
                        [datacol; symerrcol; poserrcol; negerrcol]))))
            ds
      | None => ds
      end in
    Document_setData dsname ds'.

(** ** Reloading links *)

(** The first half of [LinkedFile.reloadLinks]: the file read into a
    scratch document, and the counts of invalid conversions. *)
Definition LinkedFile_scratch (self : Link) (lf : LinkedFile)
  : PyErr + (Document.t * gmap string Z) :=
  strm <~ open_stream (lf_filename lf) ;;
  sr <~ SimpleRead_readData (lf_descriptor lf) strm ;;
  let '(r, tempdoc) := SimpleRead_setInDocument sr (Some self) Document_new in
  _ <~ r ;;
  inr (tempdoc, sr_invalid sr).

(** The body of its loop over [tempdoc.data.items()]. *)
Definition LinkedFile_move_in (self : Link) (read : list string)
    (item : string * AnyDataset) : M (list string) :=
  let name := fst item in
  live <- gets Document.data ;;
  match live !! name with
  | Some old =>
      if linked_is (ds_linked old) self then
        data_setitem name (ds_set_document true (snd item)) ;;;
        ret (read ++ [name])
      else ret read
  | None => ret read
  end.

(** [LinkedFile.reloadLinks(document)] *)
Definition LinkedFile_reloadLinks (self : Link) (lf : LinkedFile)
  : M (names_read * gmap string Z) :=
  modify (Document.emit (call_reloadLinks (link_id self))) ;;;
  loaded <- lift (LinkedFile_scratch self lf) ;;
  let tempdoc := fst loaded in
  let errors := snd loaded in
  read <- for_fold (map_to_list (Document.data tempdoc))
            (LinkedFile_move_in self) [] ;;
  Document_setModified true ;;;
  ret (NameList read, errors).

(** [errors[i] = 1] for every name of the link. *)
Definition all_failed (datasets : list string) : gmap string Z :=
  fold_left (fun errors i => <[i := 1]> errors) datasets ∅.

(** The first half of [Linked2DFile.reloadLinks]: [import2D] on a
    scratch document. *)
Definition Linked2DFile_scratch (l2 : Linked2DFile)
  : (PyErr + unit) * Document.t :=
  Document_import2D (l2_filename l2) (l2_datasets l2)
    (l2_xrange l2) (l2_yrange l2) (l2_invertrows l2)
    (l2_invertcols l2) (l2_transpose l2) None Document_new.

(** The body of its loop over [tempdoc.data.items()]. *)
Definition Linked2DFile_move_in (self : Link)
    (acc : list string * gmap string Z) (item : string * AnyDataset)
  : M (list string * gmap string Z) :=
  let name := fst item in
  live <- gets Document.data ;;
  match live !! name with
  | Some old =>
      if linked_is (ds_linked old) self then
        data_setitem name
          (ds_set_document true (ds_set_linked (Some self) (snd item))) ;;;
        ret (fst acc ++ [name], <[name := 0]> (snd acc))
      else ret acc
  | None => ret acc
  end.

(** [Linked2DFile.reloadLinks(document)] *)
Definition Linked2DFile_reloadLinks (self : Link) (l2 : Linked2DFile)
  : M (names_read * gmap string Z) :=
  modify (Document.emit (call_reloadLinks (link_id self))) ;;;
  match Linked2DFile_scratch l2 with
  | (inl (Read2DError _), _) =>
      ret (NameList [], all_failed (l2_datasets l2))
  | (inl e, _) => raise e
  | (inr _, tempdoc) =>
      res <- for_fold (map_to_list (Document.data tempdoc))
               (Linked2DFile_move_in self) ([], ∅) ;;
      Document_setModified true ;;;
      ret (NameList (fst res), snd res)
  end.

(** [self.columns[i]] *)
Definition column (columns : list (option fitskey)) (i : nat)
  : PyErr + option fitskey :=
  match columns !! i with
  | Some c => inr c
  | None => inl (IndexError "list index out of range")
  end.

(** [LinkedFITSFile.reloadLinks(document)] *)
Definition LinkedFITSFile_reloadLinks (self : Link) (lfits : LinkedFITSFile)
  : M (names_read * gmap string Z) :=
  modify (Document.emit (call_reloadLinks (link_id self))) ;;;
  datacol <- lift (column (lfits_columns lfits) 0) ;;
  symerrcol <- lift (column (lfits_columns lfits) 1) ;;
  poserrcol <- lift (column (lfits_columns lfits) 2) ;;
  negerrcol <- lift (column (lfits_columns lfits) 3) ;;
  Document_importFITS (lfits_dsname lfits) (lfits_filename lfits)
    (lfits_hdu lfits) datacol symerrcol poserrcol negerrcol None ;;;
  ret (NameStr (lfits_dsname lfits), {[lfits_dsname lfits := 0]}).

(** [l.reloadLinks(document)], by the class of [l]. *)
Definition reloadLinks (l : Link) : M (names_read * gmap string Z) :=
  match link_obj l with
  | IsLinkedFile lf => LinkedFile_reloadLinks l lf
  | IsLinked2DFile l2 => Linked2DFile_reloadLinks l l2
  | IsLinkedFITSFile lfits => LinkedFITSFile_reloadLinks l lfits
  end.

(** The dictionary [links] of [reloadLinkedDatasets], keyed by the
    identity of the link. *)
Definition collect_links (data : gmap string AnyDataset) : gmap objid Link :=
  fold_left
    (fun links item =>
       match ds_linked (snd item) with
       | Some l => <[link_id l := l]> links
       | None => links
       end)
    (map_to_list data) ∅.

(** The body of the loop over [links.iterkeys()]: [errors.update]
    lets the new counts override. *)
Definition reload_and_merge (acc : list string * gmap string Z) (l : Link)
  : M (list string * gmap string Z) :=
  r <- reloadLinks l ;;
  ret (list_extend (fst acc) (fst r), snd r ∪ snd acc).

(** [Document.reloadLinkedDatasets] *)
Definition Document_reloadLinkedDatasets : M (list string * gmap string Z) :=
  data <- gets Document.data ;;
  let links := collect_links data in
  res <- (if negb (Nat.eqb (size links) 0) then
            res <- for_fold (map_to_list links).*2 reload_and_merge ([], ∅) ;;
            Document_setModified true ;;;
            ret res
          else ret ([], ∅)) ;;
  ret (list_sort (fst res), snd res).

End Importing.


(** ** Saving *)

(** The file is the list of the strings written to it, oldest first. *)
Definition file_write (file : list string) (s : string) : list string :=
  file ++ [s].

(** The rows [itertools.izip] yields from columns: as many as the
    shortest column has. *)
Definition izip (cols : list (list float)) : list (list float) :=
  match cols with
  | [] => []
  | c :: rest =>
      let n := fold_left Nat.min (map (@length float) rest) (length c) in
      map (fun i => map (fun col => nth i col 0%float) cols) (seq 0 n)
  end.

(** Iterating over an array: a rank-0 array cannot be iterated. *)
Definition nd_iter (a : option ndarray) : PyErr + list float :=
  match a with
  | Some (Arr1 l) => inr l
  | Some (Arr0 _) => inl (TypeError "iteration over a 0-d array")
  | None => inl (TypeError "izip argument must support iteration")
  end.

Section Saving.
Context `{External}.

Definition repr_bool (b : bool) : string := if b then "True" else "False".

Definition repr_range (r : pyrange) : string :=
  "(" +:+ repr_num (fst r) +:+ ", " +:+ repr_num (snd r) +:+ ")".

Definition repr_list (l : list string) : string :=
  "[" +:+ str_join ", " (map repr_str l) +:+ "]".

Definition repr_key (k : fitskey) : string :=
  match k with
  | KeyNum n => repr_num (PyInt n)
  | KeyName s => repr_str s
  end.

Definition repr_expr (e : option string) : string :=
  match e with
  | None => "None"
  | Some s => repr_str s
  end.

(** ['%s=%s' % (p, repr(v))] when [v] is not [None]. *)
Definition keyword {A} (p : string) (repr : A -> string) (v : option A)
  : list string :=
  match v with
  | Some x => [p +:+ "=" +:+ repr x]
  | None => []
  end.

(** [LinkedFile.saveToFile] *)
Definition LinkedFile_saveToFile (self : LinkedFile) (file : list string)
  : list string :=
  let params := [repr_str (lf_filename self); repr_str (lf_descriptor self);
                 "linked=True"]
                ++ (if lf_useblocks self then ["useblocks=True"] else []) in
  file_write file ("ImportFile(" +:+ str_join ", " params +:+ ")" +:+ nl).

(** [Linked2DFile.saveToFile] *)
Definition Linked2DFile_saveToFile (self : Linked2DFile) (file : list string)
  : list string :=
  let args := [repr_str (l2_filename self); repr_list (l2_datasets self)]
              ++ keyword "xrange" repr_range (l2_xrange self)
              ++ keyword "yrange" repr_range (l2_yrange self)
              ++ keyword "invertrows" repr_bool (l2_invertrows self)
              ++ keyword "invertcols" repr_bool (l2_invertcols self)
              ++ keyword "transpose" repr_bool (l2_transpose self)
              ++ ["linked=True"] in
  file_write file ("ImportFile2D(" +:+ str_join ", " args +:+ ")" +:+ nl).

(** [LinkedFITSFile.saveToFile] *)
Definition LinkedFITSFile_saveToFile (self : LinkedFITSFile)
    (file : list string) : list string :=
  let args := [repr_str (lfits_dsname self); repr_str (lfits_filename self);
               repr_key (lfits_hdu self)]
              ++ concat (zip_with (fun c a => keyword a repr_key c)
                           (lfits_columns self)
                           ["datacol"; "symerrcol"; "poserrcol"; "negerrcol"])
              ++ ["linked=True"] in
  file_write file ("ImportFITSFile(" +:+ str_join ", " args +:+ ")" +:+ nl).

Definition Link_saveToFile (l : Link) (file : list string) : list string :=
  match link_obj l with
  | IsLinkedFile lf => LinkedFile_saveToFile lf file
  | IsLinked2DFile l2 => Linked2DFile_saveToFile l2 file
  | IsLinkedFITSFile lfits => LinkedFITSFile_saveToFile lfits file
  end.

(** [DatasetBase.saveLinksToSavedDoc(file, savedlinks)] *)
Definition saveLinksToSavedDoc (self : AnyDataset)
    (file : list string) (savedlinks : gset objid)
  : list string * gset objid :=
  match ds_linked self with
  | Some l =>
      if bool_decide (link_id l ∈ savedlinks) then (file, savedlinks)
      else (Link_saveToFile l file, {[link_id l]} ∪ savedlinks)
  | None => (file, savedlinks)
  end.

(** ['%e %e ... %e' % row] *)
Definition fmt_row (row : list float) : string :=
  str_join " " (map (fun x => fmt_e (PyFloat x)) row).

(** [Dataset.saveToFile(file, name)] *)
Definition Dataset_saveToFile (self : Dataset.t) (file : list string)
    (name : string) : PyErr + list string :=
  match Dataset.linked self with
  | Some _ => inr file
  | None =>
      let present (tag : string) (a : option ndarray) :=
        match a with
        | Some _ => ([tag], [a])
        | None => ([], [])
        end in
      let s := present ",+-" (Dataset.serr self) in
      let p := present ",+" (Dataset.perr self) in
      let n := present ",-" (Dataset.nerr self) in
      let descriptor := name +:+ str_join "" (fst s ++ fst p ++ fst n) in
      let datasets := Dataset.data self :: snd s ++ snd p ++ snd n in
      let file1 :=
        file_write file ("ImportString(" +:+ repr_str descriptor +:+ ",'''" +:+ nl) in
      cols <~ emap nd_iter datasets ;;
      let file2 :=
        fold_left (fun f line => file_write f (fmt_row line +:+ nl))
                  (izip cols) file1 in
      inr (file_write file2 ("''')" +:+ nl))
  end.

(** [Dataset2D.saveToFile(file, name)] *)
Definition Dataset2D_saveToFile (self : Dataset2D.t) (file : list string)
    (name : string) : PyErr + list string :=
  match Dataset2D.linked self with
  | Some _ => inr file
  | None =>
      let file1 :=
        file_write file ("ImportString2D(" +:+ repr_str name +:+ ", '''" +:+ nl) in
      let file2 :=
        file_write file1
          ("xrange " +:+ fmt_e (fst (Dataset2D.xrange self)) +:+ " "
           +:+ fmt_e (snd (Dataset2D.xrange self)) +:+ nl) in
      let file3 :=
        file_write file2
          ("yrange " +:+ fmt_e (fst (Dataset2D.yrange self)) +:+ " "
           +:+ fmt_e (snd (Dataset2D.yrange self)) +:+ nl) in
      match Dataset2D.data self with
      | None => inl (TypeError "'NoneType' object is unsubscriptable")
      | Some a =>
          let file4 :=
            fold_left (fun f row => file_write f (fmt_row row +:+ nl))
                      (rev (rows a)) file3 in
          inr (file_write file4 ("''')" +:+ nl))
      end
  end.

(** [self.expr[part]] *)
Definition expr_item (self : DatasetExpression.t) (part : string)
  : PyErr + option string :=
  match DatasetExpression.expr self !! part with
  | Some e => inr e
  | None => inl (KeyError part)
  end.

(** ['%s=%s' % (kw, repr(e))] when the expression [e] is neither [None]
    nor empty. *)
Definition expr_keyword (kw : string) (e : option string) : list string :=
  match e with
  | Some s => if String.eqb s "" then [] else [kw +:+ "=" +:+ repr_str s]
  | None => []
  end.

(** [DatasetExpression.saveToFile(file, name)] *)
Definition DatasetExpression_saveToFile (self : DatasetExpression.t)
    (file : list string) (name : string) : PyErr + list string :=
  data <~ expr_item self "data" ;;
  serr <~ expr_item self "serr" ;;
  nerr <~ expr_item self "nerr" ;;
  perr <~ expr_item self "perr" ;;
  let parts := [repr_str name; repr_expr data]
               ++ expr_keyword "symerr" serr
               ++ expr_keyword "negerr" nerr
               ++ expr_keyword "poserr" perr
               ++ ["linked=True"] in
  inr (file_write file ("SetDataExpression(" +:+ str_join ", " parts +:+ ")" +:+ nl)).

(** [dataset.saveToFile(file, name)], by the class of the dataset. *)
Definition AnyDataset_saveToFile (self : AnyDataset) (file : list string)
    (name : string) : PyErr + list string :=
  match self with
  | IsDataset d => Dataset_saveToFile d file name
  | IsDataset2D d => Dataset2D_saveToFile d file name
  | IsDatasetExpression d => DatasetExpression_saveToFile d file name
  end.

(** The loop [for name, dataset in self.data.items():
    dataset.saveToFile(file, name)]. *)
Fixpoint save_datasets (items : list (string * AnyDataset)) (file : list string)
  : PyErr + list string :=
  match items with
  | [] => inr file
  | (name, dataset) :: rest =>
      file' <~ AnyDataset_saveToFile dataset file name ;;
      save_datasets rest file'
  end.

(** [Document.saveToFile(file)]; the result is the file written. *)
Definition Document_saveToFile (file : list string) : M (list string) :=
  self <- gets id ;;
  let file1 :=
    file_write file
      ("# Veusz saved document (version " +:+ utils_version +:+ ")" +:+ nl) in
  let file2 :=
    match environ_LOGNAME with
    | Some user => file_write file1 ("# User: " +:+ user +:+ nl)
    | None => file1
    end in
  let file3 := file_write file2 ("# Date: " +:+ time_now +:+ nl +:+ nl) in
  let items := map_to_list (Document.data self) in
  let file4 :=
    fst (fold_left (fun fs item => saveLinksToSavedDoc (snd item) (fst fs) (snd fs))
                   items (file3, ∅)) in
  file5 <- lift (save_datasets items file4) ;;
  let file6 :=
    file_write file5
      (Widget_getSaveText (Document.widgets self) (Document.basewidget self)) in
  Document_setModified false ;;;
  ret file6.

End Saving.


(** ** Arrays as objects: what [GetData] hands out *)

(** Whether a caller can reach a dataset's arrays through what a getter
    returns is a question about object identity.  Here the arrays of the
    plain datasets are objects in a store, and a dataset holds
    references to them. *)
Module DatasetObject.
Record t : Type := Mk {
  data : option objid;
  serr : option objid;
  nerr : option objid;
  perr : option objid
}.
End DatasetObject.

Module Memory.
Record t : Type := Mk {
  arrays : gmap objid ndarray;
  datasets : gmap string DatasetObject.t
}.
End Memory.

(** [a.copy()]: a new array object with the contents of [a]. *)
Definition nd_copy (a : objid) (m : Memory.t) : (PyErr + objid) * Memory.t :=
  match Memory.arrays m !! a with
  | Some contents =>
      let a' := fresh (dom (Memory.arrays m)) in
      (inr a', Memory.Mk (<[a' := contents]> (Memory.arrays m)) (Memory.datasets m))
  | None => (inl (RuntimeError "reference to no object"), m)
  end.

(** [if part != None: out = part.copy()] *)
Definition copy_part (part : option objid) (m : Memory.t)
  : (PyErr + option objid) * Memory.t :=
  match part with
  | None => (inr None, m)
  | Some a =>
      match nd_copy a m with
      | (inr a', m') => (inr (Some a'), m')
      | (inl e, m') => (inl e, m')
      end
  end.

(** The tuple [(data, serr, nerr, perr)]. *)
Definition parts (A : Type) : Type := (A * A * A * A)%type.

(** [CommandInterface.GetData(name)] on a plain dataset. *)
Definition CommandInterface_GetData (name : string) (m : Memory.t)
  : (PyErr + parts (option objid)) * Memory.t :=
  match Memory.datasets m !! name with
  | None => (inl (KeyError name), m)
  | Some d =>
      match copy_part (DatasetObject.data d) m with
      | (inl e, m1) => (inl e, m1)
      | (inr data, m1) =>
          match copy_part (DatasetObject.serr d) m1 with
          | (inl e, m2) => (inl e, m2)
          | (inr serr, m2) =>
              match copy_part (DatasetObject.nerr d) m2 with
              | (inl e, m3) => (inl e, m3)
              | (inr nerr, m3) =>
                  match copy_part (DatasetObject.perr d) m3 with
                  | (inl e, m4) => (inl e, m4)
                  | (inr perr, m4) => (inr (data, serr, nerr, perr), m4)
                  end
              end
          end
      end
  end.

(** What a reference shows: the contents of the array it refers to. *)
Definition deref (m : Memory.t) (r : option objid) : option ndarray :=
  match r with
  | None => None
  | Some a => Memory.arrays m !! a
  end.

Definition deref_parts (m : Memory.t) (r : parts (option objid))
  : parts (option ndarray) :=
  let '(data, serr, nerr, perr) := r in
  (deref m data, deref m serr, deref m nerr, deref m perr).

(** The state of the dataset: what its four attributes show. *)
Definition state_of (m : Memory.t) (d : DatasetObject.t) : parts (option ndarray) :=
  deref_parts m (DatasetObject.data d, DatasetObject.serr d,
                 DatasetObject.nerr d, DatasetObject.perr d).

(** Every reference of the dataset refers to an array. *)
Definition ref_ok (m : Memory.t) (r : option objid) : Prop :=
  match r with
  | None => True
  | Some a => is_Some (Memory.arrays m !! a)
  end.

Definition refs_ok (m : Memory.t) (d : DatasetObject.t) : Prop :=
  ref_ok m (DatasetObject.data d) /\ ref_ok m (DatasetObject.serr d)
  /\ ref_ok m (DatasetObject.nerr d) /\ ref_ok m (DatasetObject.perr d).

(** A write by the caller: an item or slice assignment, an in-place
    operation, a resize, any of which leaves the array object [target]
    with some contents [after]. *)
Record write : Type := MkWrite {
  target : objid;
  after : ndarray
}.

Definition apply_write (m : Memory.t) (w : write) : Memory.t :=
  match Memory.arrays m !! target w with
  | Some _ => Memory.Mk (<[target w := after w]> (Memory.arrays m))
                        (Memory.datasets m)
  | None => m
  end.

(** The array objects among the parts of a tuple. *)
Definition refs_of (r : parts (option objid)) : list objid :=
  let '(data, serr, nerr, perr) := r in
  omap id [data; serr; nerr; perr].

(** ** The operations of a document, as one type *)

Inductive DocOp : Type :=
| op_setModified (ismodified : bool)
| op_isModified
| op_wipe
| op_setData (name : string) (dataset : AnyDataset)
| op_reloadLinkedDatasets
| op_deleteDataset (name : string)
| op_renameDataset (oldname newname : string)
| op_duplicateDataset (name newname : string)
| op_unlinkDataset (name : string)
| op_getData (name : string)
| op_hasData (name : string)
| op_saveToFile (file : list string)
| op_resolve (fromwidget : objid) (where_ : string)
| op_import2D (filename : string) (datasets : list string)
    (xrange yrange : option pyrange)
    (invertrows invertcols transpose : option bool) (linked : option objid)
| op_importFITS (dsname filename : string) (hdu : fitskey)
    (datacol symerrcol poserrcol negerrcol : option fitskey)
    (linked : option objid)
| op_changeValues (name type : string) (vals : option ndarray)
| op_read (name part : string).

(** The operations that reach [setModified] whenever they return. *)
Definition modifies (op : DocOp) : bool :=
  match op with
  | op_setModified _ | op_wipe | op_setData _ _ | op_deleteDataset _
  | op_renameDataset _ _ | op_duplicateDataset _ _ | op_unlinkDataset _
  | op_saveToFile _ | op_importFITS _ _ _ _ _ _ _ _
  | op_changeValues _ _ _ => true
  | _ => false
  end.

Section Operations.
Context `{External}.

(** Forget the value an operation returns. *)
Definition void {A} (m : M A) : M unit := _ <- m ;; ret tt.

Definition run (op : DocOp) : M unit :=
  match op with
  | op_setModified b => Document_setModified b
  | op_isModified => void Document_isModified
  | op_wipe => Document_wipe
  | op_setData name ds => Document_setData name ds
  | op_reloadLinkedDatasets => void Document_reloadLinkedDatasets
  | op_deleteDataset name => Document_deleteDataset name
  | op_renameDataset o n => Document_renameDataset o n
  | op_duplicateDataset n n' => Document_duplicateDataset n n'
  | op_unlinkDataset name => Document_unlinkDataset name
  | op_getData name => void (Document_getData name)
  | op_hasData name => void (Document_hasData name)
  | op_saveToFile file => void (Document_saveToFile file)
  | op_resolve w p => void (fun d => (Document_resolve d w p, d))
  | op_import2D f ds xr yr ir ic tr l => Document_import2D f ds xr yr ir ic tr l
  | op_importFITS n f h c1 c2 c3 c4 l => Document_importFITS n f h c1 c2 c3 c4 l
  | op_changeValues n t v => Dataset_changeValues n t v
  | op_read n p => void (DatasetExpression__propValues n p)
  end.

End Operations.

(** How often [updateValues] was entered for the dataset [name]. *)
Definition evaluations (name : string) (d : Document.t) : nat :=
  length (filter (fun e => e = call_updateValues name) (Document.events d)).

(** The links on which [reloadLinks] was entered, oldest first. *)
Definition reloads (d : Document.t) : list objid :=
  omap (fun e => match e with
                 | call_reloadLinks l => Some l
                 | _ => None
                 end)
       (rev (Document.events d)).


(** ** A small outside world for the worked examples *)

(** Expressions are names of the environment; the file system holds a
    text file [run.dat] with the dataset [x], an image file [img.dat]
    with the grid [img], and a FITS table [sky.fits]. *)
Definition lab_eval (expr : string) (env : gmap string (option ndarray))
  : string + option ndarray :=
  match env !! expr with
  | Some v => inr v
  | None => inl ("name '" +:+ expr +:+ "' is not defined")
  end.

Definition lab_open (filename : string) : PyErr + string :=
  if String.eqb filename "run.dat" || String.eqb filename "img.dat"
  then inr filename
  else inl (IOError ("No such file or directory: '" +:+ filename +:+ "'")).

Definition lab_readData (descriptor : string) (strm : string)
  : PyErr + SimpleRead :=
  if String.eqb strm "run.dat" then
    inr (MkSimpleRead
           [("x", Dataset.Mk false (Some (Arr1 [10; 20; 30]%float))
                             None None None None)]
           {["x" := 0]})
  else inl (IOError "not a text file").

Definition lab_readData2D (sr : SimpleRead2D) (strm : string)
  : PyErr + (Read2D * string) :=
  if String.eqb strm "img.dat" && String.eqb (sr2_name sr) "img" then
    inr (MkRead2D (Some (Array2d 2 3 [[1; 2; 3]; [4; 5; 6]]%float))
                  (sr2_xrange sr) (sr2_yrange sr),
         strm)
  else inl (Read2DError "no such dataset in the file").

Definition lab_fits (filename : string) (hdu : fitskey) : PyErr + FitsHDU :=
  if String.eqb filename "sky.fits" then
    inr (MkFitsHDU (Some (fun _ => inr (Arr1 [7; 8; 9]%float)))
                   (inl (TypeError "a table is not an image"))
                   (fun _ => None))
  else inl (IOError "no such file").

Definition lab : External := {|
  py_eval := lab_eval;
  stream := string;
  open_stream := lab_open;
  SimpleRead_readData := lab_readData;
  SimpleRead2D_readData := lab_readData2D;
  pyfits_installed := true;
  pyfits_open := lab_fits;
  repr_str := fun s => "'" +:+ s +:+ "'";
  repr_num := fun _ => "0";
  fmt_e := fun _ => "0.000000e+00";
  utils_version := "0.5";
  environ_LOGNAME := None;
  time_now := "Thu, 01 Jan 2004 00:00:00 +0000";
  Widget_getSaveText := fun _ _ => "";
  recursion_limit := 300
|}.

(** A document as [Document()] leaves it, holding the given datasets. *)
Definition document_with (data : list (string * AnyDataset)) : Document.t :=
  Document.set_data (list_to_map data) Document_new.

(** A plain dataset that is set in a document. *)
Definition plain (data serr : option ndarray) (linked : option Link)
  : AnyDataset :=
  IsDataset (Dataset.Mk true data serr None None linked).


(** ** Statements about datasets *)

(** An error part that is present has the shape of the values. *)
Definition part_matches (data err : option ndarray) : Prop :=
  match err with
  | None => True
  | Some e => exists a, data = Some a /\ nd_shape e = nd_shape a
  end.

(** The invariant of a plain dataset. *)
Definition errors_match (d : Dataset.t) : Prop :=
  part_matches (Dataset.data d) (Dataset.serr d)
  /\ part_matches (Dataset.data d) (Dataset.nerr d)
  /\ part_matches (Dataset.data d) (Dataset.perr d).

(** The part names [changeValues] accepts. *)
Definition allowed_type (type : string) : bool :=
  String.eqb type "vals" || String.eqb type "serr"
  || String.eqb type "nerr" || String.eqb type "perr".


(** ** Statements about a document over time *)

(** [d'] is a later state of [d]: the counter has not gone down and the
    events of [d] are the oldest events of [d']. *)
Definition later (d d' : Document.t) : Prop :=
  Document.changeset d <= Document.changeset d'
  /\ exists evs, Document.events d' = evs ++ Document.events d.

(** A computation only moves a document forward. *)
Definition forward {A} (m : M A) : Prop :=
  forall d, later d (snd (m d)).

(** A computation that, whenever it returns, has raised the counter. *)
Definition bumping {A} (m : M A) : Prop :=
  forall d a d', m d = (inr a, d') ->
    Document.changeset d < Document.changeset d'.

(** The cached evaluation of an expression dataset cannot be used in
    the document [d]: the test of [_propValues] asks for a new one. *)
Definition stale (d : Document.t) (e : DatasetExpression.t) : Prop :=
  changeset_differs (Document.changeset d) (DatasetExpression.docchangeset e)
  = true.

(** The stamp of an expression dataset, when it has one, is a value the
    counter of the document has had. *)
Definition stamped_before (d : Document.t) (e : DatasetExpression.t) : Prop :=
  forall v, DatasetExpression.docchangeset e = Some v ->
            v <= Document.changeset d.

Section Sessions.
Context `{External}.

(** A session: operations one after the other, whether they return or
    raise. *)
Definition session (ops : list DocOp) (d : Document.t) : Document.t :=
  fold_left (fun d op => snd (run op d)) ops d.

End Sessions.

(** ** Worked documents *)

(** A plain dataset [temp] with symmetric errors and the expression
    dataset [tempC] that reads it, both set through [setData]. *)
Definition celsius_doc : Document.t :=
  @session lab
    [op_setData "temp"
       (IsDataset (Dataset.Mk false (Some (Arr1 [1; 2; 3]%float))
                              (Some (Arr1 [0.5; 0.5; 0.5]%float))
                              None None None));
     op_setData "tempC"
       (IsDatasetExpression (DatasetExpression_init (Some "temp") None None None))]
    Document_new.

(** The link that [importFITS("X", "sky.fits", 1, datacol="flux",
    linked=True)] creates. *)
Definition sky_link : Link :=
  MkLink 5%positive (IsLinkedFITSFile
              (MkLinkedFITSFile "X" "sky.fits" (KeyNum 1)
                 [Some (KeyName "flux"); None; None; None])).

(** A dataset imported from a FITS table as [X] and renamed to [Z];
    then the user's own, unlinked values set under the name [X]. *)
Definition sky_doc : Document.t :=
  @session lab
    [op_importFITS "X" "sky.fits" (KeyNum 1) (Some (KeyName "flux"))
       None None None (Some 5%positive);
     op_renameDataset "X" "Z";
     op_setData "X"
       (IsDataset (Dataset.Mk false (Some (Arr1 [1; 2]%float))
                              None None None None))]
    Document_new.

(** The link of a text file, and a document with one dataset that is
    linked to it and one that is not. *)
Definition run_link : Link :=
  MkLink 7%positive (IsLinkedFile (MkLinkedFile "run.dat" "x" false)).

Definition run_doc : Document.t :=
  @session lab
    [op_setData "x"
       (IsDataset (Dataset.Mk false (Some (Arr1 [1; 2; 3]%float))
                              None None None (Some run_link)));
     op_setData "y"
       (IsDataset (Dataset.Mk false (Some (Arr1 [5; 6]%float))
                              None None None None))]
    Document_new.

(** Statements that a computation keeps true. *)
Definition preserves {A} (P : Document.t -> Prop) (m : M A) : Prop :=
  forall d, P d -> P (snd (m d)).

(** What is stored under [name], when a reload of [l] may not touch it:
    nothing, or a dataset whose link is not [l]. *)
Definition not_linked_to (l : Link) (o : option AnyDataset) : Prop :=
  match o with
  | Some ds => linked_is (ds_linked ds) l = false
  | None => True
  end.

(** The mapping of the document has [o] under [name]. *)
Definition stored (name : string) (o : option AnyDataset) (d : Document.t)
  : Prop :=
  Document.data d !! name = o.

(** A reference that [copy] has made: it shows what the original shows
    and refers to an object that did not exist before. *)
Definition copy_of (m m' : Memory.t) (r r' : option objid) : Prop :=
  deref m' r' = deref m r
  /\ ref_ok m' r'
  /\ forall a, r' = Some a -> Memory.arrays m !! a = None.


(** A root with the page [page1], which holds the graph [graph1]. *)
Definition page_widgets : widget_store :=
  {[ 1%positive := Widget.Mk "/" "document" None [2%positive];
     2%positive := Widget.Mk "page1" "page" (Some 1%positive) [3%positive];
     3%positive := Widget.Mk "graph1" "graph" (Some 2%positive) [] ]}.

Definition page_doc : Document.t :=
  Document.set_tree page_widgets 1%positive Document_new.

(** The dataset [temp], its values and symmetric errors being the array
    objects 1 and 2. *)
Definition temp_object : DatasetObject.t :=
  DatasetObject.Mk (Some 1%positive) (Some 2%positive) None None.

Definition temp_memory : Memory.t :=
  Memory.Mk {[ 1%positive := Arr1 [1; 2; 3]%float;
               2%positive := Arr1 [0.5; 0.5; 0.5]%float ]}
            {[ "temp" := temp_object ]}.

(** ** Statements about reloading *)

(** [name] holds, in [d], a dataset whose link is [l]. *)
Definition linked_to (l : Link) (d : Document.t) (name : string) : bool :=
  match Document.data d !! name with
  | Some old => linked_is (ds_linked old) l
  | None => false
  end.

(** The names a reload of [l] moves in from a scratch document: its
    names that hold, in the live document, a dataset linked to [l]. *)
Definition refreshed (l : Link) (d tempdoc : Document.t) : list string :=
  List.filter (linked_to l d) (map_to_list (Document.data tempdoc)).*1.

(** [errors[name] = 0] for every name moved in. *)
Definition zero_counts (names : list string) (errors : gmap string Z)
  : gmap string Z :=
  fold_left (fun e n => <[n := 0]> e) names errors.

(** Two documents in which every name is linked to the same object. *)
Definition same_links (d d' : Document.t) : Prop :=
  forall l name, linked_to l d' name = linked_to l d name.

(** The links that reload through a scratch document. *)
Definition scratch_link (l : Link) : Prop :=
  match link_obj l with
  | IsLinkedFITSFile _ => False
  | _ => True
  end.

Section ReloadOutcome.
Context `{External}.

(** What a reload of [l] refreshes in [d], what it reports, and whether
    it gets as far as [setModified], read off the scratch document. *)
Definition names_refreshed (l : Link) (d : Document.t) : list string :=
  match link_obj l with
  | IsLinkedFile lf =>
      match LinkedFile_scratch l lf with
      | inr (tempdoc, _) => refreshed l d tempdoc
      | inl _ => []
      end
  | IsLinked2DFile l2 =>
      match Linked2DFile_scratch l2 with
      | (inr _, tempdoc) => refreshed l d tempdoc
      | (inl _, _) => []
      end
  | IsLinkedFITSFile _ => []
  end.

Definition errors_reported (l : Link) (d : Document.t) : gmap string Z :=
  match link_obj l with
  | IsLinkedFile lf =>
      match LinkedFile_scratch l lf with
      | inr (_, errors) => errors
      | inl _ => ∅
      end
  | IsLinked2DFile l2 =>
      match Linked2DFile_scratch l2 with
      | (inr _, tempdoc) => zero_counts (refreshed l d tempdoc) ∅
      | (inl _, _) => all_failed (l2_datasets l2)
      end
  | IsLinkedFITSFile _ => ∅
  end.

Definition moves_in (l : Link) : bool :=
  match link_obj l with
  | IsLinkedFile lf =>
      match LinkedFile_scratch l lf with
      | inr _ => true
      | inl _ => false
      end
  | IsLinked2DFile l2 =>
      match Linked2DFile_scratch l2 with
      | (inr _, _) => true
      | (inl _, _) => false
      end
  | IsLinkedFITSFile _ => true
  end.

(** The merge of the reports of the links, later ones overriding. *)
Definition merged_errors (ls : list Link) (d : Document.t)
    (errors : gmap string Z) : gmap string Z :=
  fold_left (fun e l => errors_reported l d ∪ e) ls errors.

End ReloadOutcome.

(** Every dataset of the mapping is linked to [l]. *)
Definition all_linked_to (l : Link) (d : Document.t) : Prop :=
  forall name ds, Document.data d !! name = Some ds ->
                  linked_is (ds_linked ds) l = true.

(** The links that the datasets of a document refer to, in the order
    [reloadLinkedDatasets] goes through them. *)
Definition links_of (d : Document.t) : list Link :=
  (map_to_list (collect_links (Document.data d))).*2.

(** The common shape of the two loop bodies that move datasets in: what
    is stored is [put] of the scratch dataset, and [note] records the
    name. *)
Definition move_in {S : Type} (self : Link) (put : AnyDataset -> AnyDataset)
    (note : S -> string -> S) (acc : S) (item : string * AnyDataset) : M S :=
  let name := fst item in
  live <- gets Document.data ;;
  match live !! name with
  | Some old =>
      if linked_is (ds_linked old) self then
        data_setitem name (put (snd item)) ;;;
        ret (note acc name)
      else ret acc
  | None => ret acc
  end.

(** For every expression dataset, whether it is bound to the document,
    and its stamp [docchangeset]. *)
Definition stamps (d : Document.t) : gmap string (bool * option Z) :=
  omap (fun ds => match ds with
                  | IsDatasetExpression e =>
                      Some (DatasetExpression.document e,
                            DatasetExpression.docchangeset e)
                  | _ => None
                  end)
       (Document.data d).

(** The stamps are [s]. *)
Definition stamped (s : gmap string (bool * option Z)) (d : Document.t) : Prop :=
  stamps d = s.


(** * More of the two modules *)

(** ** [Dataset.getPointRanges] *)

Fixpoint zip_sub (l1 l2 : list float) : list float :=
  match l1, l2 with
  | x :: l1', y :: l2' => PrimFloat.sub x y :: zip_sub l1' l2'
  | _, _ => []
  end.

(** [a - b], with the broadcasting of [nd_add]. *)
Definition nd_sub (a b : ndarray) : PyErr + ndarray :=
  match a, b with
  | Arr0 x, Arr0 y => inr (Arr0 (PrimFloat.sub x y))
  | Arr0 x, Arr1 l => inr (Arr1 (map (fun y => PrimFloat.sub x y) l))
  | Arr1 l, Arr0 y => inr (Arr1 (map (fun x => PrimFloat.sub x y) l))
  | Arr1 l1, Arr1 l2 =>
      if Nat.eqb (length l1) (length l2) then inr (Arr1 (zip_sub l1 l2))
      else match l1, l2 with
           | [x], _ => inr (Arr1 (map (fun y => PrimFloat.sub x y) l2))
           | _, [y] => inr (Arr1 (map (fun x => PrimFloat.sub x y) l1))
           | _, _ => inl (ValueError "Arrays have incompatible shapes")
           end
  end.

(** [a op= b]: the result has to fit the array on the left. *)
Definition in_place (op : ndarray -> ndarray -> PyErr + ndarray)
    (a b : ndarray) : PyErr + ndarray :=
  r <~ op a b ;;
  if bool_decide (nd_shape r = nd_shape a) then inr r
  else inl (ValueError "Arrays have incompatible shapes").

(** [if err != None: vals op= err] *)
Definition in_place_if (op : ndarray -> ndarray -> PyErr + ndarray)
    (vals : ndarray) (err : option ndarray) : PyErr + ndarray :=
  match err with
  | Some e => in_place op vals e
  | None => inr vals
  end.

(** [Dataset.getPointRanges] *)
Definition Dataset_getPointRanges (self : Dataset.t)
  : PyErr + (ndarray * ndarray) :=
  match Dataset.data self with
  | None => inl (AttributeError "'NoneType' object has no attribute 'copy'")
  | Some data =>
      let minvals := data in
      let maxvals := data in
      minvals1 <~ in_place_if nd_sub minvals (Dataset.serr self) ;;
      maxvals1 <~ in_place_if nd_add maxvals (Dataset.serr self) ;;
      minvals2 <~ in_place_if nd_add minvals1 (Dataset.nerr self) ;;
      maxvals2 <~ in_place_if nd_add maxvals1 (Dataset.perr self) ;;
      inr (minvals2, maxvals2)
  end.

(** ** [_recursiveGet] *)

(** A fold whose steps may raise. *)
Fixpoint efold {A S} (f : S -> A -> PyErr + S) (l : list A) (s : S)
  : PyErr + S :=
  match l with
  | [] => inr s
  | x :: rest => s' <~ f s x ;; efold f rest s'
  end.

(** Modelled from the spec: [obj.children], the ordered sequence of
    children of a widget. *)
Definition Widget_children (ws : widget_store) (obj : objid) : list objid :=
  match ws !! obj with
  | Some w => Widget.children w
  | None => []
  end.

(** [x == v or v == None] *)
Definition criterion (x : string) (v : option string) : bool :=
  match v with
  | None => true
  | Some s => String.eqb x s
  end.

(** The test of [_recursiveGet] on a child [w]. *)
Definition wanted (ws : widget_store) (name typename : option string)
    (w : objid) : bool :=
  match ws !! w with
  | Some x => criterion (Widget.name x) name
              && criterion (Widget.typename x) typename
  | None => false
  end.

(** [_recursiveGet(root, name, typename, outlist, maxlevels)]; the
    result is [outlist] after the call.  [depth] is how deep the
    interpreter lets the function call itself. *)
Fixpoint _recursiveGet (depth : nat) (ws : widget_store) (root : objid)
    (name typename : option string) (outlist : list objid) (maxlevels : Z)
  : PyErr + list objid :=
  match depth with
  | O => inl (RuntimeError "maximum recursion depth exceeded")
  | S depth' =>
      if negb (Z.eqb maxlevels 0) then
        let newmaxlevels := maxlevels - 1 in
        efold (fun out w =>
                 let out' := if wanted ws name typename w
                             then out ++ [w] else out in
                 _recursiveGet depth' ws w name typename out' newmaxlevels)
              (Widget_children ws root) outlist
      else inr outlist
  end.

(** ** More of [Document] *)

(** [Document.isBlank] *)
Definition Document_isBlank (self : Document.t) : bool :=
  Nat.eqb (length (Widget_children (Document.widgets self)
                                   (Document.basewidget self))) 0
  && Nat.eqb (size (Document.data self)) 0.

(** [Document.getNumberPages] *)
Definition Document_getNumberPages (self : Document.t) : nat :=
  length (Widget_children (Document.widgets self) (Document.basewidget self)).

(** ** More of [CommandInterface] *)

(** What the commands print when [verbose] is set goes through [str] and
    through the attribute [path] of the missing [widgets] module. *)
Class Console : Type := {
  (** [str(a)] for an array or [None] *)
  str_array : option ndarray -> string;
  (** [widget.path] *)
  Widget_path : widget_store -> objid -> string
}.

(** Modelled from the spec: [widget.childnames], the names of the
    children in their order. *)
Definition Widget_childnames (ws : widget_store) (obj : objid) : list string :=
  omap (fun c => Widget.name <$> ws !! c) (Widget_children ws obj).

(** [CommandInterface.__init__(document)]; the connection of [sigWiped]
    to [slotWipedDoc] is [wipe_connected] below. *)
Definition CommandInterface_init (document : Document.t) : CommandInterface.t :=
  CommandInterface.Mk (Document.basewidget document) false.

(** [CommandInterface.SetVerbose(v)] *)
Definition CommandInterface_SetVerbose (self : CommandInterface.t) (v : bool)
  : CommandInterface.t :=
  CommandInterface.Mk (CommandInterface.currentwidget self) v.

(** [CommandInterface.GetChildren(where)] *)
Definition CommandInterface_GetChildren (self : CommandInterface.t)
    (document : Document.t) (where_ : string) : PyErr + list string :=
  w <~ CommandInterface__resolve self document where_ ;;
  inr (Widget_childnames (Document.widgets document) w).

(** [CommandInterface.GetDatasets()] *)
Definition CommandInterface_GetDatasets (document : Document.t) : list string :=
  list_sort (map_to_list (Document.data document)).*1.

Section Commands.
Context `{Console}.

(** [CommandInterface.To(where)]: the interface afterwards and the lines
    printed. *)
Definition CommandInterface_To (self : CommandInterface.t)
    (document : Document.t) (where_ : string)
  : PyErr + (CommandInterface.t * list string) :=
  w <~ CommandInterface__resolve self document where_ ;;
  inr (CommandInterface.Mk w (CommandInterface.verbose self),
       if CommandInterface.verbose self
       then ["Changed to graph '"
             +:+ Widget_path (Document.widgets document) w +:+ "'"]
       else []).

(** [CommandInterface.slotWipedDoc()] *)
Definition CommandInterface_slotWipedDoc (self : CommandInterface.t)
    (document : Document.t) : PyErr + (CommandInterface.t * list string) :=
  CommandInterface_To self document "/".

(** [Document.wipe()] with a command interface connected: [sigWiped] is
    emitted last and runs the slot before [wipe] returns. *)
Definition wipe_connected (ci : CommandInterface.t)
  : M (CommandInterface.t * list string) :=
  Document_wipe ;;;
  (fun d => (CommandInterface_slotWipedDoc ci d, d)).

(** [CommandInterface.SetData(name, val, symerr, negerr, poserr)]; the
    result is what was printed. *)
Definition CommandInterface_SetData (self : CommandInterface.t) (name : string)
    (val symerr negerr poserr : option ndarray) : M (list string) :=
  data <- lift (Dataset_init val symerr negerr poserr None) ;;
  Document_setData name (IsDataset data) ;;;
  ret (if CommandInterface.verbose self
       then ["Set variable '" +:+ name +:+ "':";
             "Values = " +:+ str_array (Dataset.data data);
             "Symmetric errors = " +:+ str_array (Dataset.serr data);
             "Negative errors = " +:+ str_array (Dataset.nerr data);
             "Positive errors = " +:+ str_array (Dataset.perr data)]
       else []).

End Commands.

(** ** Statements about saving *)

(** The identities of the links of the datasets in a list of items. *)
Definition link_ids (items : list (string * AnyDataset)) : gset objid :=
  list_to_set (omap (fun item => link_id <$> ds_linked (snd item)) items).

(** The loop [for name, dataset in self.data.items():
    dataset.saveLinksToSavedDoc(file, savedlinks)] of [saveToFile]. *)
Definition save_links `{External} (items : list (string * AnyDataset))
    (file : list string) (savedlinks : gset objid)
  : list string * gset objid :=
  fold_left (fun fs item => saveLinksToSavedDoc (snd item) (fst fs) (snd fs))
            items (file, savedlinks).


(** ** Statements about the command interface *)

(** The widget a [To] ends at, or its error. *)
Definition arrival (r : PyErr + (CommandInterface.t * list string))
  : PyErr + objid :=
  match r with
  | inr (ci, _) => inr (CommandInterface.currentwidget ci)
  | inl e => inl e
  end.

(** A console that prints an array as [array] and the path of a widget as
    its name. *)
Definition lab_console : Console := {|
  str_array := fun a => match a with
                        | Some _ => "array"
                        | None => "None"
                        end;
  Widget_path := fun ws w => match ws !! w with
                             | Some x => Widget.name x
                             | None => "?"
                             end
|}.

(** ** Statements about imports and reloads *)

(** [ds.document != None] *)
Definition ds_document (ds : AnyDataset) : bool :=
  match ds with
  | IsDataset d => Dataset.document d
  | IsDataset2D d => Dataset2D.document d
  | IsDatasetExpression d => DatasetExpression.document d
  end.

(** The link that [importFITS(..., linked=True)] creates, with the
    identity [id]. *)
Definition fits_link (id : objid) (dsname filename : string) (hdu : fitskey)
    (datacol symerrcol poserrcol negerrcol : option fitskey) : Link :=
  MkLink id (IsLinkedFITSFile
               (MkLinkedFITSFile dsname filename hdu
                  [datacol; symerrcol; poserrcol; negerrcol])).

(** What the loop that moves datasets in leaves under the name [k]: the
    scratch dataset, as [put] stores it, where the live document holds
    under [k] a dataset linked to [self] and the scratch document has
    the name; what was there otherwise. *)
Definition moved_in (self : Link) (put : AnyDataset -> AnyDataset)
    (scratch live : gmap string AnyDataset) (k : string)
  : option AnyDataset :=
  match live !! k with
  | Some old =>
      if linked_is (ds_linked old) self then
        match scratch !! k with
        | Some x => Some (put x)
        | None => Some old
        end
      else Some old
  | None => None
  end.

(** * Properties *)

(** ** Splitting paths *)

Lemma str_split_slash_nonempty (s : string) : str_split_slash s <> [].
Proof.
  destruct s as [|c s]; simpl; [discriminate|].
  destruct (Ascii.eqb c "/"%char); [discriminate|].
  destruct (str_split_slash s); discriminate.
Qed.

Lemma str_split_slash_app (s1 s2 : string) :
  str_split_slash (s1 +:+ "/" +:+ s2) = str_split_slash s1 ++ str_split_slash s2.
Proof.
  induction s1 as [|c s1 IH]; simpl.
  - reflexivity.
  - destruct (Ascii.eqb c "/"%char).
    + simpl. f_equal. exact IH.
    + simpl in IH. rewrite IH.
      pose proof (str_split_slash_nonempty s1) as Hne.
      destruct (str_split_slash s1); [contradiction | reflexivity].
Qed.

Lemma str_split_slash_name (s : string) :
  has_slash s = false -> str_split_slash s = [s].
Proof.
  induction s as [|c s IH]; simpl; intros H.
  - reflexivity.
  - apply orb_false_iff in H as [Hc Hs].
    rewrite Hc, (IH Hs). reflexivity.
Qed.

Lemma Document_resolve_parts_app ws obj l1 l2 :
  Document_resolve_parts ws obj (l1 ++ l2) =
  match Document_resolve_parts ws obj l1 with
  | inr o => Document_resolve_parts ws o l2
  | inl e => inl e
  end.
Proof.
  revert obj. induction l1 as [|p l1 IH]; intros obj; simpl.
  - reflexivity.
  - destruct (String.eqb p "..").
    + destruct (Widget_parent ws obj); [apply IH | reflexivity].
    + destruct (String.eqb p "." || Nat.eqb (String.length p) 0); [apply IH|].
      destruct (Widget_getChild ws obj p); [apply IH | reflexivity].
Qed.

Lemma widgets_ok_parent ws o nm c :
  widgets_ok ws = true ->
  Widget_getChild ws o nm = Some c -> Widget_parent ws c = Some o.
Proof.
  unfold widgets_ok, Widget_getChild, Widget_parent. intros Hok Hc.
  destruct (ws !! o) as [w|] eqn:Hw; [|discriminate].
  rewrite forallb_forall in Hok.
  specialize (Hok (o, w)). simpl in Hok.
  assert (Hin : In (o, w) (map_to_list ws)).
  { apply list_elem_of_In, elem_of_map_to_list. exact Hw. }
  specialize (Hok Hin). rewrite forallb_forall in Hok.
  apply find_some in Hc as [Hcin _].
  specialize (Hok c Hcin). unfold child_points_back in Hok.
  destruct (ws !! c) as [cw|]; [|discriminate].
  apply bool_decide_eq_true in Hok. exact Hok.
Qed.

(** Going down into a child and up again is staying. *)
Lemma Document_resolve_parts_down_up ws o b :
  widgets_ok ws = true -> is_child_segment b = true ->
  forall n, Document_resolve_parts ws o [b; ".."] = inr n -> n = o.
Proof.
  intros Hok Hb n. unfold is_child_segment in Hb.
  apply andb_true_iff in Hb as [Hb H0]. apply andb_true_iff in Hb as [Hdd Hd].
  apply negb_true_iff in Hdd, Hd, H0.
  simpl. rewrite Hdd, Hd, H0. simpl.
  destruct (Widget_getChild ws o b) as [c|] eqn:Hc; [|discriminate].
  rewrite (widgets_ok_parent _ _ _ _ Hok Hc). congruence.
Qed.

Lemma first_char_slash (s : string) :
  String.eqb (String.substring 0 1 ("/" +:+ s)) "/" = true.
Proof. simpl. destruct s; reflexivity. Qed.

(** C4: from any origin, ["/a/b/.."] resolves to the node ["/a"]
    resolves to whenever both resolve ([b] being a child's name);
    ["."] resolves to the node one starts from; and a walk that reaches a
    node with no child called as the next segment asks fails with the
    error [Child '<segment>' does not exist]. *)
Theorem resolve_paths (doc : Document.t) :
  (widgets_ok (Document.widgets doc) = true ->
   forall origin a b n1 n2,
     has_slash b = false -> is_child_segment b = true ->
     Document_resolve doc origin ("/" +:+ a +:+ "/" +:+ b +:+ "/..") = inr n1 ->
     Document_resolve doc origin ("/" +:+ a) = inr n2 ->
     n1 = n2)
  /\ (forall node, Document_resolve doc node "." = inr node)
  /\ (forall origin where_ before p rest start cur,
        str_split_slash where_ = before ++ p :: rest ->
        start = (if String.eqb (String.substring 0 1 where_) "/"
                 then Document.basewidget doc else origin) ->
        Document_resolve_parts (Document.widgets doc) start before = inr cur ->
        is_child_segment p = true ->
        Widget_getChild (Document.widgets doc) cur p = None ->
        Document_resolve doc origin where_ =
          inl (ValueError ("Child '" +:+ p +:+ "' does not exist"))).
Proof.
  split; [|split].
  - intros Hok origin a b n1 n2 Hsl Hb H1 H2.
    unfold Document_resolve in H1, H2.
    change ("/" +:+ a +:+ "/" +:+ b +:+ "/..")
      with (("/" +:+ a) +:+ "/" +:+ (b +:+ "/" +:+ "..")) in H1.
    rewrite first_char_slash in H2.
    replace (String.eqb (String.substring 0 1
               (("/" +:+ a) +:+ "/" +:+ b +:+ "/" +:+ "..")) "/")
      with true in H1 by (simpl; destruct a; reflexivity).
    rewrite str_split_slash_app, str_split_slash_app in H1.
    rewrite (str_split_slash_name b Hsl) in H1.
    rewrite Document_resolve_parts_app, H2 in H1.
    apply (Document_resolve_parts_down_up _ _ _ Hok Hb) in H1. exact H1.
  - intros node. reflexivity.
  - intros origin where_ before p rest start cur Hsplit Hstart Hwalk Hp Hnone.
    unfold Document_resolve. rewrite Hsplit, <- Hstart.
    rewrite Document_resolve_parts_app, Hwalk.
    unfold is_child_segment in Hp.
    apply andb_true_iff in Hp as [Hp H0]. apply andb_true_iff in Hp as [Hdd Hd].
    apply negb_true_iff in Hdd, Hd, H0.
    simpl. rewrite Hdd, Hd, H0, Hnone. reflexivity.
Qed.

(** C7: the command interface's resolver, with its current widget as
    origin, and the document's resolver give the same widget or the same
    error on every path. *)
Theorem resolve_same_from_command_interface
    (ci : CommandInterface.t) (doc : Document.t) (where_ : string) :
  CommandInterface__resolve ci doc where_ =
  Document_resolve doc (CommandInterface.currentwidget ci) where_.
Proof.
  unfold CommandInterface__resolve, Document_resolve.
  generalize (if String.eqb (String.substring 0 1 where_) "/"
              then Document.basewidget doc
              else CommandInterface.currentwidget ci).
  generalize (Document.widgets doc) as ws.
  induction (str_split_slash where_) as [|p parts IH]; intros ws obj; simpl.
  - reflexivity.
  - destruct (String.eqb p "..").
    + destruct (Widget_parent ws obj); [apply IH | reflexivity].
    + destruct (String.eqb p "." || Nat.eqb (String.length p) 0); [apply IH|].
      destruct (Widget_getChild ws obj p); [apply IH | reflexivity].
Qed.

(** ** Two-dimensional datasets *)

Lemma Dataset2D_init_default_ranges (a : array2d) :
  Dataset2D_init (Some a) None None =
  inr (Dataset2D.Mk false None (Some a)
         (PyInt 0, PyInt (Z.of_nat (shape0 a)))
         (PyInt 0, PyInt (Z.of_nat (shape1 a)))).
Proof. reflexivity. Qed.

(** C8: a grid of two rows and three columns, built without ranges, gets
    the x-range [(0, 2)], its number of rows, and the y-range [(0, 3)],
    its number of columns, while rows are y and columns are x in
    [saveToFile] and in [importFITS]. *)
Theorem Dataset2D_init_two_rows_three_columns :
  let grid := Array2d 2 3 [[1; 2; 3]; [4; 5; 6]]%float in
  exists ds, Dataset2D_init (Some grid) None None = inr ds
    /\ Dataset2D.xrange ds = (PyInt 0, PyInt 2)
    /\ Dataset2D.yrange ds = (PyInt 0, PyInt 3).
Proof. eexists. repeat split. Qed.

(** ** Duplicating onto a name in use *)

(** C5: when [newname] already maps to a dataset, [duplicateDataset]
    raises [ValueError] with the text [Dataset <newname> already exists]
    and the document is as it was, so both datasets keep their values. *)
Theorem duplicateDataset_collision `{External}
    (doc : Document.t) (name newname : string) :
  is_Some (Document.data doc !! newname) ->
  Document_duplicateDataset name newname doc =
    (inl (ValueError ("Dataset " +:+ newname +:+ " already exists")), doc).
Proof.
  intros Hin. unfold Document_duplicateDataset, bind, gets. simpl.
  rewrite bool_decide_eq_true_2 by exact Hin. reflexivity.
Qed.

Lemma duplicateDataset_collision_witness :
  let doc := document_with
               [("A", plain (Some (Arr1 [1; 2]%float)) None None);
                ("B", plain (Some (Arr1 [3]%float)) None None)] in
  is_Some (Document.data doc !! "B")
  /\ @Document_duplicateDataset lab "A" "B" doc =
       (inl (ValueError "Dataset B already exists"), doc).
Proof.
  intros doc.
  assert (Hin : is_Some (Document.data doc !! "B")) by (vm_compute; eauto).
  split; [exact Hin|].
  exact (@duplicateDataset_collision lab doc "A" "B" Hin).
Defined.

(** ** Changing the values of a plain dataset *)

Lemma shape_ok_matches (a : ndarray) (err : option ndarray) :
  shape_ok (nd_shape a) err = true -> part_matches (Some a) err.
Proof.
  destruct err as [e|]; simpl; [|trivial].
  intros Hs. apply bool_decide_eq_true in Hs. eauto.
Qed.

Lemma Dataset_check_shapes_ok (d : Dataset.t) :
  Dataset_check_shapes d = inr tt -> errors_match d.
Proof.
  unfold Dataset_check_shapes, errors_match.
  destruct (Dataset.data d) as [a|]; [|discriminate].
  destruct (shape_ok (nd_shape a) (Dataset.serr d)) eqn:Hs; [|discriminate].
  destruct (shape_ok (nd_shape a) (Dataset.nerr d)) eqn:Hn; [|discriminate].
  destruct (shape_ok (nd_shape a) (Dataset.perr d)) eqn:Hp; [|discriminate].
  intros _. auto using shape_ok_matches.
Qed.

Lemma Dataset_changeValues_assign_refused self type vals :
  allowed_type type = false ->
  Dataset_changeValues_assign self type vals =
    inl (ValueError "type does not contain an allowed value").
Proof.
  unfold allowed_type, Dataset_changeValues_assign. intros Ht.
  repeat (apply orb_false_iff in Ht as [Ht ?]).
  repeat match goal with E : String.eqb _ _ = false |- _ => rewrite E; clear E end.
  reflexivity.
Qed.

Lemma Dataset_changeValues_assign_allowed self type vals :
  allowed_type type = true ->
  exists self', Dataset_changeValues_assign self type vals = inr self'.
Proof.
  unfold allowed_type, Dataset_changeValues_assign. intros Ht.
  destruct (String.eqb type "vals"); [eauto|].
  destruct (String.eqb type "serr"); [eauto|].
  destruct (String.eqb type "nerr"); [eauto|].
  destruct (String.eqb type "perr"); [eauto|discriminate].
Qed.

(** C2, as the code has it: when [changeValues] returns, every error
    part that is present has the shape of the values.  A type other than
    [vals], [serr], [nerr], [perr] is refused with [ValueError] before
    anything is changed.  Every other failure comes after the assignment:
    the dataset then holds [vals] in the requested part, its other parts
    and all other datasets are as before, and the document was not told
    (no change of the counter, of the flag or of the events). *)
Theorem changeValues_outcomes (doc : Document.t) (name : string)
    (self : Dataset.t) (type : string) (vals : option ndarray) :
  Document.data doc !! name = Some (IsDataset self) ->
  match Dataset_changeValues name type vals doc with
  | (inr _, doc') =>
      exists self',
        Dataset_changeValues_assign self type vals = inr self'
        /\ Document.data doc' !! name = Some (IsDataset self')
        /\ errors_match self'
  | (inl e, doc') =>
      if allowed_type type then
        exists self',
          Dataset_changeValues_assign self type vals = inr self'
          /\ doc' = Document.set_data
                      (<[name := IsDataset self']> (Document.data doc)) doc
      else
        e = ValueError "type does not contain an allowed value" /\ doc' = doc
  end.
Proof.
  intros Hself.
  unfold Dataset_changeValues, data_item, data_setitem, bind, gets, lift,
    modify, ret, raise. simpl. rewrite Hself.
  destruct (allowed_type type) eqn:Ht.
  - destruct (Dataset_changeValues_assign_allowed self type vals Ht)
      as [self' Hassign].
    rewrite Hassign.
    destruct (Dataset_check_shapes self') as [e|[]] eqn:Hcheck.
    + exists self'. split; [reflexivity|]. reflexivity.
    + destruct (Dataset.document self'); simpl.
      * exists self'. split; [reflexivity|]. split.
        -- apply lookup_insert_eq.
        -- apply Dataset_check_shapes_ok, Hcheck.
      * exists self'. split; reflexivity.
  - rewrite (Dataset_changeValues_assign_refused self type vals Ht).
    split; reflexivity.
Qed.

Lemma changeValues_outcomes_witness :
  let self := Dataset.Mk true (Some (Arr1 [1; 2; 3]%float)) None None None None in
  let doc := document_with [("temp", IsDataset self)] in
  Document.data doc !! "temp" = Some (IsDataset self)
  /\ exists doc' self',
       Dataset_changeValues "temp" "serr" (Some (Arr1 [4; 5; 6]%float)) doc
         = (inr tt, doc')
       /\ Document.data doc' !! "temp" = Some (IsDataset self')
       /\ errors_match self'.
Proof.
  intros self doc.
  assert (Hself : Document.data doc !! "temp" = Some (IsDataset self))
    by (vm_compute; reflexivity).
  split; [exact Hself|].
  pose proof (changeValues_outcomes doc "temp" self "serr"
                (Some (Arr1 [4; 5; 6]%float)) Hself) as Hout.
  destruct (Dataset_changeValues "temp" "serr" (Some (Arr1 [4; 5; 6]%float)) doc)
    as [[e|[]] doc'] eqn:Hrun.
  - vm_compute in Hrun. discriminate Hrun.
  - destruct Hout as (self' & _ & Hlook & Hinv).
    exists doc', self'. auto.
Defined.

(** C2, as stated, fails: an error part of the wrong length is stored
    before the check raises, so the call fails and the dataset is no
    longer what it was. *)
Lemma changeValues_fails_after_assignment :
  let self := Dataset.Mk true (Some (Arr1 [1; 2; 3]%float)) None None None None in
  let doc := document_with [("temp", IsDataset self)] in
  let out := Dataset_changeValues "temp" "serr" (Some (Arr1 [4; 5]%float)) doc in
  ~ ((exists doc' self',
        out = (inr tt, doc')
        /\ Document.data doc' !! "temp" = Some (IsDataset self')
        /\ errors_match self')
     \/ (exists e doc',
           out = (inl e, doc')
           /\ Document.data doc' !! "temp" = Some (IsDataset self))).
Proof.
  intros self doc out.
  assert (Hout : exists doc',
             out = (inl AssertionError, doc')
             /\ Document.data doc' !! "temp"
                = Some (IsDataset
                          (Dataset.set_serr (Some (Arr1 [4; 5]%float)) self))).
  { eexists. split; vm_compute; reflexivity. }
  destruct Hout as (doc1 & Hrun & Hstored).
  intros [(doc' & self' & Hok & _) | (e & doc' & Hfail & Hsame)].
  - rewrite Hrun in Hok. discriminate Hok.
  - rewrite Hrun in Hfail. injection Hfail as _ <-.
    rewrite Hstored in Hsame. discriminate Hsame.
Qed.

(** ** The change counter *)

Lemma later_refl d : later d d.
Proof. split; [lia | exists []; reflexivity]. Qed.

Lemma later_trans d1 d2 d3 : later d1 d2 -> later d2 d3 -> later d1 d3.
Proof.
  intros [H1 [e1 E1]] [H2 [e2 E2]]. split; [lia|].
  exists (e2 ++ e1). rewrite E2, E1. apply app_assoc.
Qed.

Lemma forward_ret {A} (a : A) : forward (ret a).
Proof. intros d. apply later_refl. Qed.

Lemma forward_raise {A} (e : PyErr) : forward (@raise A e).
Proof. intros d. apply later_refl. Qed.

Lemma forward_lift {A} (r : PyErr + A) : forward (lift r).
Proof. intros d. apply later_refl. Qed.

Lemma forward_gets {A} (f : Document.t -> A) : forward (gets f).
Proof. intros d. apply later_refl. Qed.

Lemma forward_bind {A B} (m : M A) (k : A -> M B) :
  forward m -> (forall a, forward (k a)) -> forward (bind m k).
Proof.
  intros Hm Hk d. unfold bind. specialize (Hm d).
  destruct (m d) as [[e|a] d1]; simpl in *; [exact Hm|].
  eapply later_trans; [exact Hm | apply Hk].
Qed.

Lemma forward_modify (f : Document.t -> Document.t) :
  (forall d, later d (f d)) -> forward (modify f).
Proof. intros Hf d. apply Hf. Qed.

Lemma forward_set_data (f : Document.t -> gmap string AnyDataset) :
  forward (modify (fun d => Document.set_data (f d) d)).
Proof.
  apply forward_modify. intros d. split; simpl; [lia | exists []; reflexivity].
Qed.

Lemma forward_set_tree ws root : forward (modify (Document.set_tree ws root)).
Proof.
  apply forward_modify. intros d. split; simpl; [lia | exists []; reflexivity].
Qed.

Lemma forward_set_flag b : forward (modify (Document.set_modified b)).
Proof.
  apply forward_modify. intros d. split; simpl; [lia | exists []; reflexivity].
Qed.

Lemma forward_emit ev : forward (modify (Document.emit ev)).
Proof.
  apply forward_modify. intros d. split; simpl; [lia|].
  exists [ev]. reflexivity.
Qed.

Lemma forward_count :
  forward (modify (fun d => Document.set_changeset (Document.changeset d + 1) d)).
Proof.
  apply forward_modify. intros d. split; simpl; [lia|].
  exists []. reflexivity.
Qed.

Lemma forward_for_each {A} (l : list A) (body : A -> M unit) :
  (forall x, forward (body x)) -> forward (for_each l body).
Proof.
  intros Hb. induction l as [|x l IH]; simpl.
  - apply forward_ret.
  - apply forward_bind; [apply Hb | intros _; exact IH].
Qed.

Lemma forward_for_fold {A S} (l : list A) (body : S -> A -> M S) (s : S) :
  (forall s x, forward (body s x)) -> forward (for_fold l body s).
Proof.
  intros Hb. revert s. induction l as [|x l IH]; intros s; simpl.
  - apply forward_ret.
  - apply forward_bind; [apply Hb | intros s'; apply IH].
Qed.

(** A computation that only reads leaves the document as it is. *)
Lemma forward_read {A} (f : Document.t -> PyErr + A) :
  forward (fun d => (f d, d)).
Proof. intros d. apply later_refl. Qed.

Create HintDb forward.
#[local] Hint Resolve forward_ret forward_raise forward_lift forward_gets
  forward_set_data forward_set_tree forward_set_flag forward_emit
  forward_count forward_read : forward.

(** Take a computation apart along its binds, loops and case
    distinctions. *)
Ltac forward_step :=
  match goal with
  | |- forward (bind _ _) => apply forward_bind; [|intros ?]
  | |- forward (for_each _ _) => apply forward_for_each; intros ?
  | |- forward (for_fold _ _ _) => apply forward_for_fold; intros ? ?
  | |- forward (match ?x with _ => _ end) => destruct x
  | |- forward (let '(_, _) := ?x in _) => destruct x
  | |- forward _ => solve [auto with forward]
  end.

Ltac forward_all := repeat forward_step.

Lemma forward_setModified b : forward (Document_setModified b).
Proof. unfold Document_setModified. forward_all. Qed.

#[local] Hint Resolve forward_setModified : forward.

Lemma forward_data_item name : forward (data_item name).
Proof. unfold data_item. forward_all. Qed.

Lemma forward_data_setitem name ds : forward (data_setitem name ds).
Proof. unfold data_setitem. forward_all. Qed.

#[local] Hint Resolve forward_data_item forward_data_setitem : forward.

Lemma forward_wipe : forward Document_wipe.
Proof. unfold Document_wipe. forward_all. Qed.

Lemma forward_setData name ds : forward (Document_setData name ds).
Proof. unfold Document_setData. forward_all. Qed.

#[local] Hint Resolve forward_wipe forward_setData : forward.

Lemma forward_deleteDataset name : forward (Document_deleteDataset name).
Proof. unfold Document_deleteDataset. forward_all. Qed.

Lemma forward_renameDataset o n : forward (Document_renameDataset o n).
Proof. unfold Document_renameDataset. forward_all. Qed.

Lemma forward_unlinkDataset name : forward (Document_unlinkDataset name).
Proof. unfold Document_unlinkDataset. forward_all. Qed.

Lemma forward_changeValues name type vals :
  forward (Dataset_changeValues name type vals).
Proof. unfold Dataset_changeValues. forward_all. Qed.

Lemma forward_self_expression self : forward (self_expression self).
Proof. unfold self_expression. forward_all. Qed.

#[local] Hint Resolve forward_self_expression : forward.

Lemma forward_set_evaluated self part v : forward (set_evaluated self part v).
Proof. unfold set_evaluated. forward_all. Qed.

#[local] Hint Resolve forward_set_evaluated : forward.

Section Forward.
Context `{External}.

Lemma forward_getattr_part prop name part :
  (forall n p, forward (prop n p)) -> forward (getattr_part prop name part).
Proof. intros Hp. unfold getattr_part. forward_all. Qed.

Lemma forward_populate_env prop self part names :
  (forall n p, forward (prop n p)) ->
  forward (populate_env prop self part names).
Proof.
  intros Hp. unfold populate_env.
  forward_all; try (apply forward_getattr_part, Hp).
Qed.

Lemma forward_updateValues prop self :
  (forall n p, forward (prop n p)) ->
  forward (DatasetExpression_updateValues prop self).
Proof.
  intros Hp. unfold DatasetExpression_updateValues.
  forward_all; try (apply forward_populate_env, Hp).
Qed.

Lemma forward_propValues_at depth self name :
  forward (DatasetExpression__propValues_at depth self name).
Proof.
  revert self name. induction depth as [|depth IH]; intros self name; simpl.
  - forward_all.
  - forward_all; try (apply forward_updateValues, IH).
Qed.

Lemma forward_propValues self name :
  forward (DatasetExpression__propValues self name).
Proof. apply forward_propValues_at. Qed.

#[local] Hint Resolve forward_propValues : forward.

Lemma forward_duplicate name : forward (duplicate name).
Proof. unfold duplicate. forward_all. Qed.

#[local] Hint Resolve forward_duplicate : forward.

Lemma forward_duplicateDataset name newname :
  forward (Document_duplicateDataset name newname).
Proof. unfold Document_duplicateDataset. forward_all. Qed.

Lemma forward_import2D f ds xr yr ir ic tr l :
  forward (Document_import2D f ds xr yr ir ic tr l).
Proof.
  unfold Document_import2D, SimpleRead2D_setInDocument. forward_all.
Qed.

Lemma forward_importFITS n f h c1 c2 c3 c4 l :
  forward (Document_importFITS n f h c1 c2 c3 c4 l).
Proof. unfold Document_importFITS. forward_all. Qed.

#[local] Hint Resolve forward_importFITS : forward.

Lemma forward_reloadLinks l : forward (reloadLinks l).
Proof.
  unfold reloadLinks, LinkedFile_reloadLinks, Linked2DFile_reloadLinks,
    LinkedFITSFile_reloadLinks, LinkedFile_move_in, Linked2DFile_move_in.
  forward_all.
Qed.

#[local] Hint Resolve forward_reloadLinks : forward.

Lemma forward_reloadLinkedDatasets : forward Document_reloadLinkedDatasets.
Proof.
  unfold Document_reloadLinkedDatasets, reload_and_merge. forward_all.
Qed.

Lemma forward_saveToFile file : forward (Document_saveToFile file).
Proof. unfold Document_saveToFile. forward_all. Qed.

(** No operation of a document takes the counter back or forgets an
    event. *)
Lemma forward_run (op : DocOp) : forward (run op).
Proof.
  destruct op; simpl; unfold void, Document_isModified, Document_getData,
    Document_hasData;
    auto using forward_deleteDataset, forward_renameDataset,
      forward_unlinkDataset, forward_changeValues, forward_duplicateDataset,
      forward_import2D, forward_reloadLinkedDatasets, forward_saveToFile
      with forward;
    forward_all;
    auto using forward_reloadLinkedDatasets, forward_saveToFile with forward.
Qed.

End Forward.

Lemma bumping_raise {A} (e : PyErr) : bumping (@raise A e).
Proof. intros d a d' Hr. discriminate Hr. Qed.

Lemma bumping_bind_l {A B} (m : M A) (k : A -> M B) :
  bumping m -> (forall a, forward (k a)) -> bumping (bind m k).
Proof.
  intros Hm Hk d b d'. unfold bind.
  destruct (m d) as [[e|a] d1] eqn:Hmd; [discriminate|].
  intros Hkd. specialize (Hm d a d1 Hmd).
  destruct (Hk a d1) as [Hle _]. rewrite Hkd in Hle. simpl in Hle. lia.
Qed.

Lemma bumping_bind_r {A B} (m : M A) (k : A -> M B) :
  forward m -> (forall a, bumping (k a)) -> bumping (bind m k).
Proof.
  intros Hm Hk d b d'. unfold bind.
  destruct (Hm d) as [Hle _].
  destruct (m d) as [[e|a] d1] eqn:Hmd; [discriminate|].
  intros Hkd. specialize (Hk a d1 b d' Hkd). simpl in Hle. lia.
Qed.

Lemma setModified_counts (b : bool) (d : Document.t) :
  Document_setModified b d =
    (inr tt,
     Document.Mk (Document.changeset d + 1) b (Document.data d)
       (Document.widgets d) (Document.basewidget d)
       (sigModified b :: Document.events d)).
Proof. reflexivity. Qed.

Lemma bumping_setModified b : bumping (Document_setModified b).
Proof.
  intros d a d'. rewrite setModified_counts. intros [= _ <-]. simpl. lia.
Qed.

Ltac bump_step :=
  match goal with
  | |- bumping (raise _) => apply bumping_raise
  | |- bumping (Document_setModified _) => apply bumping_setModified
  | |- bumping (bind (Document_setModified _) _) =>
      apply bumping_bind_l; [apply bumping_setModified | intros ?; forward_all]
  | |- bumping (bind _ _) => apply bumping_bind_r; [forward_all | intros ?]
  | |- bumping (match ?x with _ => _ end) => destruct x
  end.

Ltac bump_all := repeat bump_step.

Lemma bumping_wipe : bumping Document_wipe.
Proof. unfold Document_wipe. bump_all. Qed.

Lemma bumping_setData name ds : bumping (Document_setData name ds).
Proof. unfold Document_setData. bump_all. Qed.

Lemma bumping_deleteDataset name : bumping (Document_deleteDataset name).
Proof. unfold Document_deleteDataset. bump_all. Qed.

Lemma bumping_renameDataset o n : bumping (Document_renameDataset o n).
Proof. unfold Document_renameDataset. bump_all. Qed.

Lemma bumping_unlinkDataset name : bumping (Document_unlinkDataset name).
Proof. unfold Document_unlinkDataset. bump_all. Qed.

Lemma bumping_changeValues name type vals :
  bumping (Dataset_changeValues name type vals).
Proof. unfold Dataset_changeValues. bump_all. Qed.

Section Bumping.
Context `{External}.

Lemma bumping_duplicateDataset name newname :
  bumping (Document_duplicateDataset name newname).
Proof.
  unfold Document_duplicateDataset. bump_all.
  apply forward_duplicate.
Qed.

Lemma bumping_importFITS n f h c1 c2 c3 c4 l :
  bumping (Document_importFITS n f h c1 c2 c3 c4 l).
Proof. unfold Document_importFITS. bump_all; apply bumping_setData. Qed.

Lemma bumping_saveToFile file : bumping (Document_saveToFile file).
Proof. unfold Document_saveToFile. bump_all. Qed.

Lemma bumping_run (op : DocOp) : modifies op = true -> bumping (run op).
Proof.
  destruct op; simpl; try discriminate; intros _;
    auto using bumping_setModified, bumping_wipe, bumping_setData,
      bumping_deleteDataset, bumping_renameDataset, bumping_unlinkDataset,
      bumping_changeValues, bumping_duplicateDataset, bumping_importFITS.
  unfold void. apply bumping_bind_l; [apply bumping_saveToFile|].
  intros ?. apply forward_ret.
Qed.

Lemma wipe_counts (d : Document.t) :
  Document_wipe d =
    (inr tt,
     Document.Mk (Document.changeset d + 1) false ∅
       {[1%positive := Widget_Root]} 1%positive
       (sigWiped :: sigModified false :: Document.events d)).
Proof. reflexivity. Qed.

Lemma saveToFile_counts file d out d' :
  Document_saveToFile file d = (inr out, d') ->
  d' = Document.Mk (Document.changeset d + 1) false (Document.data d)
         (Document.widgets d) (Document.basewidget d)
         (sigModified false :: Document.events d).
Proof.
  unfold Document_saveToFile, bind, gets, lift, ret. simpl.
  destruct (save_datasets _ _) as [e|file5]; [discriminate|].
  intros [= _ <-]. reflexivity.
Qed.

End Bumping.

Lemma stale_after_count (d d' : Document.t) (e : DatasetExpression.t) :
  stamped_before d e ->
  Document.changeset d' = Document.changeset d + 1 ->
  stale d' e.
Proof.
  unfold stamped_before, stale, changeset_differs. intros Hs Hc.
  destruct (DatasetExpression.docchangeset e) as [v|]; [|reflexivity].
  specialize (Hs v eq_refl). apply negb_true_iff, Z.eqb_neq. lia.
Qed.

(** ** Statements kept by a computation *)

Lemma preserves_ret {A} P (a : A) : preserves P (ret a).
Proof. intros d Hd. exact Hd. Qed.

Lemma preserves_raise {A} P (e : PyErr) : preserves P (@raise A e).
Proof. intros d Hd. exact Hd. Qed.

Lemma preserves_lift {A} P (r : PyErr + A) : preserves P (lift r).
Proof. intros d Hd. exact Hd. Qed.

Lemma preserves_gets {A} P (f : Document.t -> A) : preserves P (gets f).
Proof. intros d Hd. exact Hd. Qed.

Lemma preserves_bind {A B} P (m : M A) (k : A -> M B) :
  preserves P m -> (forall a, preserves P (k a)) -> preserves P (bind m k).
Proof.
  intros Hm Hk d Hd. unfold bind. specialize (Hm d Hd).
  destruct (m d) as [[e|a] d1]; simpl in *; [exact Hm|].
  apply Hk, Hm.
Qed.

Lemma preserves_for_each {A} P (l : list A) (body : A -> M unit) :
  (forall x, preserves P (body x)) -> preserves P (for_each l body).
Proof.
  intros Hb. induction l as [|x l IH]; simpl.
  - apply preserves_ret.
  - apply preserves_bind; [apply Hb | intros _; exact IH].
Qed.

Lemma preserves_for_fold {A S} P (l : list A) (body : S -> A -> M S) (s : S) :
  (forall s x, preserves P (body s x)) -> preserves P (for_fold l body s).
Proof.
  intros Hb. revert s. induction l as [|x l IH]; intros s; simpl.
  - apply preserves_ret.
  - apply preserves_bind; [apply Hb | intros s'; apply IH].
Qed.

(** Steps that leave the statement as it stands are closed by
    computation. *)
Ltac preserve_step :=
  match goal with
  | |- preserves _ (bind _ _) => apply preserves_bind; [|intros ?]
  | |- preserves _ (for_each _ _) => apply preserves_for_each; intros ?
  | |- preserves _ (for_fold _ _ _) => apply preserves_for_fold; intros ? ?
  | |- preserves _ (match ?x with _ => _ end) => destruct x
  | |- preserves _ _ => solve [intros ? Hkeep; exact Hkeep]
  end.

Ltac preserve_all := repeat preserve_step.

Lemma evaluations_later name d d' :
  later d d' -> (evaluations name d <= evaluations name d')%nat.
Proof.
  intros [_ [evs Hev]]. unfold evaluations. rewrite Hev.
  rewrite filter_app, length_app. lia.
Qed.

Lemma later_bind {A B} (m : M A) (k : A -> M B) d :
  (forall a, forward (k a)) -> later (snd (m d)) (snd (bind m k d)).
Proof.
  intros Hk. unfold bind. destruct (m d) as [[e|a] d1]; simpl.
  - apply later_refl.
  - apply Hk.
Qed.

Lemma bind_returned {A B} (m : M A) (k : A -> M B) d a d1 :
  m d = (inr a, d1) -> bind m k d = k a d1.
Proof. intros Hm. unfold bind. rewrite Hm. reflexivity. Qed.

Section Reading.
Context `{External}.

(** A read of an expression dataset whose stamp differs from the
    counter enters [updateValues]. *)
Lemma stale_read_evaluates d self e name depth :
  Document.data d !! self = Some (IsDatasetExpression e) ->
  DatasetExpression.document e = true ->
  stale d e ->
  (evaluations self d <
   evaluations self
     (snd (DatasetExpression__propValues_at (S depth) self name d)))%nat.
Proof.
  intros Hself Hdoc Hstale. simpl.
  rewrite (bind_returned _ _ d (IsDatasetExpression e) d)
    by (unfold data_item, bind, gets, ret; simpl; rewrite Hself; reflexivity).
  rewrite Hdoc. simpl.
  rewrite (bind_returned _ _ d (Document.changeset d) d) by reflexivity.
  unfold stale in Hstale. rewrite Hstale.
  match goal with
  | |- context [snd (bind ?m ?k d)] =>
      assert (Hrest : later (snd (m d)) (snd (bind m k d)))
  end.
  { apply later_bind. intros _. forward_all. }
  apply evaluations_later with (name := self) in Hrest.
  eapply Nat.lt_le_trans; [|exact Hrest]. clear Hrest.
  set (d0 := Document.set_data
               (<[self := IsDatasetExpression
                            (DatasetExpression.set_changeset
                               (Some (Document.changeset d)) e)]>
                  (Document.data d)) d).
  rewrite (bind_returned _ _ d tt d0) by reflexivity.
  unfold DatasetExpression_updateValues.
  match goal with
  | |- context [snd (bind ?m ?k d0)] =>
      assert (Hbody : later (snd (m d0)) (snd (bind m k d0)))
  end.
  { apply later_bind. intros _.
    forward_all;
      try (apply forward_populate_env; intros; apply forward_propValues_at). }
  apply evaluations_later with (name := self) in Hbody.
  eapply Nat.lt_le_trans; [|exact Hbody]. clear Hbody.
  unfold evaluations, modify, d0. simpl.
  rewrite filter_cons_True by reflexivity. simpl. lia.
Qed.

(** A dataset that was never stamped is evaluated by every read. *)
Corollary unstamped_read_evaluates d self e name depth :
  Document.data d !! self = Some (IsDatasetExpression e) ->
  DatasetExpression.document e = true ->
  DatasetExpression.docchangeset e = None ->
  (evaluations self d <
   evaluations self
     (snd (DatasetExpression__propValues_at (S depth) self name d)))%nat.
Proof.
  intros Hself Hdoc Hnone. apply (stale_read_evaluates d self e); auto.
  unfold stale. rewrite Hnone. reflexivity.
Qed.

Lemma stamps_insert_same d n e e' :
  Document.data d !! n = Some (IsDatasetExpression e) ->
  (DatasetExpression.document e', DatasetExpression.docchangeset e')
  = (DatasetExpression.document e, DatasetExpression.docchangeset e) ->
  stamps (Document.set_data
            (<[n := IsDatasetExpression e']> (Document.data d)) d)
  = stamps d.
Proof.
  intros Hn He. unfold stamps. simpl. apply map_eq. intros k.
  rewrite !lookup_omap. destruct (decide (n = k)) as [<-|Hne].
  - rewrite lookup_insert_eq, Hn. simpl. rewrite He. reflexivity.
  - rewrite lookup_insert_ne by exact Hne. reflexivity.
Qed.

Lemma set_evaluated_keeps_stamps s self part v :
  preserves (stamped s) (set_evaluated self part v).
Proof.
  intros d Hd. unfold set_evaluated, self_expression, data_item, data_setitem,
    bind, gets, modify, ret, raise. simpl.
  destruct (Document.data d !! self) as [[x|x|e]|] eqn:Hself; simpl;
    try exact Hd.
  unfold stamped in *. rewrite <- Hd.
  apply (stamps_insert_same d self e); [exact Hself | reflexivity].
Qed.

Lemma updateValues_keeps_stamps s prop self :
  (forall n p, preserves (stamped s) (prop n p)) ->
  preserves (stamped s) (DatasetExpression_updateValues prop self).
Proof.
  intros Hp. unfold DatasetExpression_updateValues, populate_env, getattr_part,
    self_expression, data_item.
  preserve_all; try apply set_evaluated_keeps_stamps; try apply Hp.
Qed.

Lemma bind_assoc {A B C} (m : M A) (k1 : A -> M B) (k2 : B -> M C) d :
  bind (bind m k1) k2 d = bind m (fun a => bind (k1 a) k2) d.
Proof. unfold bind. destruct (m d) as [[e|a] d1]; reflexivity. Qed.

(** [_propValues] never writes the stamp it compares with. *)
Lemma propValues_keeps_stamps s depth self name :
  preserves (stamped s) (DatasetExpression__propValues_at depth self name).
Proof.
  revert self name. induction depth as [|depth IH]; intros self name; simpl.
  { preserve_all. }
  assert (Hrest : preserves (stamped s)
            (e' <- self_expression self ;;
             match DatasetExpression.evaluated e' !! name with
             | Some v => ret v
             | None => raise (KeyError name)
             end)).
  { unfold self_expression, data_item. preserve_all. }
  intros d Hd.
  destruct (Document.data d !! self) as [ds|] eqn:Hself.
  2: { unfold bind at 1. unfold data_item, bind, gets, raise. simpl.
       rewrite Hself. exact Hd. }
  rewrite (bind_returned _ _ d ds d)
    by (unfold data_item, bind, gets, ret; simpl; rewrite Hself; reflexivity).
  destruct ds as [x|x|e]; try exact Hd.
  destruct (DatasetExpression.document e); cbn [negb]; [|exact Hd].
  rewrite (bind_returned _ _ d (Document.changeset d) d) by reflexivity.
  destruct (changeset_differs (Document.changeset d)
              (DatasetExpression.docchangeset e)).
  - rewrite bind_assoc.
    set (d0 := Document.set_data
                 (<[self := IsDatasetExpression
                              (DatasetExpression.set_changeset
                                 (Some (Document.changeset d)) e)]>
                    (Document.data d)) d).
    rewrite (bind_returned _ _ d tt d0) by reflexivity.
    assert (Hd0 : stamped s d0).
    { unfold stamped in *. rewrite <- Hd.
      apply (stamps_insert_same d self e); [exact Hself | reflexivity]. }
    revert Hd0. apply preserves_bind.
    + apply updateValues_keeps_stamps, IH.
    + intros _. exact Hrest.
  - rewrite (bind_returned _ _ d tt d) by reflexivity. apply Hrest, Hd.
Qed.

(** Whatever was read before, the next read of an expression dataset
    that was never stamped evaluates again. *)
Corollary every_read_evaluates d self e name name' depth depth' :
  Document.data d !! self = Some (IsDatasetExpression e) ->
  DatasetExpression.document e = true ->
  DatasetExpression.docchangeset e = None ->
  let d1 := snd (DatasetExpression__propValues_at depth self name d) in
  (evaluations self d1 <
   evaluations self
     (snd (DatasetExpression__propValues_at (S depth') self name' d1)))%nat.
Proof.
  intros Hself Hdoc Hnone d1.
  pose proof (propValues_keeps_stamps (stamps d) depth self name d eq_refl)
    as Hkept.
  fold d1 in Hkept. unfold stamped in Hkept.
  assert (Hs : stamps d1 !! self = Some (true, None)).
  { rewrite Hkept. unfold stamps. rewrite lookup_omap, Hself. simpl.
    rewrite Hdoc, Hnone. reflexivity. }
  unfold stamps in Hs. rewrite lookup_omap in Hs.
  destruct (Document.data d1 !! self) as [[x|x|e1]|] eqn:Hself1;
    try discriminate Hs.
  simpl in Hs. injection Hs as Hdoc1 Hnone1.
  apply (unstamped_read_evaluates d1 self e1); assumption.
Qed.

(** C10: every call of [setModified] adds one to the counter, whatever
    the flag; [wipe] and a [saveToFile] that returns do so with the flag
    [False]; no operation takes the counter back, and every operation
    that reaches [setModified] leaves it higher; after a wipe or a save
    the stamp of every expression dataset differs from the counter, and
    the next read of an expression dataset of a saved document evaluates
    anew. *)
Theorem setModified_always_counts :
  (forall b d,
     Document.changeset (snd (Document_setModified b d))
     = Document.changeset d + 1)
  /\ (forall d,
        Document.changeset (snd (Document_wipe d)) = Document.changeset d + 1
        /\ Document.modified (snd (Document_wipe d)) = false)
  /\ (forall file d out d',
        Document_saveToFile file d = (inr out, d') ->
        Document.changeset d' = Document.changeset d + 1
        /\ Document.modified d' = false)
  /\ (forall op d, Document.changeset d <= Document.changeset (snd (run op d)))
  /\ (forall op d d',
        modifies op = true -> run op d = (inr tt, d') ->
        Document.changeset d < Document.changeset d')
  /\ (forall d e, stamped_before d e -> stale (snd (Document_wipe d)) e)
  /\ (forall file d out d' name e part depth,
        Document_saveToFile file d = (inr out, d') ->
        Document.data d !! name = Some (IsDatasetExpression e) ->
        DatasetExpression.document e = true ->
        stamped_before d e ->
        stale d' e
        /\ (evaluations name d' <
            evaluations name
              (snd (DatasetExpression__propValues_at (S depth) name part d')))%nat).
Proof.
  split; [reflexivity|].
  split; [intros d; split; reflexivity|].
  split.
  { intros file d out d' Hsave.
    rewrite (saveToFile_counts file d out d' Hsave). split; reflexivity. }
  split; [intros op d; apply (forward_run op d)|].
  split; [intros op d d' Hop Hrun; exact (bumping_run op Hop d tt d' Hrun)|].
  split.
  { intros d e Hs. apply (stale_after_count d); [exact Hs | reflexivity]. }
  intros file d out d' name e part depth Hsave Hname Hdoc Hs.
  pose proof (saveToFile_counts file d out d' Hsave) as Hd'.
  assert (Hst : stale d' e).
  { apply (stale_after_count d); [exact Hs|]. rewrite Hd'. reflexivity. }
  split; [exact Hst|].
  apply (stale_read_evaluates d' name e part depth); [|exact Hdoc|exact Hst].
  rewrite Hd'. exact Hname.
Qed.

End Reading.

(** ** Reading an expression dataset *)

(** C1: [_propValues] stores the counter in the attribute [changeset]
    and compares it with [docchangeset], which stays [None]: two reads
    of [tempC] with no change of the document in between give the same
    values and enter [updateValues] twice. *)
Theorem expression_read_evaluates_every_time :
  let read := @DatasetExpression__propValues lab "tempC" "data" in
  let d1 := snd (read celsius_doc) in
  let d2 := snd (read d1) in
  fst (read celsius_doc) = inr (Some (Arr1 [1; 2; 3]%float))
  /\ fst (read d1) = fst (read celsius_doc)
  /\ Document.changeset d1 = Document.changeset celsius_doc
  /\ Document.changeset d2 = Document.changeset celsius_doc
  /\ evaluations "tempC" celsius_doc = 0%nat
  /\ evaluations "tempC" d1 = 1%nat
  /\ evaluations "tempC" d2 = 2%nat.
Proof. vm_compute. repeat split. Qed.

Lemma setModified_always_counts_witness :
  let e := DatasetExpression.set_document true
             (DatasetExpression_init (Some "temp") None None None) in
  exists out d',
    @Document_saveToFile lab [] celsius_doc = (inr out, d')
    /\ Document.changeset d' = Document.changeset celsius_doc + 1
    /\ Document.modified d' = false
    /\ Document.changeset celsius_doc < Document.changeset d'
    /\ stale d' e
    /\ (evaluations "tempC" d' <
        evaluations "tempC"
          (snd (@DatasetExpression__propValues_at lab 300 "tempC" "data" d')))%nat.
Proof.
  intros e.
  destruct (@Document_saveToFile lab [] celsius_doc) as [[err|out] d'] eqn:Hsave.
  { vm_compute in Hsave. discriminate Hsave. }
  exists out, d'.
  destruct (@setModified_always_counts lab)
    as (_ & _ & Hsaved & _ & Hstrict & _ & Hread).
  assert (Hname : Document.data celsius_doc !! "tempC"
                  = Some (IsDatasetExpression e))
    by (vm_compute; reflexivity).
  assert (Hstamp : stamped_before celsius_doc e)
    by (intros v Hv; discriminate Hv).
  destruct (Hsaved [] celsius_doc out d' Hsave) as [Hc Hm].
  destruct (Hread [] celsius_doc out d' "tempC" e "data" 299%nat
              Hsave Hname eq_refl Hstamp) as [Hst Hev].
  assert (Hrun : @run lab (op_saveToFile []) celsius_doc = (inr tt, d')).
  { simpl. unfold void, bind. rewrite Hsave. reflexivity. }
  pose proof (Hstrict (op_saveToFile []) celsius_doc d' eq_refl Hrun) as Hlt.
  repeat split; assumption.
Defined.

(** ** Reloading one link *)


Section ReloadFrame.
Context `{External}.
Variables (l : Link) (name : string) (o : option AnyDataset).
Hypothesis Hfree : not_linked_to l o.

Lemma LinkedFile_reloadLinks_frame lf :
  preserves (stored name o) (LinkedFile_reloadLinks l lf).
Proof.
  unfold LinkedFile_reloadLinks.
  apply preserves_bind; [preserve_all | intros _].
  apply preserves_bind; [preserve_all | intros loaded].
  apply preserves_bind; [| intros read; preserve_all].
  apply preserves_for_fold. intros read item d Hd.
  unfold LinkedFile_move_in, bind, gets, data_setitem, modify, ret. simpl.
  destruct (Document.data d !! item.1) as [old|] eqn:Hold; [|exact Hd].
  destruct (linked_is (ds_linked old) l) eqn:Hl; [|exact Hd].
  unfold stored in *. simpl.
  destruct (decide (item.1 = name)) as [Heq|Hne].
  - rewrite Heq, Hd in Hold. unfold not_linked_to in Hfree.
    rewrite Hold in Hfree. congruence.
  - rewrite lookup_insert_ne by exact Hne. exact Hd.
Qed.

Lemma Linked2DFile_reloadLinks_frame l2 :
  preserves (stored name o) (Linked2DFile_reloadLinks l l2).
Proof.
  unfold Linked2DFile_reloadLinks.
  apply preserves_bind; [preserve_all | intros _].
  destruct (Linked2DFile_scratch l2) as [r tempdoc].
  destruct r as [e|[]].
  { destruct e; preserve_all. }
  apply preserves_bind; [| intros res; preserve_all].
  apply preserves_for_fold. intros acc item d Hd.
  unfold Linked2DFile_move_in, bind, gets, data_setitem, modify, ret. simpl.
  destruct (Document.data d !! item.1) as [old|] eqn:Hold; [|exact Hd].
  destruct (linked_is (ds_linked old) l) eqn:Hl; [|exact Hd].
  unfold stored in *. simpl.
  destruct (decide (item.1 = name)) as [Heq|Hne].
  - rewrite Heq, Hd in Hold. unfold not_linked_to in Hfree.
    rewrite Hold in Hfree. congruence.
  - rewrite lookup_insert_ne by exact Hne. exact Hd.
Qed.

End ReloadFrame.

(** Reloading a [LinkedFile] or a [Linked2DFile] leaves alone every name
    that holds no dataset and every dataset whose link is another object
    or none, whether the reload returns or raises. *)
Lemma scratch_reload_frame `{External} (l : Link) (doc : Document.t)
    (name : string) :
  (forall lfits, link_obj l <> IsLinkedFITSFile lfits) ->
  not_linked_to l (Document.data doc !! name) ->
  Document.data (snd (reloadLinks l doc)) !! name = Document.data doc !! name.
Proof.
  intros Hkind Hfree. unfold reloadLinks.
  destruct (link_obj l) as [lf|l2|lfits] eqn:Hobj.
  - exact (LinkedFile_reloadLinks_frame l name _ Hfree lf doc eq_refl).
  - exact (Linked2DFile_reloadLinks_frame l name _ Hfree l2 doc eq_refl).
  - destruct (Hkind lfits eq_refl).
Qed.

(** C3: reloading the FITS link of the renamed dataset [Z] sets what it
    reads under the name [X] of the link, although the dataset that is
    stored under [X] is not linked at all. *)
Theorem reloadLinks_fits_overwrites_unlinked :
  let own := IsDataset (Dataset.Mk true (Some (Arr1 [1; 2]%float))
                                   None None None None) in
  let read := IsDataset (Dataset.Mk true (Some (Arr1 [7; 8; 9]%float))
                                    None None None None) in
  Document.data sky_doc !! "X" = Some own
  /\ ds_linked own = None
  /\ (ds_linked <$> Document.data sky_doc !! "Z") = Some (Some sky_link)
  /\ exists doc',
       @reloadLinks lab sky_link sky_doc
         = (inr (NameStr "X", {["X" := 0]}), doc')
       /\ Document.data doc' !! "X" = Some read.
Proof.
  intros own read.
  split; [vm_compute; reflexivity|].
  split; [reflexivity|].
  split; [vm_compute; reflexivity|].
  eexists. split; vm_compute; reflexivity.
Qed.

(** ** What [GetData] hands out *)

Lemma deref_weaken (m m' : Memory.t) (r : option objid) :
  Memory.arrays m ⊆ Memory.arrays m' -> ref_ok m r ->
  deref m' r = deref m r.
Proof.
  destruct r as [a|]; simpl; [|reflexivity].
  intros Hsub [x Hx]. rewrite Hx. eapply lookup_weaken; eassumption.
Qed.

Lemma ref_ok_weaken (m m' : Memory.t) (r : option objid) :
  Memory.arrays m ⊆ Memory.arrays m' -> ref_ok m r -> ref_ok m' r.
Proof.
  destruct r as [a|]; simpl; [|trivial].
  intros Hsub [x Hx]. exists x. eapply lookup_weaken; eassumption.
Qed.

Lemma copy_part_spec (m : Memory.t) (r : option objid) :
  ref_ok m r ->
  exists r' m',
    copy_part r m = (inr r', m')
    /\ Memory.datasets m' = Memory.datasets m
    /\ Memory.arrays m ⊆ Memory.arrays m'
    /\ copy_of m m' r r'.
Proof.
  destruct r as [a|]; simpl.
  - intros [x Hx]. unfold nd_copy. rewrite Hx.
    set (a' := fresh (dom (Memory.arrays m))).
    assert (Hfresh : Memory.arrays m !! a' = None).
    { apply (not_elem_of_dom (D := gset objid)), is_fresh. }
    eexists _, _. split; [reflexivity|]. simpl.
    split; [reflexivity|]. split; [apply insert_subseteq, Hfresh|].
    split; [|split]; simpl.
    + rewrite lookup_insert_eq, Hx. reflexivity.
    + rewrite lookup_insert_eq. eauto.
    + intros b [= <-]. exact Hfresh.
  - intros _. exists None, m. repeat split; try reflexivity.
    intros a Ha. discriminate Ha.
Qed.

Lemma copy_of_weaken (m m1 m2 : Memory.t) (r r' : option objid) :
  Memory.arrays m1 ⊆ Memory.arrays m2 ->
  copy_of m m1 r r' -> copy_of m m2 r r'.
Proof.
  intros Hsub (Hd & Hok & Hnew). split; [|split].
  - rewrite (deref_weaken m1 m2 r' Hsub Hok). exact Hd.
  - exact (ref_ok_weaken m1 m2 r' Hsub Hok).
  - exact Hnew.
Qed.

Lemma copy_of_from (m0 m m' : Memory.t) (r r' : option objid) :
  Memory.arrays m0 ⊆ Memory.arrays m -> ref_ok m0 r ->
  copy_of m m' r r' -> copy_of m0 m' r r'.
Proof.
  intros Hsub Hok (Hd & Hok' & Hnew). split; [|split].
  - rewrite Hd. exact (deref_weaken m0 m r Hsub Hok).
  - exact Hok'.
  - intros a Ha. specialize (Hnew a Ha).
    eapply lookup_weaken_None; eassumption.
Qed.

Lemma GetData_spec (m : Memory.t) (name : string) (d : DatasetObject.t) :
  Memory.datasets m !! name = Some d -> refs_ok m d ->
  exists data serr nerr perr m',
    CommandInterface_GetData name m = (inr (data, serr, nerr, perr), m')
    /\ Memory.datasets m' = Memory.datasets m
    /\ Memory.arrays m ⊆ Memory.arrays m'
    /\ copy_of m m' (DatasetObject.data d) data
    /\ copy_of m m' (DatasetObject.serr d) serr
    /\ copy_of m m' (DatasetObject.nerr d) nerr
    /\ copy_of m m' (DatasetObject.perr d) perr.
Proof.
  intros Hd (Hdata & Hserr & Hnerr & Hperr).
  unfold CommandInterface_GetData. rewrite Hd.
  destruct (copy_part_spec m _ Hdata) as (data & m1 & -> & D1 & S1 & C1).
  destruct (copy_part_spec m1 _ (ref_ok_weaken m m1 _ S1 Hserr))
    as (serr & m2 & -> & D2 & S2 & C2).
  assert (S02 : Memory.arrays m ⊆ Memory.arrays m2) by (etrans; eassumption).
  destruct (copy_part_spec m2 _ (ref_ok_weaken m m2 _ S02 Hnerr))
    as (nerr & m3 & -> & D3 & S3 & C3).
  assert (S03 : Memory.arrays m ⊆ Memory.arrays m3) by (etrans; eassumption).
  destruct (copy_part_spec m3 _ (ref_ok_weaken m m3 _ S03 Hperr))
    as (perr & m4 & -> & D4 & S4 & C4).
  assert (S04 : Memory.arrays m ⊆ Memory.arrays m4) by (etrans; eassumption).
  exists data, serr, nerr, perr, m4.
  split; [reflexivity|]. split; [congruence|]. split; [exact S04|].
  split; [|split; [|split]].
  - apply (copy_of_weaken m m1 m4); [etrans; [exact S2|etrans; eassumption]|exact C1].
  - apply (copy_of_weaken m m2 m4); [etrans; eassumption|].
    apply (copy_of_from m m1 m2); assumption.
  - apply (copy_of_weaken m m3 m4); [exact S4|].
    apply (copy_of_from m m2 m3); assumption.
  - apply (copy_of_from m m3 m4); assumption.
Qed.

(** Writes to objects other than [a] do not show at [a], and writes make
    no object and drop none. *)
Lemma writes_elsewhere (ws : list write) (m : Memory.t) (a : objid) :
  Forall (fun w => target w <> a) ws ->
  Memory.arrays (fold_left apply_write ws m) !! a = Memory.arrays m !! a.
Proof.
  revert m. induction ws as [|w ws IH]; intros m Hws; simpl; [reflexivity|].
  inversion Hws as [|? ? Hw Hrest]; subst.
  rewrite (IH _ Hrest). unfold apply_write.
  destruct (Memory.arrays m !! target w); [|reflexivity].
  simpl. apply lookup_insert_ne, Hw.
Qed.

Lemma writes_keep_datasets (ws : list write) (m : Memory.t) :
  Memory.datasets (fold_left apply_write ws m) = Memory.datasets m.
Proof.
  revert m. induction ws as [|w ws IH]; intros m; simpl; [reflexivity|].
  rewrite IH. unfold apply_write.
  destruct (Memory.arrays m !! target w); reflexivity.
Qed.

Lemma new_is_not_old (m : Memory.t) (r : parts (option objid)) (a : objid)
    (ws : list write) :
  (forall b, b ∈ refs_of r -> Memory.arrays m !! b = None) ->
  is_Some (Memory.arrays m !! a) ->
  Forall (fun w => target w ∈ refs_of r) ws ->
  Forall (fun w => target w <> a) ws.
Proof.
  intros Hnew [x Hx] Hws. eapply Forall_impl; [exact Hws|].
  intros w Hw Heq. simpl in Hw. rewrite Heq in Hw.
  specialize (Hnew a Hw). congruence.
Qed.

Lemma refs_of_new (m m' : Memory.t) (d : DatasetObject.t)
    (data serr nerr perr : option objid) :
  copy_of m m' (DatasetObject.data d) data ->
  copy_of m m' (DatasetObject.serr d) serr ->
  copy_of m m' (DatasetObject.nerr d) nerr ->
  copy_of m m' (DatasetObject.perr d) perr ->
  forall b, b ∈ refs_of (data, serr, nerr, perr) ->
            Memory.arrays m !! b = None.
Proof.
  intros (_ & _ & N1) (_ & _ & N2) (_ & _ & N3) (_ & _ & N4) b Hb.
  unfold refs_of in Hb. apply list_elem_of_omap in Hb as (x & Hx & Hxb).
  unfold id in Hxb. subst x.
  repeat (apply elem_of_cons in Hx as [Hx|Hx]; [eauto|]).
  inversion Hx.
Qed.

(** What an old reference shows after the caller's writes to the new
    arrays. *)
Lemma deref_after_writes (m m1 : Memory.t) (r : parts (option objid))
    (ws : list write) (o : option objid) :
  Memory.arrays m ⊆ Memory.arrays m1 ->
  (forall b, b ∈ refs_of r -> Memory.arrays m !! b = None) ->
  Forall (fun w => target w ∈ refs_of r) ws ->
  ref_ok m o ->
  deref (fold_left apply_write ws m1) o = deref m o
  /\ ref_ok (fold_left apply_write ws m1) o.
Proof.
  intros Hsub Hnew Hws Hok. destruct o as [a|]; simpl; [|auto].
  simpl in Hok.
  rewrite (writes_elsewhere ws m1 a (new_is_not_old m r a ws Hnew Hok Hws)).
  destruct Hok as [x Hx]. rewrite Hx.
  rewrite (lookup_weaken _ _ _ _ Hx Hsub). eauto.
Qed.

(** C9: [GetData] on a plain dataset returns new array objects with the
    contents of the stored ones; whatever the caller then writes into
    the returned arrays, the dataset shows what it showed, and a second
    [GetData] returns the contents the first one returned. *)
Theorem GetData_returns_copies (m : Memory.t) (name : string)
    (d : DatasetObject.t) :
  Memory.datasets m !! name = Some d -> refs_ok m d ->
  exists r m1,
    CommandInterface_GetData name m = (inr r, m1)
    /\ deref_parts m1 r = state_of m d
    /\ forall ws,
         Forall (fun w => target w ∈ refs_of r) ws ->
         let m2 := fold_left apply_write ws m1 in
         Memory.datasets m2 !! name = Some d
         /\ state_of m2 d = state_of m d
         /\ exists r' m3,
              CommandInterface_GetData name m2 = (inr r', m3)
              /\ deref_parts m3 r' = deref_parts m1 r.
Proof.
  intros Hd Hok.
  destruct (GetData_spec m name d Hd Hok)
    as (data & serr & nerr & perr & m1 & Hget & Hds & Hsub & C1 & C2 & C3 & C4).
  pose proof (refs_of_new m m1 d data serr nerr perr C1 C2 C3 C4) as Hnew.
  assert (Hfirst : deref_parts m1 (data, serr, nerr, perr) = state_of m d).
  { destruct C1 as [E1 _], C2 as [E2 _], C3 as [E3 _], C4 as [E4 _].
    unfold state_of, deref_parts. congruence. }
  exists (data, serr, nerr, perr), m1.
  split; [exact Hget|]. split; [exact Hfirst|].
  intros ws Hws m2. destruct Hok as (O1 & O2 & O3 & O4).
  destruct (deref_after_writes m m1 _ ws _ Hsub Hnew Hws O1) as [E1 K1].
  destruct (deref_after_writes m m1 _ ws _ Hsub Hnew Hws O2) as [E2 K2].
  destruct (deref_after_writes m m1 _ ws _ Hsub Hnew Hws O3) as [E3 K3].
  destruct (deref_after_writes m m1 _ ws _ Hsub Hnew Hws O4) as [E4 K4].
  fold m2 in E1, E2, E3, E4, K1, K2, K3, K4.
  assert (Hd2 : Memory.datasets m2 !! name = Some d).
  { unfold m2. rewrite writes_keep_datasets, Hds. exact Hd. }
  assert (Hstate : state_of m2 d = state_of m d).
  { unfold state_of, deref_parts. congruence. }
  split; [exact Hd2|]. split; [exact Hstate|].
  destruct (GetData_spec m2 name d Hd2 (conj K1 (conj K2 (conj K3 K4))))
    as (data' & serr' & nerr' & perr' & m3 & Hget' & _ & _ & D1 & D2 & D3 & D4).
  exists (data', serr', nerr', perr'), m3. split; [exact Hget'|].
  rewrite Hfirst, <- Hstate.
  destruct D1 as [F1 _], D2 as [F2 _], D3 as [F3 _], D4 as [F4 _].
  unfold state_of, deref_parts. congruence.
Qed.

Lemma GetData_returns_copies_witness :
  exists r m1,
    CommandInterface_GetData "temp" temp_memory = (inr r, m1)
    /\ r = (Some 3%positive, Some 4%positive, None, None)
    /\ let m2 := apply_write m1 (MkWrite 3%positive (Arr1 [9; 9; 9]%float)) in
       state_of m2 temp_object = state_of temp_memory temp_object
       /\ exists r' m3,
            CommandInterface_GetData "temp" m2 = (inr r', m3)
            /\ deref_parts m3 r' = deref_parts m1 r.
Proof.
  assert (Hd : Memory.datasets temp_memory !! "temp" = Some temp_object)
    by (vm_compute; reflexivity).
  assert (Hok : refs_ok temp_memory temp_object).
  { repeat split; vm_compute; eauto. }
  destruct (GetData_returns_copies temp_memory "temp" temp_object Hd Hok)
    as (r & m1 & Hget & _ & Hwrites).
  exists r, m1. split; [exact Hget|].
  assert (Hr : r = (Some 3%positive, Some 4%positive, None, None)).
  { vm_compute in Hget. injection Hget as <- _. reflexivity. }
  split; [exact Hr|].
  assert (Hws : Forall (fun w => target w ∈ refs_of r)
                  [MkWrite 3%positive (Arr1 [9; 9; 9]%float)]).
  { rewrite Hr. constructor; [|constructor]. simpl. apply list_elem_of_here. }
  destruct (Hwrites _ Hws) as (_ & Hstate & Hagain).
  split; assumption.
Defined.

Lemma resolve_paths_witness :
  widgets_ok (Document.widgets page_doc) = true
  /\ Document_resolve page_doc 3%positive "/page1/graph1/.." = inr 2%positive
  /\ Document_resolve page_doc 3%positive "/page1" = inr 2%positive
  /\ Document_resolve page_doc 3%positive "." = inr 3%positive
  /\ Document_resolve page_doc 3%positive "/page1/axis"
     = inl (ValueError "Child 'axis' does not exist").
Proof.
  destruct (resolve_paths page_doc) as (Hup & Hdot & Hmissing).
  assert (Hok : widgets_ok (Document.widgets page_doc) = true)
    by (vm_compute; reflexivity).
  assert (H1 : Document_resolve page_doc 3%positive "/page1/graph1/.."
               = inr 2%positive) by (vm_compute; reflexivity).
  assert (H2 : Document_resolve page_doc 3%positive "/page1" = inr 2%positive)
    by (vm_compute; reflexivity).
  pose proof (Hup Hok 3%positive "page1" "graph1" _ _ eq_refl eq_refl H1 H2)
    as Hsame.
  split; [exact Hok|]. split; [exact H1|]. split; [exact H2|].
  split; [apply Hdot|].
  apply (Hmissing 3%positive "/page1/axis" [""; "page1"] "axis" []
           1%positive 2%positive);
    vm_compute; reflexivity.
Defined.

(** ** Reloading all links *)

Lemma ds_linked_set_document v ds :
  ds_linked (ds_set_document v ds) = ds_linked ds.
Proof. destruct ds; reflexivity. Qed.

Lemma ds_linked_set_linked v ds : ds_linked (ds_set_linked v ds) = v.
Proof. destruct ds; reflexivity. Qed.

Lemma link_is_refl l : link_is l l = true.
Proof. apply Pos.eqb_refl. Qed.

(** Two references to the object [self] compare alike with any link. *)
Lemma linked_is_same_object (a b : option Link) (self l : Link) :
  linked_is a self = true -> linked_is b self = true ->
  linked_is a l = linked_is b l.
Proof.
  destruct a as [la|], b as [lb|]; simpl; try discriminate.
  unfold link_is. intros Ha Hb.
  apply Pos.eqb_eq in Ha, Hb. rewrite Ha, Hb. reflexivity.
Qed.

Lemma same_links_refl d : same_links d d.
Proof. intros l name. reflexivity. Qed.

Lemma same_links_trans d1 d2 d3 :
  same_links d1 d2 -> same_links d2 d3 -> same_links d1 d3.
Proof. intros H12 H23 l name. rewrite H23. apply H12. Qed.

Lemma LinkedFile_move_in_shape self :
  LinkedFile_move_in self
  = move_in self (ds_set_document true) (fun read name => read ++ [name]).
Proof. reflexivity. Qed.

Lemma Linked2DFile_move_in_shape self :
  Linked2DFile_move_in self
  = move_in self (fun ds => ds_set_document true (ds_set_linked (Some self) ds))
      (fun acc name => (fst acc ++ [name], <[name := 0]> (snd acc))).
Proof. reflexivity. Qed.

(** The loop that moves datasets in: the names noted are the scratch
    names that were linked to [self] when the loop began, the counter
    and the events stay, and so does the link of every name. *)
Lemma move_in_loop {S : Type} (self : Link) (put : AnyDataset -> AnyDataset)
    (note : S -> string -> S) (items : list (string * AnyDataset)) :
  NoDup items.*1 ->
  Forall (fun item => linked_is (ds_linked (put item.2)) self = true) items ->
  forall (acc : S) (d : Document.t),
  exists d',
    for_fold items (move_in self put note) acc d
      = (inr (fold_left note (List.filter (linked_to self d) items.*1) acc), d')
    /\ Document.changeset d' = Document.changeset d
    /\ Document.events d' = Document.events d
    /\ same_links d d'
    /\ (forall n, n ∉ items.*1 -> Document.data d' !! n = Document.data d !! n).
Proof.
  induction items as [|[n x] items IH]; intros Hnd Hput acc d; simpl.
  { exists d. repeat split; auto using same_links_refl. }
  simpl in Hnd. apply NoDup_cons in Hnd as [Hn Hnd].
  apply Forall_cons in Hput as [Hx Hput]. simpl in Hx.
  unfold bind at 1. unfold move_in at 1.
  unfold bind, gets, data_setitem, modify, ret. simpl.
  unfold linked_to at 1.
  destruct (Document.data d !! n) as [old|] eqn:Hold;
    [destruct (linked_is (ds_linked old) self) eqn:Hl|].
  - set (d1 := Document.set_data (<[n := put x]> (Document.data d)) d).
    assert (Hother : forall name, name <> n ->
              Document.data d1 !! name = Document.data d !! name).
    { intros name Hne. unfold d1. simpl. apply lookup_insert_ne. congruence. }
    assert (Hlinks : same_links d d1).
    { intros l name. unfold linked_to.
      destruct (decide (name = n)) as [->|Hne].
      - unfold d1. simpl. rewrite lookup_insert_eq, Hold.
        apply (linked_is_same_object _ _ self); assumption.
      - rewrite (Hother name Hne). reflexivity. }
    destruct (IH Hnd Hput (note acc n) d1) as (d' & Hrun & Hc & He & Hs & Hf).
    exists d'. simpl. rewrite Hrun.
    split.
    { f_equal. f_equal. f_equal. apply filter_ext_in. intros name _.
      apply Hlinks. }
    split; [exact Hc|]. split; [exact He|].
    split; [eapply same_links_trans; eassumption|].
    intros name Hname. apply not_elem_of_cons in Hname as [Hne Hname].
    rewrite (Hf name Hname). apply Hother, Hne.
  - destruct (IH Hnd Hput acc d) as (d' & Hrun & Hc & He & Hs & Hf).
    exists d'. rewrite Hrun. repeat split; auto.
    intros name Hname. apply not_elem_of_cons in Hname as [_ Hname]. auto.
  - destruct (IH Hnd Hput acc d) as (d' & Hrun & Hc & He & Hs & Hf).
    exists d'. rewrite Hrun. repeat split; auto.
    intros name Hname. apply not_elem_of_cons in Hname as [_ Hname]. auto.
Qed.

Lemma fold_left_snoc (names : list string) (read : list string) :
  fold_left (fun r name => r ++ [name]) names read = read ++ names.
Proof.
  revert read. induction names as [|n names IH]; intros read; simpl.
  - symmetry. apply app_nil_r.
  - rewrite IH, <- app_assoc. reflexivity.
Qed.

Lemma fold_left_snoc_zero (names : list string)
    (acc : list string * gmap string Z) :
  fold_left (fun a name => (fst a ++ [name], <[name := 0]> (snd a))) names acc
  = (fst acc ++ names, zero_counts names (snd acc)).
Proof.
  revert acc. induction names as [|n names IH]; intros [read errors]; simpl.
  - rewrite app_nil_r. reflexivity.
  - rewrite IH. simpl. rewrite <- app_assoc. reflexivity.
Qed.

Lemma same_links_emit ev d : same_links d (Document.emit ev d).
Proof. intros l name. reflexivity. Qed.

Lemma same_links_setModified b d : same_links d (snd (Document_setModified b d)).
Proof. intros l name. reflexivity. Qed.

Lemma reloads_emit_call id d :
  reloads (Document.emit (call_reloadLinks id) d) = reloads d ++ [id].
Proof. unfold reloads. simpl. rewrite omap_app. reflexivity. Qed.

Lemma reloads_emit_signal b d :
  reloads (Document.emit (sigModified b) d) = reloads d.
Proof. unfold reloads. simpl. rewrite omap_app. simpl. apply app_nil_r. Qed.

Section ReloadOne.
Context `{External}.

Lemma setInDocument_all_linked sr self :
  preserves (all_linked_to self) (SimpleRead_setInDocument sr (Some self)).
Proof.
  unfold SimpleRead_setInDocument. apply preserves_for_each. intros [n ds].
  unfold Document_setData. apply preserves_bind; [|intros _; preserve_all].
  intros d Hd name x. unfold data_setitem, modify. simpl.
  destruct (decide (n = name)) as [->|Hne].
  - rewrite lookup_insert_eq. intros [= <-]. simpl. apply link_is_refl.
  - rewrite lookup_insert_ne by exact Hne. apply Hd.
Qed.

Lemma LinkedFile_scratch_all_linked self lf tempdoc errs :
  LinkedFile_scratch self lf = inr (tempdoc, errs) ->
  all_linked_to self tempdoc.
Proof.
  unfold LinkedFile_scratch, ebind.
  destruct (open_stream _) as [e|strm]; [discriminate|].
  destruct (SimpleRead_readData _ _) as [e|sr]; [discriminate|].
  pose proof (setInDocument_all_linked sr self Document_new) as Hp.
  destruct (SimpleRead_setInDocument sr (Some self) Document_new)
    as [[e|[]] doc]; [discriminate|].
  intros [= <- _]. apply Hp. intros name ds Hname.
  vm_compute in Hname. discriminate Hname.
Qed.

Lemma items_put_linked (self : Link) (put : AnyDataset -> AnyDataset)
    (m : gmap string AnyDataset) :
  (forall name ds, m !! name = Some ds ->
                   linked_is (ds_linked (put ds)) self = true) ->
  Forall (fun item => linked_is (ds_linked (put item.2)) self = true)
         (map_to_list m).
Proof.
  intros Hm. apply Forall_forall. intros [n ds] Hin.
  apply elem_of_map_to_list in Hin. simpl. eapply Hm, Hin.
Qed.

(** A [LinkedFile] reload that returns has read the file into a scratch
    document, moved in the datasets of the names linked to the link,
    called [setModified] once, and left every link as it was. *)
Lemma LinkedFile_reloadLinks_returns self lf d r d' :
  LinkedFile_reloadLinks self lf d = (inr r, d') ->
  exists tempdoc errs,
    LinkedFile_scratch self lf = inr (tempdoc, errs)
    /\ r = (NameList (refreshed self d tempdoc), errs)
    /\ Document.changeset d' = Document.changeset d + 1
    /\ Document.events d'
       = sigModified true :: call_reloadLinks (link_id self) :: Document.events d
    /\ same_links d d'.
Proof.
  unfold LinkedFile_reloadLinks.
  unfold bind at 1. unfold modify at 1.
  unfold bind at 1. unfold lift at 1.
  destruct (LinkedFile_scratch self lf) as [e|[tempdoc errs]] eqn:Hscratch;
    [discriminate|].
  simpl fst. simpl snd.
  set (d0 := Document.emit (call_reloadLinks (link_id self)) d).
  rewrite LinkedFile_move_in_shape.
  destruct (move_in_loop self (ds_set_document true)
              (fun read name => read ++ [name])
              (map_to_list (Document.data tempdoc))
              (NoDup_fst_map_to_list _)
              (items_put_linked self _ _
                 (fun name ds Hds =>
                    eq_trans (f_equal (fun x => linked_is x self)
                                (ds_linked_set_document true ds))
                             (LinkedFile_scratch_all_linked _ _ _ _ Hscratch
                                name ds Hds)))
              [] d0)
    as (d1 & Hrun & Hc & He & Hs & _).
  unfold bind at 1. rewrite Hrun. rewrite fold_left_snoc. simpl app.
  unfold bind, ret. rewrite setModified_counts.
  intros [= <- <-]. exists tempdoc, errs. simpl.
  split; [reflexivity|]. split; [reflexivity|].
  split; [rewrite Hc; reflexivity|].
  split; [rewrite He; reflexivity|].
  intros l name. exact (Hs l name).
Qed.

(** A [Linked2DFile] reload that returns has either failed to read, and
    reports one error for each of its names, or it has moved in the
    datasets of the names linked to the link and called [setModified]
    once; it leaves every link as it was. *)
Lemma Linked2DFile_reloadLinks_returns self l2 d r d' :
  link_obj self = IsLinked2DFile l2 ->
  Linked2DFile_reloadLinks self l2 d = (inr r, d') ->
  r = (NameList (names_refreshed self d), errors_reported self d)
  /\ Document.changeset d'
     = Document.changeset d + (if moves_in self then 1 else 0)
  /\ reloads d' = reloads d ++ [link_id self]
  /\ same_links d d'.
Proof.
  intros Hobj. unfold names_refreshed, errors_reported, moves_in.
  rewrite Hobj. unfold Linked2DFile_reloadLinks.
  unfold bind at 1. unfold modify at 1.
  set (d0 := Document.emit (call_reloadLinks (link_id self)) d).
  destruct (Linked2DFile_scratch l2) as [[e|[]] tempdoc].
  - destruct e; try discriminate.
    intros [= <- <-]. split; [reflexivity|]. split; [simpl; lia|].
    split; [apply reloads_emit_call | apply same_links_emit].
  - rewrite Linked2DFile_move_in_shape.
    destruct (move_in_loop (S := (list string * gmap string Z)%type) self
                (fun ds => ds_set_document true (ds_set_linked (Some self) ds))
                (fun acc name => (fst acc ++ [name], <[name := 0]> (snd acc)))
                (map_to_list (Document.data tempdoc))
                (NoDup_fst_map_to_list _)
                (items_put_linked self _ _
                   (fun name ds _ =>
                      eq_trans
                        (f_equal (fun x => linked_is x self)
                           (eq_trans (ds_linked_set_document true _)
                                     (ds_linked_set_linked (Some self) ds)))
                        (link_is_refl self)))
                ([], ∅) d0)
      as (d1 & Hrun & Hc & He & Hs & _).
    unfold bind at 1. rewrite Hrun. rewrite fold_left_snoc_zero. simpl app.
    unfold bind, ret. rewrite setModified_counts.
    intros [= <- <-]. simpl.
    split; [reflexivity|]. split; [rewrite Hc; reflexivity|].
    split.
    + unfold reloads. simpl. rewrite He. simpl.
      rewrite !omap_app. simpl. rewrite app_nil_r. reflexivity.
    + intros l name. exact (Hs l name).
Qed.

Lemma LinkedFile_reloadLinks_outcome self lf d r d' :
  link_obj self = IsLinkedFile lf ->
  LinkedFile_reloadLinks self lf d = (inr r, d') ->
  r = (NameList (names_refreshed self d), errors_reported self d)
  /\ Document.changeset d'
     = Document.changeset d + (if moves_in self then 1 else 0)
  /\ reloads d' = reloads d ++ [link_id self]
  /\ same_links d d'.
Proof.
  intros Hobj Hrun.
  destruct (LinkedFile_reloadLinks_returns self lf d r d' Hrun)
    as (tempdoc & errs & Hscratch & -> & Hc & He & Hs).
  unfold names_refreshed, errors_reported, moves_in.
  rewrite Hobj, Hscratch.
  split; [reflexivity|]. split; [exact Hc|]. split; [|exact Hs].
  unfold reloads. rewrite He. simpl.
  rewrite !omap_app. simpl. rewrite app_nil_r. reflexivity.
Qed.

(** Every reload that returns was entered once. *)
Lemma reloadLinks_entered_once l d r d' :
  reloadLinks l d = (inr r, d') -> reloads d' = reloads d ++ [link_id l].
Proof.
  unfold reloadLinks. destruct (link_obj l) as [lf|l2|lfits] eqn:Hobj.
  - intros Hrun.
    apply (LinkedFile_reloadLinks_outcome l lf d r d' Hobj Hrun).
  - intros Hrun.
    apply (Linked2DFile_reloadLinks_returns l l2 d r d' Hobj Hrun).
  - unfold LinkedFITSFile_reloadLinks.
    unfold bind at 1. unfold modify at 1.
    set (d0 := Document.emit (call_reloadLinks (link_id l)) d).
    unfold bind, lift.
    destruct (column _ 0) as [e|c0]; [discriminate|].
    destruct (column _ 1) as [e|c1]; [discriminate|].
    destruct (column _ 2) as [e|c2]; [discriminate|].
    destruct (column _ 3) as [e|c3]; [discriminate|].
    unfold Document_importFITS.
    destruct (negb pyfits_installed); [discriminate|].
    unfold bind, lift.
    destruct (pyfits_open _ _) as [e|rhdu]; [discriminate|].
    match goal with
    | |- context [match ?x with inl _ => _ | inr _ => _ end] =>
        destruct x as [e|ds] eqn:Hds
    end; [discriminate|].
    unfold Document_setData, data_setitem, bind, modify, ret.
    rewrite setModified_counts. intros [= _ <-].
    unfold reloads. simpl. rewrite !omap_app. simpl.
    rewrite app_nil_r. reflexivity.
Qed.

End ReloadOne.

Section ReloadAll.
Context `{External}.

Lemma refreshed_same_links l d d1 tempdoc :
  same_links d d1 -> refreshed l d1 tempdoc = refreshed l d tempdoc.
Proof.
  intros Hs. unfold refreshed. apply filter_ext_in. intros name _. apply Hs.
Qed.

Lemma names_refreshed_same_links l d d1 :
  same_links d d1 -> names_refreshed l d1 = names_refreshed l d.
Proof.
  intros Hs. unfold names_refreshed.
  destruct (link_obj l) as [lf|l2|lfits]; [| |reflexivity].
  - destruct (LinkedFile_scratch l lf) as [e|[tempdoc errs]]; [reflexivity|].
    apply refreshed_same_links, Hs.
  - destruct (Linked2DFile_scratch l2) as [[e|[]] tempdoc]; [reflexivity|].
    apply refreshed_same_links, Hs.
Qed.

Lemma errors_reported_same_links l d d1 :
  same_links d d1 -> errors_reported l d1 = errors_reported l d.
Proof.
  intros Hs. unfold errors_reported.
  destruct (link_obj l) as [lf|l2|lfits]; try reflexivity.
  destruct (Linked2DFile_scratch l2) as [[e|[]] tempdoc]; [reflexivity|].
  rewrite (refreshed_same_links l d d1 tempdoc Hs). reflexivity.
Qed.

Lemma merged_errors_same_links ls d d1 errors :
  same_links d d1 -> merged_errors ls d1 errors = merged_errors ls d errors.
Proof.
  intros Hs. unfold merged_errors. revert errors.
  induction ls as [|l ls IH]; intros errors; simpl; [reflexivity|].
  rewrite (errors_reported_same_links l d d1 Hs). apply IH.
Qed.

(** What one reload through a scratch document returns and does. *)
Lemma scratch_reload_outcome l d r d' :
  scratch_link l ->
  reloadLinks l d = (inr r, d') ->
  r = (NameList (names_refreshed l d), errors_reported l d)
  /\ Document.changeset d'
     = Document.changeset d + (if moves_in l then 1 else 0)
  /\ same_links d d'.
Proof.
  unfold scratch_link, reloadLinks.
  destruct (link_obj l) as [lf|l2|lfits] eqn:Hobj; intros Hkind Hrun.
  - destruct (LinkedFile_reloadLinks_outcome l lf d r d' Hobj Hrun)
      as (Hr & Hc & _ & Hs). auto.
  - destruct (Linked2DFile_reloadLinks_returns l l2 d r d' Hobj Hrun)
      as (Hr & Hc & _ & Hs). auto.
  - destruct Hkind.
Qed.

Lemma reload_all_entered ls : forall acc d res d',
  for_fold ls reload_and_merge acc d = (inr res, d') ->
  reloads d' = reloads d ++ map link_id ls.
Proof.
  induction ls as [|l ls IH]; intros acc d res d'; simpl.
  - intros [= _ <-]. symmetry. apply app_nil_r.
  - unfold bind at 1. unfold reload_and_merge at 1. unfold bind at 1.
    destruct (reloadLinks l d) as [[e|r] d1] eqn:Hone; [discriminate|].
    unfold ret. intros Hrest.
    rewrite (IH _ _ _ _ Hrest), (reloadLinks_entered_once l d r d1 Hone).
    rewrite <- app_assoc. reflexivity.
Qed.

Lemma reload_all_outcome ls :
  Forall scratch_link ls ->
  forall acc d res d',
  for_fold ls reload_and_merge acc d = (inr res, d') ->
  fst res = fst acc ++ concat (map (fun l => names_refreshed l d) ls)
  /\ snd res = merged_errors ls d (snd acc)
  /\ Document.changeset d'
     = Document.changeset d + Z.of_nat (length (List.filter moves_in ls))
  /\ same_links d d'.
Proof.
  induction 1 as [|l ls Hl Hls IH]; intros acc d res d'; simpl.
  - intros [= <- <-]. rewrite app_nil_r.
    split; [reflexivity|]. split; [reflexivity|].
    split; [lia | apply same_links_refl].
  - unfold bind at 1. unfold reload_and_merge at 1. unfold bind at 1.
    destruct (reloadLinks l d) as [[e|r] d1] eqn:Hone; [discriminate|].
    unfold ret. intros Hrest.
    destruct (scratch_reload_outcome l d r d1 Hl Hone) as (-> & Hc1 & Hs1).
    destruct (IH _ _ _ _ Hrest) as (Hread & Herr & Hc & Hs).
    simpl in Hread, Herr.
    split; [|split; [|split]].
    + rewrite Hread, <- app_assoc. f_equal. f_equal. f_equal.
      apply map_ext. intros l0. apply names_refreshed_same_links, Hs1.
    + rewrite Herr. unfold merged_errors at 2. simpl.
      apply merged_errors_same_links, Hs1.
    + rewrite Hc, Hc1. destruct (moves_in l); simpl length; lia.
    + eapply same_links_trans; eassumption.
Qed.

End ReloadAll.

(** The dictionary of links holds, under the identity of a link, a link
    that some dataset refers to, and it has an entry for every link that
    a dataset refers to. *)
Lemma collect_step_sound (items : list (string * AnyDataset)) :
  forall (acc : gmap objid Link) id l,
  fold_left (fun links item =>
               match ds_linked (snd item) with
               | Some l => <[link_id l := l]> links
               | None => links
               end) items acc !! id = Some l ->
  acc !! id = Some l
  \/ (link_id l = id
      /\ exists item, item ∈ items /\ ds_linked (snd item) = Some l).
Proof.
  induction items as [|item items IH]; intros acc id l; simpl; [auto|].
  intros Hl. apply IH in Hl as [Hacc | (Hid & it & Hin & Hit)].
  - destruct (ds_linked item.2) as [l0|] eqn:Hitem; [|auto].
    destruct (decide (link_id l0 = id)) as [Heq|Hne].
    + rewrite <- Heq, lookup_insert_eq in Hacc. injection Hacc as <-.
      right. split; [exact Heq|]. exists item. split; [left | exact Hitem].
    + rewrite lookup_insert_ne in Hacc by exact Hne. auto.
  - right. split; [exact Hid|]. exists it. split; [right; exact Hin | exact Hit].
Qed.

Lemma collect_step_keeps (items : list (string * AnyDataset)) :
  forall (acc : gmap objid Link) id,
  is_Some (acc !! id) ->
  is_Some (fold_left (fun links item =>
                        match ds_linked (snd item) with
                        | Some l => <[link_id l := l]> links
                        | None => links
                        end) items acc !! id).
Proof.
  induction items as [|item items IH]; intros acc id Hacc; simpl; [exact Hacc|].
  apply IH. destruct (ds_linked item.2) as [l0|]; [|exact Hacc].
  destruct (decide (link_id l0 = id)) as [<-|Hne].
  - rewrite lookup_insert_eq. eauto.
  - rewrite lookup_insert_ne by exact Hne. exact Hacc.
Qed.

Lemma collect_step_complete (items : list (string * AnyDataset)) :
  forall (acc : gmap objid Link) item l,
  item ∈ items -> ds_linked (snd item) = Some l ->
  is_Some (fold_left (fun links item =>
                        match ds_linked (snd item) with
                        | Some l => <[link_id l := l]> links
                        | None => links
                        end) items acc !! link_id l).
Proof.
  induction items as [|it items IH]; intros acc item l Hin Hl; simpl.
  - inversion Hin.
  - apply elem_of_cons in Hin as [<-|Hin].
    + apply collect_step_keeps. rewrite Hl, lookup_insert_eq. eauto.
    + eapply IH; eassumption.
Qed.

Lemma links_of_referenced (d : Document.t) (l : Link) :
  l ∈ links_of d ->
  exists name ds, Document.data d !! name = Some ds /\ ds_linked ds = Some l.
Proof.
  unfold links_of. intros Hin.
  apply list_elem_of_fmap in Hin as ([id l0] & -> & Hin).
  apply elem_of_map_to_list in Hin. unfold collect_links in Hin.
  apply collect_step_sound in Hin as [Hempty | (_ & [n ds] & Hit & Hds)].
  - rewrite lookup_empty in Hempty. discriminate Hempty.
  - apply elem_of_map_to_list in Hit. eauto.
Qed.

Lemma links_of_ids (d : Document.t) :
  map link_id (links_of d) = (map_to_list (collect_links (Document.data d))).*1.
Proof.
  unfold links_of.
  assert (Hall : Forall (fun p : objid * Link => link_id p.2 = p.1)
                   (map_to_list (collect_links (Document.data d)))).
  { apply Forall_forall. intros [id l] Hin. simpl.
    apply elem_of_map_to_list in Hin. unfold collect_links in Hin.
    apply collect_step_sound in Hin as [Hempty | [Hid _]]; [|exact Hid].
    rewrite lookup_empty in Hempty. discriminate Hempty. }
  induction Hall as [|p ps Hp _ IH]; simpl; [reflexivity|].
  rewrite Hp. f_equal. exact IH.
Qed.

Lemma links_of_complete (d : Document.t) name ds l :
  Document.data d !! name = Some ds -> ds_linked ds = Some l ->
  link_id l ∈ map link_id (links_of d).
Proof.
  intros Hname Hl. rewrite links_of_ids.
  assert (Hsome : is_Some (collect_links (Document.data d) !! link_id l)).
  { unfold collect_links.
    apply (collect_step_complete _ ∅ (name, ds) l); [|exact Hl].
    apply elem_of_map_to_list. exact Hname. }
  destruct Hsome as [l0 Hl0].
  apply list_elem_of_fmap. exists (link_id l, l0). split; [reflexivity|].
  apply elem_of_map_to_list. exact Hl0.
Qed.

Lemma links_of_NoDup (d : Document.t) : NoDup (map link_id (links_of d)).
Proof. rewrite links_of_ids. apply NoDup_fst_map_to_list. Qed.

Lemma str_le_total : Total str_le.
Proof. intros a b. unfold str_le. apply String.leb_total. Qed.

Lemma links_of_empty (d : Document.t) :
  size (collect_links (Document.data d)) = 0%nat <-> links_of d = [].
Proof.
  unfold links_of. rewrite <- length_map_to_list. split.
  - intros Hlen. apply length_zero_iff_nil in Hlen. rewrite Hlen. reflexivity.
  - intros Hnil. apply fmap_nil_inv in Hnil. rewrite Hnil. reflexivity.
Qed.

Section ReloadLinkedDatasets.
Context `{External}.

(** C6, as the code has it: a [reloadLinkedDatasets] that returns has
    entered [reloadLinks] once for each distinct link that a dataset
    refers to.  When every such link is a [LinkedFile] or a
    [Linked2DFile], it returns the sorted list of the names that these
    reloads refreshed and the merge of their error counts, and the
    counter has gone up by one for each reload that moved datasets in
    and by one more if there was any link at all. *)
Theorem reloadLinkedDatasets_outcome (doc : Document.t) (read : list string)
    (errors : gmap string Z) (doc' : Document.t) :
  Document_reloadLinkedDatasets doc = (inr (read, errors), doc') ->
  reloads doc' = reloads doc ++ map link_id (links_of doc)
  /\ NoDup (map link_id (links_of doc))
  /\ (forall l, l ∈ links_of doc ->
        exists name ds,
          Document.data doc !! name = Some ds /\ ds_linked ds = Some l)
  /\ (forall name ds l,
        Document.data doc !! name = Some ds -> ds_linked ds = Some l ->
        link_id l ∈ map link_id (links_of doc))
  /\ (Forall scratch_link (links_of doc) ->
      Sorted str_le read
      /\ read ≡ₚ concat (map (fun l => names_refreshed l doc) (links_of doc))
      /\ errors = merged_errors (links_of doc) doc ∅
      /\ Document.changeset doc'
         = Document.changeset doc
           + Z.of_nat (length (List.filter moves_in (links_of doc)))
           + match links_of doc with [] => 0 | _ :: _ => 1 end).
Proof.
  intros Hrun.
  split; [|split; [apply links_of_NoDup|
           split; [apply links_of_referenced|
           split; [apply links_of_complete|]]]].
  - revert Hrun. unfold Document_reloadLinkedDatasets.
    unfold bind at 1. unfold gets at 1.
    change ((map_to_list (collect_links (Document.data doc))).*2)
      with (links_of doc).
    destruct (Nat.eqb (size (collect_links (Document.data doc))) 0) eqn:Hsize;
      simpl negb; cbv iota.
    + apply Nat.eqb_eq, links_of_empty in Hsize. rewrite Hsize.
      unfold bind, ret. intros [= _ _ <-]. symmetry. apply app_nil_r.
    + unfold bind at 1. unfold bind at 1.
      destruct (for_fold (links_of doc) reload_and_merge ([], ∅) doc)
        as [[e|res] d1] eqn:Hall; [discriminate|].
      unfold bind, ret. rewrite setModified_counts. intros [= _ _ <-].
      rewrite <- (reload_all_entered _ _ _ _ _ Hall).
      unfold reloads. simpl. rewrite omap_app. simpl. apply app_nil_r.
  - intros Hkind. revert Hrun. unfold Document_reloadLinkedDatasets.
    unfold bind at 1. unfold gets at 1.
    change ((map_to_list (collect_links (Document.data doc))).*2)
      with (links_of doc).
    destruct (Nat.eqb (size (collect_links (Document.data doc))) 0) eqn:Hsize;
      simpl negb; cbv iota.
    + apply Nat.eqb_eq, links_of_empty in Hsize. rewrite Hsize.
      unfold bind, ret. simpl fst. simpl snd. intros [= <- <- <-].
      split; [apply (@Sorted_merge_sort _ str_le _ str_le_total)|].
      split; [apply merge_sort_Permutation|].
      split; [reflexivity | simpl; lia].
    + unfold bind at 1. unfold bind at 1.
      destruct (for_fold (links_of doc) reload_and_merge ([], ∅) doc)
        as [[e|res] d1] eqn:Hall; [discriminate|].
      unfold bind, ret. rewrite setModified_counts. intros [= <- <- <-].
      destruct (reload_all_outcome _ Hkind _ _ _ _ Hall)
        as (Hread & Herr & Hc & _).
      simpl in Hread, Herr.
      split; [apply (@Sorted_merge_sort _ str_le _ str_le_total)|].
      split; [unfold list_sort; rewrite merge_sort_Permutation, Hread;
              reflexivity|].
      split; [exact Herr|]. simpl. rewrite Hc.
      destruct (links_of doc) as [|l ls] eqn:Hls; [|lia].
      apply links_of_empty in Hls. apply Nat.eqb_neq in Hsize. contradiction.
Qed.

End ReloadLinkedDatasets.

Lemma reloadLinkedDatasets_outcome_witness :
  exists doc',
    @Document_reloadLinkedDatasets lab run_doc
      = (inr (["x"], {["x" := 0]}), doc')
    /\ links_of run_doc = [run_link]
    /\ reloads doc' = reloads run_doc ++ [7%positive]
    /\ Sorted str_le ["x"]
    /\ Document.changeset doc' = Document.changeset run_doc + 1 + 1.
Proof.
  destruct (@Document_reloadLinkedDatasets lab run_doc) as [r doc'] eqn:Hrun.
  exists doc'.
  assert (Hr : r = inr (["x"], {["x" := 0]})).
  { apply (f_equal fst) in Hrun. simpl in Hrun. rewrite <- Hrun.
    vm_compute. reflexivity. }
  subst r.
  assert (Hls : links_of run_doc = [run_link]) by (vm_compute; reflexivity).
  destruct (@reloadLinkedDatasets_outcome lab run_doc _ _ doc' Hrun)
    as (Hreloads & _ & _ & _ & Hscratch).
  rewrite Hls in Hreloads, Hscratch.
  destruct Hscratch as (Hsorted & _ & _ & Hcount).
  { repeat constructor. }
  split; [reflexivity|]. split; [reflexivity|].
  split; [exact Hreloads|]. split; [exact Hsorted|].
  rewrite Hcount. reflexivity.
Defined.

(** C6, as stated, fails: with one linked dataset a reload occurs, and
    the counter goes up by two, once in [reloadLinks] and once in
    [reloadLinkedDatasets]. *)
Lemma reloadLinkedDatasets_counts_every_reload :
  let doc' := snd (@Document_reloadLinkedDatasets lab run_doc) in
  ~ (reloads doc' <> reloads run_doc ->
     Document.changeset doc' = Document.changeset run_doc + 1).
Proof.
  intros doc' Hclaim.
  assert (Hreloaded : reloads doc' <> reloads run_doc)
    by (vm_compute; discriminate).
  specialize (Hclaim Hreloaded). vm_compute in Hclaim. discriminate Hclaim.
Qed.

(** * Further properties of the code *)

(** ** The mapping of datasets *)

(** X1: what [setData] stores under a name is what [getData] returns
    and what [hasData] reports, bound to the document; every other name
    keeps what it had, and the counter has gone up by one. *)
Theorem setData_then_getData (d : Document.t) (name : string) (ds : AnyDataset) :
  let d' := snd (Document_setData name ds d) in
  Document_getData name d' = (inr (ds_set_document true ds), d')
  /\ Document_hasData name d' = (inr true, d')
  /\ (forall other, other <> name ->
        Document.data d' !! other = Document.data d !! other)
  /\ Document.changeset d' = Document.changeset d + 1.
Proof.
  intros d'. unfold d', Document_getData, Document_hasData, Document_setData,
    data_item, data_setitem, bind, gets, modify, ret. simpl.
  rewrite lookup_insert_eq. split; [reflexivity|].
  split.
  - rewrite bool_decide_eq_true_2 by eauto. reflexivity.
  - split; [|reflexivity]. intros other Hne.
    apply lookup_insert_ne. congruence.
Qed.

(** X2: [deleteDataset] of a name that holds nothing raises [KeyError]
    and leaves the document as it was; deleting a dataset that was just
    set under an unused name gives back the mapping from before. *)
Theorem deleteDataset_edges (d : Document.t) (name : string) :
  Document.data d !! name = None ->
  Document_deleteDataset name d = (inl (KeyError name), d)
  /\ forall ds,
       let d1 := snd (Document_setData name ds d) in
       exists d2,
         Document_deleteDataset name d1 = (inr tt, d2)
         /\ Document.data d2 = Document.data d
         /\ Document.changeset d2 = Document.changeset d + 2.
Proof.
  intros Hnone. split.
  - unfold Document_deleteDataset, data_item, bind, gets, raise. simpl.
    rewrite Hnone. reflexivity.
  - intros ds d1. unfold d1, Document_deleteDataset, Document_setData,
      data_item, data_setitem, bind, gets, modify, ret. simpl.
    rewrite lookup_insert_eq. eexists. split; [reflexivity|]. simpl.
    split; [|lia]. rewrite delete_insert_eq. apply delete_id, Hnone.
Qed.

Lemma deleteDataset_edges_witness :
  Document.data run_doc !! "z" = None
  /\ Document_deleteDataset "z" run_doc = (inl (KeyError "z"), run_doc).
Proof.
  assert (Hnone : Document.data run_doc !! "z" = None)
    by (vm_compute; reflexivity).
  split; [exact Hnone|].
  exact (proj1 (deleteDataset_edges run_doc "z" Hnone)).
Defined.

Lemma renameDataset_returns (d : Document.t) (oldname newname : string)
    (ds : AnyDataset) :
  Document.data d !! oldname = Some ds ->
  Document_renameDataset oldname newname d
  = (inr tt,
     snd (Document_setModified true
            (Document.set_data
               (<[newname := ds]> (delete oldname (Document.data d))) d))).
Proof.
  intros Hold. unfold Document_renameDataset, data_item, data_setitem, bind,
    gets, modify, ret. simpl. rewrite Hold. reflexivity.
Qed.

(** X3: renaming a name that holds nothing raises [KeyError] and changes
    nothing; renaming to an unused name and back gives the mapping from
    before. *)
Theorem renameDataset_there_and_back (d : Document.t)
    (oldname newname : string) :
  (Document.data d !! oldname = None ->
   Document_renameDataset oldname newname d = (inl (KeyError oldname), d))
  /\ (forall ds,
        Document.data d !! oldname = Some ds ->
        Document.data d !! newname = None ->
        exists d1 d2,
          Document_renameDataset oldname newname d = (inr tt, d1)
          /\ Document.data d1 !! newname = Some ds
          /\ Document.data d1 !! oldname = None
          /\ Document_renameDataset newname oldname d1 = (inr tt, d2)
          /\ Document.data d2 = Document.data d).
Proof.
  split.
  - intros Hnone. unfold Document_renameDataset, data_item, bind, gets, raise.
    simpl. rewrite Hnone. reflexivity.
  - intros ds Hold Hnew.
    assert (Hne : oldname <> newname) by congruence.
    eexists _, _. split; [apply (renameDataset_returns d _ _ ds Hold)|].
    simpl. split; [apply lookup_insert_eq|].
    split; [rewrite lookup_insert_ne by congruence; apply lookup_delete_eq|].
    split.
    + apply renameDataset_returns. simpl. apply lookup_insert_eq.
    + simpl. rewrite delete_insert_eq.
      rewrite (delete_id (delete oldname (Document.data d)) newname)
        by (rewrite lookup_delete_ne by exact Hne; exact Hnew).
      rewrite insert_delete_eq. apply insert_id, Hold.
Qed.

Lemma renameDataset_there_and_back_witness :
  exists ds d1 d2,
    Document.data run_doc !! "y" = Some ds
    /\ Document.data run_doc !! "z" = None
    /\ Document_renameDataset "y" "z" run_doc = (inr tt, d1)
    /\ Document_renameDataset "z" "y" d1 = (inr tt, d2)
    /\ Document.data d2 = Document.data run_doc.
Proof.
  destruct (Document.data run_doc !! "y") as [ds|] eqn:Hy;
    [|vm_compute in Hy; discriminate Hy].
  assert (Hz : Document.data run_doc !! "z" = None) by (vm_compute; reflexivity).
  destruct (proj2 (renameDataset_there_and_back run_doc "y" "z") ds Hy Hz)
    as (d1 & d2 & H1 & _ & _ & H2 & Hsame).
  exists ds, d1, d2. auto.
Defined.

(** X4: [renameDataset] does not look whether the new name is in use:
    the dataset that was stored there is dropped without an error, and
    the mapping has one dataset less. *)
Theorem renameDataset_replaces (d : Document.t) (oldname newname : string)
    (ds other : AnyDataset) :
  oldname <> newname ->
  Document.data d !! oldname = Some ds ->
  Document.data d !! newname = Some other ->
  exists d',
    Document_renameDataset oldname newname d = (inr tt, d')
    /\ Document.data d' !! newname = Some ds
    /\ Document.data d' !! oldname = None
    /\ S (size (Document.data d')) = size (Document.data d).
Proof.
  intros Hne Hold Hnew.
  eexists. split; [apply (renameDataset_returns d _ _ ds Hold)|]. simpl.
  split; [apply lookup_insert_eq|].
  split; [rewrite lookup_insert_ne by congruence; apply lookup_delete_eq|].
  rewrite map_size_insert_Some
    by (rewrite lookup_delete_ne by exact Hne; eauto).
  rewrite map_size_delete_Some by eauto.
  destruct (size (Document.data d)) eqn:Hsize; [|reflexivity].
  apply map_size_empty_iff in Hsize. rewrite Hsize, lookup_empty in Hold.
  discriminate Hold.
Qed.

Lemma renameDataset_replaces_witness :
  exists ds other d',
    Document.data run_doc !! "y" = Some ds
    /\ Document.data run_doc !! "x" = Some other
    /\ Document_renameDataset "y" "x" run_doc = (inr tt, d')
    /\ Document.data d' !! "x" = Some ds
    /\ size (Document.data d') = 1%nat.
Proof.
  destruct (Document.data run_doc !! "y") as [ds|] eqn:Hy;
    [|vm_compute in Hy; discriminate Hy].
  destruct (Document.data run_doc !! "x") as [other|] eqn:Hx;
    [|vm_compute in Hx; discriminate Hx].
  assert (Hne : "y" <> "x") by discriminate.
  destruct (renameDataset_replaces run_doc "y" "x" ds other Hne Hy Hx)
    as (d' & Hrun & Hnew & _ & Hsize).
  exists ds, other, d'.
  assert (Hs : size (Document.data run_doc) = 2%nat) by (vm_compute; reflexivity).
  rewrite Hs in Hsize. injection Hsize as Hsize. auto.
Defined.

(** ** Building and copying plain datasets *)

Lemma nd_add_same_shape (e a : ndarray) (k : float) :
  nd_shape e = nd_shape a ->
  exists r, nd_add e (nd_scale a k) = inr r /\ nd_shape r = nd_shape a.
Proof.
  destruct e as [x|l], a as [y|l']; simpl; try discriminate.
  - intros _. eauto.
  - intros [= Hlen]. rewrite length_map, Hlen, Nat.eqb_refl.
    eexists. split; [reflexivity|]. simpl. f_equal.
    revert l' Hlen.
    assert (Hz : forall l1 l2 : list float,
               length l1 = length l2 -> length (zip_add l1 l2) = length l2).
    { induction l1 as [|x1 l1 IH]; intros [|x2 l2]; simpl; try discriminate;
        [reflexivity|]. intros [= Hl]. f_equal. apply IH, Hl. }
    intros l' Hlen. rewrite Hz; rewrite ?length_map; auto.
Qed.

Lemma same_type_as_present (a : ndarray) (err r : option ndarray) :
  same_type_as a err = inr r -> (is_Some r <-> is_Some err).
Proof.
  unfold same_type_as, ebind. destruct err as [e|].
  - destruct (nd_add e (nd_scale a 0)) as [x|y]; [discriminate|].
    intros [= <-]. split; eauto.
  - intros [= <-]. reflexivity.
Qed.

Lemma same_type_as_same_shape (a : ndarray) (err : option ndarray) :
  part_matches (Some a) err ->
  exists r, same_type_as a err = inr r /\ shape_ok (nd_shape a) r = true.
Proof.
  unfold same_type_as, part_matches, ebind. destruct err as [e|].
  - intros (a' & [= <-] & Hshape).
    destruct (nd_add_same_shape e a 0%float Hshape) as (r & -> & Hr).
    exists (Some r). split; [reflexivity|]. simpl.
    apply bool_decide_eq_true_2, Hr.
  - intros _. exists None. split; reflexivity.
Qed.

Lemma Dataset_init_returned (data serr nerr perr : option ndarray)
    (linked : option Link) (self : Dataset.t) :
  Dataset_init data serr nerr perr linked = inr self ->
  Dataset.data self = data /\ is_Some data
  /\ errors_match self
  /\ (is_Some (Dataset.serr self) <-> is_Some serr)
  /\ (is_Some (Dataset.nerr self) <-> is_Some nerr)
  /\ (is_Some (Dataset.perr self) <-> is_Some perr)
  /\ Dataset.linked self = linked
  /\ Dataset.document self = false.
Proof.
  unfold Dataset_init, _cnvt_numarray.
  destruct data as [a|]; [|discriminate]. unfold ebind at 1.
  destruct (same_type_as a serr) as [e|s] eqn:Hs; [discriminate|].
  unfold ebind at 1.
  destruct (same_type_as a nerr) as [e|n] eqn:Hn; [discriminate|].
  unfold ebind at 1.
  destruct (same_type_as a perr) as [e|p] eqn:Hp; [discriminate|].
  unfold ebind at 1.
  destruct (Dataset_check_shapes (Dataset.Mk false (Some a) s n p linked))
    as [e|[]] eqn:Hcheck; [discriminate|].
  intros [= <-]. simpl.
  split; [reflexivity|]. split; [eauto|].
  split; [apply Dataset_check_shapes_ok, Hcheck|].
  eauto 10 using same_type_as_present.
Qed.

(** X5: a [Dataset] cannot be built without values: [Dataset(None, ...)]
    raises [AttributeError].  When the constructor returns, the dataset
    holds the values given, an error part exactly where one was given,
    each of the shape of the values, the link given, and no document.
    It does return when the errors given have the shape of the values. *)
Theorem Dataset_init_outcome (data serr nerr perr : option ndarray)
    (linked : option Link) :
  (data = None ->
   Dataset_init data serr nerr perr linked
   = inl (AttributeError "'NoneType' object has no attribute 'shape'"))
  /\ (forall self,
        Dataset_init data serr nerr perr linked = inr self ->
        Dataset.data self = data /\ is_Some data
        /\ errors_match self
        /\ (is_Some (Dataset.serr self) <-> is_Some serr)
        /\ (is_Some (Dataset.nerr self) <-> is_Some nerr)
        /\ (is_Some (Dataset.perr self) <-> is_Some perr)
        /\ Dataset.linked self = linked
        /\ Dataset.document self = false)
  /\ (forall a,
        data = Some a ->
        part_matches data serr -> part_matches data nerr ->
        part_matches data perr ->
        exists self, Dataset_init data serr nerr perr linked = inr self).
Proof.
  split; [|split].
  - intros ->. reflexivity.
  - intros self. apply Dataset_init_returned.
  - intros a -> Hs Hn Hp. unfold Dataset_init, _cnvt_numarray.
    destruct (same_type_as_same_shape a serr Hs) as (s & -> & Ks).
    destruct (same_type_as_same_shape a nerr Hn) as (n & -> & Kn).
    destruct (same_type_as_same_shape a perr Hp) as (p & -> & Kp).
    simpl. unfold Dataset_check_shapes. simpl. rewrite Ks, Kn, Kp. simpl.
    eauto.
Qed.

Lemma Dataset_init_outcome_witness :
  exists self,
    Dataset_init (Some (Arr1 [1; 2; 3]%float)) (Some (Arr1 [4; 5; 6]%float))
                 None None None = inr self
    /\ errors_match self.
Proof.
  destruct (Dataset_init_outcome (Some (Arr1 [1; 2; 3]%float))
              (Some (Arr1 [4; 5; 6]%float)) None None None)
    as (_ & Hret & Hok).
  destruct (Hok (Arr1 [1; 2; 3]%float) eq_refl) as [self Hself].
  - simpl. eauto.
  - exact I.
  - exact I.
  - exists self. split; [exact Hself|]. apply (Hret self Hself).
Defined.

(** X6: the dataset that [duplicateDataset] stores under the new name is
    a plain dataset without link and without document, whatever the
    source was; so every later [changeValues] on the copy raises, since
    it ends in [self.document.setModified].  The counter has gone up. *)
Theorem duplicateDataset_copy_is_detached `{External} (d d' : Document.t)
    (name newname : string) :
  Document_duplicateDataset name newname d = (inr tt, d') ->
  exists copy,
    Document.data d' !! newname = Some (IsDataset copy)
    /\ Dataset.document copy = false
    /\ Dataset.linked copy = None
    /\ errors_match copy
    /\ Document.changeset d < Document.changeset d'
    /\ forall type vals,
         exists e d'', Dataset_changeValues newname type vals d' = (inl e, d'').
Proof.
  unfold Document_duplicateDataset. unfold bind at 1. unfold gets at 1.
  destruct (bool_decide (is_Some (Document.data d !! newname)));
    [discriminate|].
  unfold bind at 1.
  destruct (duplicate name d) as [[e|dup] d1] eqn:Hdup; [discriminate|].
  assert (Hcopy : exists copy, dup = IsDataset copy
                    /\ Dataset.document copy = false
                    /\ Dataset.linked copy = None
                    /\ errors_match copy).
  { revert Hdup. unfold duplicate. unfold bind at 1.
    destruct (data_item name d) as [[e|ds] d0]; [discriminate|].
    destruct ds as [src|src|src].
    - unfold bind, lift, ret, Dataset_duplicate.
      destruct (Dataset_init _ _ _ _ None) as [e|copy] eqn:Hinit;
        [discriminate|].
      intros [= <- _]. exists copy. split; [reflexivity|].
      apply Dataset_init_returned in Hinit. tauto.
    - discriminate.
    - unfold bind at 1.
      destruct (DatasetExpression__propValues name "data" d0) as [[e|v1] s1];
        [discriminate|].
      unfold bind at 1.
      destruct (DatasetExpression__propValues name "serr" s1) as [[e|v2] s2];
        [discriminate|].
      unfold bind at 1.
      destruct (DatasetExpression__propValues name "nerr" s2) as [[e|v3] s3];
        [discriminate|].
      unfold bind at 1.
      destruct (DatasetExpression__propValues name "perr" s3) as [[e|v4] s4];
        [discriminate|].
      unfold bind, lift, ret.
      destruct (Dataset_init v1 v2 v3 v4 None) as [e|copy] eqn:Hinit;
        [discriminate|].
      intros [= <- _]. exists copy. split; [reflexivity|].
      apply Dataset_init_returned in Hinit. tauto. }
  destruct Hcopy as (copy & -> & Hdoc & Hlink & Hinv).
  pose proof (forward_duplicate name d) as [Hle _]. rewrite Hdup in Hle.
  simpl in Hle.
  unfold bind, data_setitem, modify, ret. rewrite setModified_counts.
  intros [= <-]. exists copy. simpl.
  split; [apply lookup_insert_eq|]. split; [exact Hdoc|].
  split; [exact Hlink|]. split; [exact Hinv|]. split; [lia|].
  intros type vals.
  unfold Dataset_changeValues, data_item, data_setitem, bind, gets, lift,
    modify, ret, raise. simpl. rewrite lookup_insert_eq.
  destruct (Dataset_changeValues_assign copy type vals) as [e|self'] eqn:Ha;
    [eauto|].
  destruct (Dataset_check_shapes self') as [e|[]]; [eauto|].
  assert (Hd' : Dataset.document self' = false).
  { revert Ha. unfold Dataset_changeValues_assign.
    repeat match goal with
           | |- context [String.eqb ?a ?b] => destruct (String.eqb a b)
           end; try discriminate; intros [= <-]; exact Hdoc. }
  rewrite Hd'. eauto.
Qed.

Lemma duplicateDataset_copy_is_detached_witness :
  exists d' copy,
    @Document_duplicateDataset lab "temp" "temp2" celsius_doc = (inr tt, d')
    /\ Document.data d' !! "temp2" = Some (IsDataset copy)
    /\ Dataset.document copy = false
    /\ exists e d'',
         Dataset_changeValues "temp2" "vals" (Some (Arr1 [7; 8; 9]%float)) d'
         = (inl e, d'').
Proof.
  destruct (@Document_duplicateDataset lab "temp" "temp2" celsius_doc)
    as [[e|[]] d'] eqn:Hrun; [vm_compute in Hrun; discriminate Hrun|].
  destruct (@duplicateDataset_copy_is_detached lab celsius_doc d'
              "temp" "temp2" Hrun)
    as (copy & Hc & Hdoc & _ & _ & _ & Hfail).
  exists d', copy. auto.
Defined.

(** ** Unlinking *)

(** X7: [unlinkDataset] of a name that holds nothing raises [KeyError]
    and changes nothing; otherwise it only clears the link of that
    dataset, and from then on no reload of a [LinkedFile] or a
    [Linked2DFile] changes what is stored under the name. *)
Theorem unlinkDataset_outcome `{External} (d : Document.t) (name : string) :
  (Document.data d !! name = None ->
   Document_unlinkDataset name d = (inl (KeyError name), d))
  /\ (forall ds,
        Document.data d !! name = Some ds ->
        exists d',
          Document_unlinkDataset name d = (inr tt, d')
          /\ Document.data d' = <[name := ds_set_linked None ds]> (Document.data d)
          /\ Document.changeset d' = Document.changeset d + 1
          /\ forall l,
               scratch_link l ->
               Document.data (snd (reloadLinks l d')) !! name
               = Some (ds_set_linked None ds)).
Proof.
  split.
  - intros Hnone. unfold Document_unlinkDataset, data_item, bind, gets, raise.
    simpl. rewrite Hnone. reflexivity.
  - intros ds Hds. unfold Document_unlinkDataset, data_item, data_setitem,
      bind, gets, modify, ret. simpl. rewrite Hds.
    eexists. split; [reflexivity|]. simpl.
    split; [reflexivity|]. split; [reflexivity|].
    intros l Hl. rewrite scratch_reload_frame.
    + simpl. apply lookup_insert_eq.
    + intros lfits Hfits. unfold scratch_link in Hl. rewrite Hfits in Hl.
      exact Hl.
    + simpl. rewrite lookup_insert_eq. simpl.
      rewrite ds_linked_set_linked. reflexivity.
Qed.

Lemma unlinkDataset_outcome_witness :
  exists ds d',
    Document.data run_doc !! "x" = Some ds
    /\ ds_linked ds = Some run_link
    /\ Document_unlinkDataset "x" run_doc = (inr tt, d')
    /\ Document.data (snd (@reloadLinks lab run_link d')) !! "x"
       = Some (ds_set_linked None ds).
Proof.
  destruct (Document.data run_doc !! "x") as [ds|] eqn:Hx;
    [|vm_compute in Hx; discriminate Hx].
  assert (Hl : ds_linked ds = Some run_link).
  { vm_compute in Hx. injection Hx as <-. reflexivity. }
  destruct (proj2 (@unlinkDataset_outcome lab run_doc "x") ds Hx)
    as (d' & Hrun & _ & _ & Hkeep).
  exists ds, d'. split; [reflexivity|]. split; [exact Hl|].
  split; [exact Hrun|]. apply Hkeep. exact I.
Defined.

(** ** Saving *)

Section SavingProperties.
Context `{External}.

Lemma Link_saveToFile_one_line l file :
  exists line, Link_saveToFile l file = file ++ [line].
Proof.
  unfold Link_saveToFile, LinkedFile_saveToFile, Linked2DFile_saveToFile,
    LinkedFITSFile_saveToFile, file_write.
  destruct (link_obj l); eauto.
Qed.

(** Equality of two sets of identities, element by element. *)
Ltac by_elements :=
  apply set_eq; intros ?x;
  rewrite ?elem_of_union, ?elem_of_difference, ?elem_of_union,
    ?elem_of_singleton, ?elem_of_empty;
  match goal with
  | l : Link |- _ =>
      destruct (decide (x = link_id l)) as [->|]; tauto
  | _ => tauto
  end.

Lemma link_ids_cons item items :
  link_ids (item :: items)
  = match ds_linked (snd item) with
    | Some l => {[link_id l]} ∪ link_ids items
    | None => link_ids items
    end.
Proof.
  unfold link_ids. simpl. destruct (ds_linked item.2); reflexivity.
Qed.

Lemma saveLinksToSavedDoc_step ds file saved :
  saveLinksToSavedDoc ds file saved
  = match ds_linked ds with
    | Some l =>
        if bool_decide (link_id l ∈ saved) then (file, saved)
        else (Link_saveToFile l file, {[link_id l]} ∪ saved)
    | None => (file, saved)
    end.
Proof. reflexivity. Qed.

Lemma save_links_extends items : forall file saved,
  file `prefix_of` fst (save_links items file saved).
Proof.
  unfold save_links.
  induction items as [|item items IH]; intros file saved; simpl;
    [reflexivity|].
  cbn [fst snd]. rewrite saveLinksToSavedDoc_step.
  destruct (ds_linked item.2) as [l|]; [|apply IH].
  destruct (bool_decide (link_id l ∈ saved)); [apply IH|].
  destruct (Link_saveToFile_one_line l file) as [line ->].
  etrans; [apply prefix_app_r; reflexivity | apply IH].
Qed.

(** X8: [saveToFile] writes one import statement for each distinct link
    of the datasets, however many datasets share it: the loop over
    [saveLinksToSavedDoc] adds to the file as many lines as there are
    link objects not yet saved, keeps what was written before, and
    leaves in [savedlinks] the links saved before and those of the
    datasets. *)
Theorem save_links_once (items : list (string * AnyDataset))
    (file : list string) (savedlinks : gset objid) :
  let out := save_links items file savedlinks in
  snd out = savedlinks ∪ link_ids items
  /\ file `prefix_of` fst out
  /\ length (fst out)
     = (length file + size (link_ids items ∖ savedlinks))%nat.
Proof.
  unfold save_links. revert file savedlinks.
  induction items as [|item items IH]; intros file saved; simpl.
  - unfold link_ids. simpl. split; [by_elements|]. split; [reflexivity|].
    replace (∅ ∖ saved) with (∅ : gset objid) by by_elements.
    rewrite size_empty. lia.
  - rewrite link_ids_cons. cbn [fst snd].
    rewrite saveLinksToSavedDoc_step.
    destruct (ds_linked item.2) as [l|]; [|apply IH].
    destruct (decide (link_id l ∈ saved)) as [Hin|Hnotin].
    + rewrite bool_decide_eq_true_2 by exact Hin.
      destruct (IH file saved) as (Hs & Hp & Hl).
      split; [rewrite Hs; by_elements|]. split; [exact Hp|].
      rewrite Hl. f_equal. f_equal. by_elements.
    + rewrite bool_decide_eq_false_2 by exact Hnotin.
      destruct (Link_saveToFile_one_line l file) as [line ->].
      destruct (IH (file ++ [line]) ({[link_id l]} ∪ saved)) as (Hs & Hp & Hl).
      split; [rewrite Hs; by_elements|].
      split; [etrans; [apply prefix_app_r; reflexivity | exact Hp]|].
      rewrite Hl, length_app. simpl.
      replace (({[link_id l]} ∪ link_ids items) ∖ saved)
        with ({[link_id l]} ∪ (link_ids items ∖ ({[link_id l]} ∪ saved)))
        by by_elements.
      rewrite (size_union ({[link_id l]} : gset objid)).
      * rewrite size_singleton. lia.
      * apply disjoint_singleton_l.
        rewrite elem_of_difference, elem_of_union, elem_of_singleton. tauto.
Qed.

Lemma saveToFile_uses_save_links file d :
  Document_saveToFile file d
  = (let file1 :=
       file_write file
         ("# Veusz saved document (version " +:+ utils_version +:+ ")" +:+ nl) in
     let file2 :=
       match environ_LOGNAME with
       | Some user => file_write file1 ("# User: " +:+ user +:+ nl)
       | None => file1
       end in
     let file3 := file_write file2 ("# Date: " +:+ time_now +:+ nl +:+ nl) in
     let items := map_to_list (Document.data d) in
     match save_datasets items (fst (save_links items file3 ∅)) with
     | inl e => (inl e, d)
     | inr file5 =>
         (inr (file_write file5
                 (Widget_getSaveText (Document.widgets d) (Document.basewidget d))),
          snd (Document_setModified false d))
     end).
Proof.
  unfold Document_saveToFile, save_links, bind, gets, lift, ret. simpl.
  destruct (save_datasets _ _); reflexivity.
Qed.

End SavingProperties.

Lemma write_rows_length {A} (g : A -> string) (rows : list A) (file : list string) :
  length (fold_left (fun f line => file_write f (g line)) rows file)
  = (length file + length rows)%nat
  /\ file `prefix_of` fold_left (fun f line => file_write f (g line)) rows file.
Proof.
  revert file. induction rows as [|r rows IH]; intros file; simpl.
  - split; [lia | reflexivity].
  - destruct (IH (file_write file (g r))) as [Hl Hp]. split.
    + rewrite Hl. unfold file_write. rewrite length_app. simpl. lia.
    + etrans; [|exact Hp]. unfold file_write. apply prefix_app_r. reflexivity.
Qed.

Lemma min_of_equal_lengths (n : nat) (lens : list nat) :
  Forall (fun k => k = n) lens -> fold_left Nat.min lens n = n.
Proof.
  induction 1 as [|k lens -> _ IH]; simpl; [reflexivity|].
  rewrite Nat.min_id. exact IH.
Qed.

Lemma izip_length (n : nat) (cols : list (list float)) :
  cols <> [] -> Forall (fun c => length c = n) cols -> length (izip cols) = n.
Proof.
  destruct cols as [|c rest]; [congruence|]. intros _ Hall.
  apply Forall_cons in Hall as [Hc Hrest]. unfold izip.
  rewrite length_map, length_seq, Hc. apply min_of_equal_lengths.
  apply Forall_fmap. exact Hrest.
Qed.

(** An error part of the shape of rank-1 values iterates to as many
    items as the values have. *)
Lemma present_column (tag : string) (l : list float) (err : option ndarray) :
  part_matches (Some (Arr1 l)) err ->
  exists cols,
    emap nd_iter (match err with Some _ => [err] | None => [] end) = inr cols
    /\ Forall (fun c => length c = length l) cols.
Proof.
  destruct err as [[x|l']|]; simpl.
  - intros (a & [= <-] & Hs). discriminate Hs.
  - intros (a & [= <-] & [= Hs]). eexists. split; [reflexivity|].
    constructor; [exact Hs | constructor].
  - intros _. exists []. split; [reflexivity | constructor].
Qed.

Lemma emap_app {A B} (f : A -> PyErr + B) (l1 l2 : list A) r1 r2 :
  emap f l1 = inr r1 -> emap f l2 = inr r2 -> emap f (l1 ++ l2) = inr (r1 ++ r2).
Proof.
  revert r1. induction l1 as [|x l1 IH]; intros r1; simpl.
  - intros [= <-]. auto.
  - unfold ebind at 1. destruct (f x) as [e|y]; [discriminate|].
    unfold ebind at 1. destruct (emap f l1) as [e|ys]; [discriminate|].
    intros [= <-] H2. unfold ebind. rewrite (IH ys eq_refl H2). reflexivity.
Qed.

Section SavingDatasets.
Context `{External}.

(** X9: [Dataset.saveToFile] writes nothing for a linked dataset.  For
    an unlinked dataset of rank 1 whose error parts have the shape of
    the values it keeps what is in the file and adds the
    [ImportString] line, one row for each value and the closing line.
    Without values, or with values of rank 0, it raises [TypeError]. *)
Theorem Dataset_saveToFile_rows (self : Dataset.t) (file : list string)
    (name : string) :
  (is_Some (Dataset.linked self) ->
   Dataset_saveToFile self file name = inr file)
  /\ (forall l,
        Dataset.linked self = None ->
        Dataset.data self = Some (Arr1 l) ->
        errors_match self ->
        exists out,
          Dataset_saveToFile self file name = inr out
          /\ file `prefix_of` out
          /\ length out = (length file + 2 + length l)%nat)
  /\ (Dataset.linked self = None ->
      (forall l, Dataset.data self <> Some (Arr1 l)) ->
      exists msg, Dataset_saveToFile self file name = inl (TypeError msg)).
Proof.
  split; [|split].
  - intros [lk Hlk]. unfold Dataset_saveToFile. rewrite Hlk. reflexivity.
  - intros l Hlk Hdata (Hs & Hn & Hp). unfold Dataset_saveToFile.
    rewrite Hlk, Hdata in *. cbn [fst snd].
    destruct (present_column ",+-" l _ Hs) as (cs & Es & Fs).
    destruct (present_column ",+" l _ Hp) as (cp & Ep & Fp).
    destruct (present_column ",-" l _ Hn) as (cn & En & Fn).
    assert (Hcols : emap nd_iter
              (Some (Arr1 l)
               :: (match Dataset.serr self with Some _ => [Dataset.serr self]
                   | None => [] end)
               ++ (match Dataset.perr self with Some _ => [Dataset.perr self]
                   | None => [] end)
               ++ (match Dataset.nerr self with Some _ => [Dataset.nerr self]
                   | None => [] end))
            = inr (l :: cs ++ cp ++ cn)).
    { change (Some (Arr1 l) :: ?x) with ([Some (Arr1 l)] ++ x).
      apply (emap_app nd_iter [Some (Arr1 l)] _ [l]); [reflexivity|].
      apply emap_app; [exact Es|]. apply emap_app; assumption. }
    assert (Hlen : length (izip (l :: cs ++ cp ++ cn)) = length l).
    { apply izip_length; [discriminate|].
      constructor; [reflexivity|]. rewrite !Forall_app. auto. }
    match goal with
    | |- context [emap nd_iter ?x] =>
        replace (emap nd_iter x) with (inr (A := PyErr) (l :: cs ++ cp ++ cn))
    end.
    2: { rewrite <- Hcols. f_equal. f_equal.
         destruct (Dataset.serr self), (Dataset.perr self),
           (Dataset.nerr self); reflexivity. }
    unfold ebind. eexists. split; [reflexivity|].
    match goal with
    | |- context [fold_left ?f (izip ?c) ?f0] =>
        destruct (write_rows_length (fun line => fmt_row line +:+ nl)
                    (izip c) f0) as [Hl Hp']
    end.
    unfold file_write in *. split.
    + etrans; [|apply prefix_app_r; reflexivity].
      etrans; [|exact Hp']. apply prefix_app_r. reflexivity.
    + rewrite length_app, Hl, length_app, Hlen. simpl. lia.
  - intros Hlk Hdata. unfold Dataset_saveToFile. rewrite Hlk. cbn [fst snd].
    destruct (Dataset.data self) as [[x|l]|] eqn:Hd.
    + simpl. unfold ebind. simpl. eauto.
    + destruct (Hdata l eq_refl).
    + simpl. unfold ebind. simpl. eauto.
Qed.

End SavingDatasets.

Lemma Dataset_saveToFile_rows_witness :
  let self := Dataset.Mk true (Some (Arr1 [1; 2; 3]%float))
                (Some (Arr1 [4; 5; 6]%float)) None None None in
  exists out,
    @Dataset_saveToFile lab self ["# header"] "temp" = inr out
    /\ length out = 6%nat.
Proof.
  intros self.
  destruct (@Dataset_saveToFile_rows lab self ["# header"] "temp")
    as (_ & Hrows & _).
  destruct (Hrows [1; 2; 3]%float eq_refl eq_refl) as (out & Hout & _ & Hlen).
  - repeat split; simpl; eauto.
  - exists out. split; [exact Hout | exact Hlen].
Defined.

Section SavingDocument.
Context `{External}.

Lemma Dataset_saveToFile_extends self file name out :
  Dataset_saveToFile self file name = inr out -> file `prefix_of` out.
Proof.
  unfold Dataset_saveToFile. destruct (Dataset.linked self).
  { intros [= <-]. reflexivity. }
  cbn [fst snd]. unfold ebind.
  destruct (emap nd_iter _) as [e|cols]; [discriminate|].
  intros [= <-].
  match goal with
  | |- context [fold_left ?f (izip ?c) ?f0] =>
      destruct (write_rows_length (fun line => fmt_row line +:+ nl)
                  (izip c) f0) as [_ Hp]
  end.
  unfold file_write in *.
  etrans; [|apply prefix_app_r; reflexivity].
  etrans; [|exact Hp]. apply prefix_app_r. reflexivity.
Qed.

Lemma Dataset2D_saveToFile_extends self file name out :
  Dataset2D_saveToFile self file name = inr out -> file `prefix_of` out.
Proof.
  unfold Dataset2D_saveToFile. destruct (Dataset2D.linked self).
  { intros [= <-]. reflexivity. }
  destruct (Dataset2D.data self) as [a|]; [|discriminate].
  intros [= <-].
  match goal with
  | |- context [fold_left ?f (rev ?c) ?f0] =>
      destruct (write_rows_length (fun row => fmt_row row +:+ nl)
                  (rev c) f0) as [_ Hp]
  end.
  unfold file_write in *.
  etrans; [|apply prefix_app_r; reflexivity].
  etrans; [|exact Hp].
  rewrite <- !app_assoc. apply prefix_app_r. reflexivity.
Qed.

Lemma DatasetExpression_saveToFile_extends self file name out :
  DatasetExpression_saveToFile self file name = inr out -> file `prefix_of` out.
Proof.
  unfold DatasetExpression_saveToFile, ebind.
  repeat match goal with
         | |- context [expr_item ?s ?p] => destruct (expr_item s p)
         end; try discriminate.
  intros [= <-]. unfold file_write. apply prefix_app_r. reflexivity.
Qed.

Lemma save_datasets_extends items : forall file out,
  save_datasets items file = inr out -> file `prefix_of` out.
Proof.
  induction items as [|[name ds] items IH]; intros file out; simpl.
  - intros [= <-]. reflexivity.
  - unfold ebind.
    destruct (AnyDataset_saveToFile ds file name) as [e|file'] eqn:Hone;
      [discriminate|].
    intros Hrest. etrans; [|apply (IH _ _ Hrest)].
    destruct ds; simpl in Hone;
      eauto using Dataset_saveToFile_extends, Dataset2D_saveToFile_extends,
        DatasetExpression_saveToFile_extends.
Qed.

(** X10: a [saveToFile] that raises leaves the document as it was, the
    modified flag included.  One that returns has only added to the
    file, has kept the datasets and the widgets, and has cleared the
    flag and emitted [sigModified(False)]. *)
Theorem saveToFile_outcome (file : list string) (d : Document.t) :
  match Document_saveToFile file d with
  | (inl _, d') => d' = d
  | (inr out, d') =>
      file `prefix_of` out
      /\ Document.data d' = Document.data d
      /\ Document.widgets d' = Document.widgets d
      /\ Document.basewidget d' = Document.basewidget d
      /\ Document.modified d' = false
      /\ Document.events d' = sigModified false :: Document.events d
  end.
Proof.
  rewrite saveToFile_uses_save_links. cbv zeta.
  match goal with
  | |- context [save_datasets ?items (fst (save_links ?items ?f3 ∅))] =>
      pose proof (save_links_extends items f3 ∅) as Hlinks;
      destruct (save_datasets items (fst (save_links items f3 ∅)))
        as [e|file5] eqn:Hsave
  end; [reflexivity|].
  apply save_datasets_extends in Hsave.
  split; [|repeat split].
  etrans; [|apply prefix_app_r; reflexivity].
  etrans; [|exact Hsave]. etrans; [|exact Hlinks].
  unfold file_write. destruct environ_LOGNAME;
    rewrite <- ?app_assoc; apply prefix_app_r; reflexivity.
Qed.

End SavingDocument.

(** ** Paths *)

Lemma first_char_app (p q : string) :
  p <> "" ->
  String.substring 0 1 (p +:+ q) = String.substring 0 1 p.
Proof. destruct p as [|c p]; [congruence|]. intros _. simpl.
  destruct (p +:+ q), p; reflexivity. Qed.

Lemma Document_resolve_step (d : Document.t) (origin : objid) (p q : string) :
  p <> "" ->
  String.eqb (String.substring 0 1 q) "/" = false ->
  Document_resolve d origin (p +:+ "/" +:+ q)
  = match Document_resolve d origin p with
    | inr w => Document_resolve d w q
    | inl e => inl e
    end.
Proof.
  intros Hp Hq. unfold Document_resolve.
  rewrite (first_char_app p ("/" +:+ q) Hp), str_split_slash_app,
    Document_resolve_parts_app, Hq.
  reflexivity.
Qed.

(** X11: resolving [p1/p2] is resolving [p1] and then [p2] from where
    that led, for a path [p1] that is not empty and a path [p2] that
    does not begin with a slash; an error in [p1] is the error of the
    whole.  So a slash at the end of a path changes nothing. *)
Theorem resolve_in_two_steps (d : Document.t) (origin : objid) (p1 p2 : string) :
  p1 <> "" ->
  String.eqb (String.substring 0 1 p2) "/" = false ->
  Document_resolve d origin (p1 +:+ "/" +:+ p2)
  = match Document_resolve d origin p1 with
    | inr w => Document_resolve d w p2
    | inl e => inl e
    end
  /\ Document_resolve d origin (p1 +:+ "/") = Document_resolve d origin p1.
Proof.
  intros Hp1 Hp2.
  split; [apply Document_resolve_step; assumption|].
  change (p1 +:+ "/") with (p1 +:+ "/" +:+ "").
  rewrite (Document_resolve_step d origin p1 "" Hp1 eq_refl).
  destruct (Document_resolve d origin p1); reflexivity.
Qed.

Lemma resolve_in_two_steps_witness :
  Document_resolve page_doc 1%positive "page1/graph1" = inr 3%positive
  /\ Document_resolve page_doc 1%positive "page1/graph1/" = inr 3%positive.
Proof.
  destruct (resolve_in_two_steps page_doc 1%positive "page1" "graph1")
    as [Htwo _]; [discriminate | reflexivity |].
  destruct (resolve_in_two_steps page_doc 1%positive "page1/graph1" "")
    as [_ Hslash]; [discriminate | reflexivity |].
  split.
  - change "page1/graph1" with ("page1" +:+ "/" +:+ "graph1").
    rewrite Htwo. vm_compute. reflexivity.
  - change "page1/graph1/" with ("page1/graph1" +:+ "/").
    rewrite Hslash. vm_compute. reflexivity.
Defined.

(** X12: a path that begins with a slash resolves alike from every
    origin; the empty path is the origin and ["/"] is the root; and
    [".."] from a root without parent raises [ValueError] with the text
    [Base graph has no parent]. *)
Theorem resolve_edges (d : Document.t) :
  (forall o1 o2 p,
     Document_resolve d o1 ("/" +:+ p) = Document_resolve d o2 ("/" +:+ p))
  /\ (forall o, Document_resolve d o "" = inr o)
  /\ (forall o, Document_resolve d o "/" = inr (Document.basewidget d))
  /\ (Widget_parent (Document.widgets d) (Document.basewidget d) = None ->
      forall o,
        Document_resolve d o "/.."
        = inl (ValueError "Base graph has no parent")).
Proof.
  split; [|split; [|split]].
  - intros o1 o2 p. unfold Document_resolve.
    rewrite first_char_slash. reflexivity.
  - reflexivity.
  - reflexivity.
  - intros Hroot o. unfold Document_resolve. simpl. rewrite Hroot. reflexivity.
Qed.

Lemma resolve_edges_witness :
  Widget_parent (Document.widgets page_doc) (Document.basewidget page_doc) = None
  /\ Document_resolve page_doc 3%positive "/.."
     = inl (ValueError "Base graph has no parent").
Proof.
  assert (Hroot : Widget_parent (Document.widgets page_doc)
                    (Document.basewidget page_doc) = None)
    by (vm_compute; reflexivity).
  split; [exact Hroot|].
  apply (proj2 (proj2 (proj2 (resolve_edges page_doc))) Hroot).
Defined.

(** ** The command interface *)

Lemma CommandInterface__resolve_parts_same ws obj parts :
  CommandInterface__resolve_parts ws obj parts
  = Document_resolve_parts ws obj parts.
Proof.
  revert obj. induction parts as [|p parts IH]; intros obj; simpl.
  - reflexivity.
  - destruct (String.eqb p "..").
    + destruct (Widget_parent ws obj); [apply IH | reflexivity].
    + destruct (String.eqb p "." || Nat.eqb (String.length p) 0); [apply IH|].
      destruct (Widget_getChild ws obj p); [apply IH | reflexivity].
Qed.

Lemma CommandInterface__resolve_from ci doc where_ :
  CommandInterface__resolve ci doc where_
  = Document_resolve doc (CommandInterface.currentwidget ci) where_.
Proof.
  unfold CommandInterface__resolve, Document_resolve.
  apply CommandInterface__resolve_parts_same.
Qed.


Section CommandProperties.
Context `{Console}.

Lemma To_arrival ci doc where_ :
  arrival (CommandInterface_To ci doc where_)
  = Document_resolve doc (CommandInterface.currentwidget ci) where_.
Proof.
  unfold CommandInterface_To, ebind. rewrite CommandInterface__resolve_from.
  destruct (Document_resolve doc _ where_); reflexivity.
Qed.

(** X13: going [To(p1)] and then [To(p2)] ends where [To(p1/p2)] ends,
    for a path [p1] that is not empty and a path [p2] that does not
    begin with a slash; when [To(p1)] raises, [To(p1/p2)] raises the
    same.  [To] keeps the verbosity. *)
Theorem To_in_two_steps (ci : CommandInterface.t) (doc : Document.t)
    (p1 p2 : string) :
  p1 <> "" ->
  String.eqb (String.substring 0 1 p2) "/" = false ->
  match CommandInterface_To ci doc p1 with
  | inr (ci1, _) =>
      CommandInterface.verbose ci1 = CommandInterface.verbose ci
      /\ arrival (CommandInterface_To ci1 doc p2)
         = arrival (CommandInterface_To ci doc (p1 +:+ "/" +:+ p2))
  | inl e => arrival (CommandInterface_To ci doc (p1 +:+ "/" +:+ p2)) = inl e
  end.
Proof.
  intros Hp1 Hp2.
  pose proof (To_arrival ci doc p1) as H1.
  rewrite (To_arrival ci doc (p1 +:+ "/" +:+ p2)).
  rewrite (Document_resolve_step doc _ p1 p2 Hp1 Hp2), <- H1.
  destruct (CommandInterface_To ci doc p1) as [e|[ci1 out]] eqn:Hto; simpl.
  - reflexivity.
  - split; [|apply To_arrival].
    revert Hto. unfold CommandInterface_To, ebind.
    destruct (CommandInterface__resolve ci doc p1); [discriminate|].
    intros [= <- _]. reflexivity.
Qed.

(** X14: after [wipe], with the command interface connected, the
    interface stands at the root of the document, which has no parent
    and no children: the document is blank and has no pages,
    [GetChildren] gives the empty list, the datasets are gone, and
    [To("..")] raises [Base graph has no parent]. *)
Theorem wipe_returns_to_root (ci : CommandInterface.t) (d : Document.t) :
  exists ci' out d',
    wipe_connected ci d = (inr (ci', out), d')
    /\ CommandInterface.currentwidget ci' = Document.basewidget d'
    /\ CommandInterface.verbose ci' = CommandInterface.verbose ci
    /\ Document_isBlank d' = true
    /\ Document_getNumberPages d' = 0%nat
    /\ CommandInterface_GetChildren ci' d' "." = inr []
    /\ CommandInterface_GetDatasets d' = []
    /\ CommandInterface_To ci' d' ".."
       = inl (ValueError "Base graph has no parent").
Proof.
  unfold wipe_connected, bind. rewrite wipe_counts.
  unfold CommandInterface_slotWipedDoc, CommandInterface_To, ebind.
  eexists _, _, _. split; [reflexivity|]. simpl.
  repeat split.
Qed.

(** X15: [SetData] either raises in the constructor of the dataset and
    leaves the document as it was, or it stores under the name a plain
    dataset that is bound to the document, has no link, holds the
    values given and error parts of their shape, and has raised the
    counter by one. *)
Theorem SetData_all_or_nothing (ci : CommandInterface.t) (name : string)
    (val symerr negerr poserr : option ndarray) (d : Document.t) :
  match CommandInterface_SetData ci name val symerr negerr poserr d with
  | (inl _, d') => d' = d
  | (inr _, d') =>
      exists data,
        Document.data d' = <[name := IsDataset data]> (Document.data d)
        /\ Dataset.document data = true
        /\ Dataset.linked data = None
        /\ Dataset.data data = val
        /\ errors_match data
        /\ Document.changeset d' = Document.changeset d + 1
  end.
Proof.
  unfold CommandInterface_SetData. unfold bind at 1. unfold lift at 1.
  destruct (Dataset_init val symerr negerr poserr None) as [e|data] eqn:Hinit;
    [reflexivity|].
  apply Dataset_init_returned in Hinit
    as (Hval & _ & (Hs & Hn & Hp) & _ & _ & _ & Hlink & _).
  unfold Document_setData, data_setitem, bind, modify, ret. simpl.
  exists (Dataset.set_document true data). simpl.
  split; [reflexivity|]. split; [reflexivity|]. split; [exact Hlink|].
  split; [exact Hval|]. split; [|reflexivity].
  repeat split; assumption.
Qed.

End CommandProperties.

(** X16: [GetDatasets] returns the names of the datasets in ascending
    order and each once: a name is in the list exactly when [hasData]
    says so. *)
Theorem GetDatasets_sorted_names (d : Document.t) :
  Sorted str_le (CommandInterface_GetDatasets d)
  /\ NoDup (CommandInterface_GetDatasets d)
  /\ forall name,
       name ∈ CommandInterface_GetDatasets d
       <-> fst (Document_hasData name d) = inr true.
Proof.
  unfold CommandInterface_GetDatasets, list_sort.
  split; [apply (@Sorted_merge_sort _ str_le _ str_le_total)|].
  split.
  - rewrite merge_sort_Permutation. apply NoDup_fst_map_to_list.
  - intros name. rewrite merge_sort_Permutation.
    unfold Document_hasData, bind, gets, ret. simpl.
    rewrite list_elem_of_fmap. split.
    + intros ([n ds] & -> & Hin). apply elem_of_map_to_list in Hin.
      simpl. rewrite bool_decide_eq_true_2 by eauto. reflexivity.
    + intros [= Hdec]. apply bool_decide_eq_true in Hdec as [ds Hds].
      exists (name, ds). split; [reflexivity|].
      apply elem_of_map_to_list. exact Hds.
Qed.

Lemma no_slash_relative (s : string) :
  has_slash s = false -> String.eqb (String.substring 0 1 s) "/" = false.
Proof.
  destruct s as [|c s]; [reflexivity|]. simpl.
  intros Hs. apply orb_false_iff in Hs as [Hc _].
  destruct s; simpl; rewrite Hc; reflexivity.
Qed.

(** X17: every name that [GetChildren(where)] lists can be gone to: if
    the name is one the resolver reads as a child's name, [where/name]
    resolves to a child of that name, and, where children point back to
    their parents, [where/name/..] leads back to the widget of [where]. *)
Theorem GetChildren_can_be_resolved (ci : CommandInterface.t)
    (doc : Document.t) (where_ name : string) (names : list string) :
  where_ <> "" ->
  CommandInterface_GetChildren ci doc where_ = inr names ->
  name ∈ names ->
  has_slash name = false -> is_child_segment name = true ->
  exists w c,
    CommandInterface__resolve ci doc where_ = inr w
    /\ CommandInterface__resolve ci doc (where_ +:+ "/" +:+ name) = inr c
    /\ c ∈ Widget_children (Document.widgets doc) w
    /\ has_name (Document.widgets doc) name c = true
    /\ (widgets_ok (Document.widgets doc) = true ->
        CommandInterface__resolve ci doc (where_ +:+ "/" +:+ name +:+ "/..")
        = inr w).
Proof.
  intros Hwhere Hget Hin Hslash Hseg.
  unfold CommandInterface_GetChildren, ebind in Hget.
  rewrite !CommandInterface__resolve_from in *.
  destruct (Document_resolve doc (CommandInterface.currentwidget ci) where_)
    as [e|w] eqn:Hw; [discriminate|].
  injection Hget as <-.
  unfold Widget_childnames in Hin.
  apply list_elem_of_omap in Hin as (c0 & Hc0 & Hname).
  destruct (Document.widgets doc !! c0) as [x|] eqn:Hx; [|discriminate].
  simpl in Hname. injection Hname as Hname.
  assert (Hhas : has_name (Document.widgets doc) name c0 = true).
  { unfold has_name. rewrite Hx, Hname. apply String.eqb_refl. }
  assert (Hchild : exists c,
             Widget_getChild (Document.widgets doc) w name = Some c
             /\ c ∈ Widget_children (Document.widgets doc) w
             /\ has_name (Document.widgets doc) name c = true).
  { unfold Widget_getChild, Widget_children in *.
    destruct (Document.widgets doc !! w) as [ww|]; [|inversion Hc0].
    destruct (find (has_name (Document.widgets doc) name) (Widget.children ww))
      as [c|] eqn:Hfind.
    - apply find_some in Hfind as [Hcin Hc]. exists c.
      split; [reflexivity|]. split; [apply list_elem_of_In, Hcin | exact Hc].
    - apply list_elem_of_In in Hc0.
      rewrite (find_none _ _ Hfind c0 Hc0) in Hhas. discriminate Hhas. }
  destruct Hchild as (c & Hget & Hcin & Hc).
  assert (Hdown : Document_resolve_parts (Document.widgets doc) w [name] = inr c).
  { unfold is_child_segment in Hseg.
    apply andb_true_iff in Hseg as [Hseg H0].
    apply andb_true_iff in Hseg as [Hdd Hd].
    apply negb_true_iff in Hdd, Hd, H0.
    simpl. rewrite Hdd, Hd, H0, Hget. reflexivity. }
  exists w, c. split; [reflexivity|].
  pose proof (no_slash_relative name Hslash) as Hrel.
  split.
  { rewrite (Document_resolve_step doc _ where_ name Hwhere Hrel), Hw.
    unfold Document_resolve. rewrite Hrel, (str_split_slash_name name Hslash).
    exact Hdown. }
  split; [exact Hcin|]. split; [exact Hc|].
  intros Hok.
  assert (Hrel2 : String.eqb (String.substring 0 1 (name +:+ "/" +:+ "..")) "/"
                  = false).
  { destruct name as [|ch name]; [discriminate Hseg|].
    simpl in Hslash. apply orb_false_iff in Hslash as [Hch _].
    simpl. destruct (name +:+ "/.."); simpl; rewrite Hch; reflexivity. }
  change (where_ +:+ "/" +:+ name +:+ "/..")
    with (where_ +:+ "/" +:+ (name +:+ "/" +:+ "..")).
  rewrite (Document_resolve_step doc _ where_ _ Hwhere Hrel2), Hw.
  unfold Document_resolve. rewrite Hrel2, str_split_slash_app,
    (str_split_slash_name name Hslash).
  change (str_split_slash "..") with [".."].
  destruct (Document_resolve_parts (Document.widgets doc) w ([name] ++ [".."]))
    as [e|n] eqn:Hup.
  - simpl in Hup. simpl in Hdown.
    unfold is_child_segment in Hseg.
    apply andb_true_iff in Hseg as [Hseg H0].
    apply andb_true_iff in Hseg as [Hdd Hd].
    apply negb_true_iff in Hdd, Hd, H0.
    rewrite Hdd, Hd, H0, Hget in Hup. simpl in Hup.
    rewrite (widgets_ok_parent _ _ _ _ Hok Hget) in Hup. discriminate Hup.
  - f_equal. apply (Document_resolve_parts_down_up _ w name Hok Hseg n Hup).
Qed.

Lemma GetChildren_can_be_resolved_witness :
  let ci := CommandInterface_init page_doc in
  CommandInterface_GetChildren ci page_doc "page1" = inr ["graph1"]
  /\ CommandInterface__resolve ci page_doc "page1/graph1" = inr 3%positive
  /\ CommandInterface__resolve ci page_doc "page1/graph1/.." = inr 2%positive.
Proof.
  intros ci.
  assert (Hget : CommandInterface_GetChildren ci page_doc "page1"
                 = inr ["graph1"]) by (vm_compute; reflexivity).
  destruct (GetChildren_can_be_resolved ci page_doc "page1" "graph1"
              ["graph1"])
    as (w & c & Hw & Hc & _ & _ & Hup);
    [discriminate | exact Hget | apply list_elem_of_here
    | reflexivity | reflexivity |].
  split; [exact Hget|].
  assert (Hw2 : w = 2%positive).
  { vm_compute in Hw. injection Hw as <-. reflexivity. }
  assert (Hc3 : c = 3%positive).
  { change ("page1" +:+ "/" +:+ "graph1") with "page1/graph1" in Hc.
    vm_compute in Hc. injection Hc as <-. reflexivity. }
  subst w c. split; [exact Hc|].
  apply Hup. vm_compute. reflexivity.
Defined.

Lemma To_in_two_steps_witness :
  let ci := CommandInterface_init page_doc in
  exists ci1 out,
    @CommandInterface_To lab_console ci page_doc "page1" = inr (ci1, out)
    /\ arrival (@CommandInterface_To lab_console ci1 page_doc "graph1")
       = inr 3%positive
    /\ arrival (@CommandInterface_To lab_console ci page_doc "page1/graph1")
       = inr 3%positive.
Proof.
  intros ci.
  assert (Hp1 : "page1" <> "") by discriminate.
  pose proof (@To_in_two_steps lab_console ci page_doc "page1" "graph1"
                Hp1 eq_refl) as Hsteps.
  destruct (@CommandInterface_To lab_console ci page_doc "page1")
    as [e|[ci1 out]] eqn:Hto; [vm_compute in Hto; discriminate Hto|].
  destruct Hsteps as [_ Hsame].
  exists ci1, out. split; [reflexivity|].
  assert (Hend : arrival (@CommandInterface_To lab_console ci page_doc
                            "page1/graph1") = inr 3%positive)
    by (vm_compute; reflexivity).
  split; [|exact Hend].
  rewrite Hsame. exact Hend.
Defined.

(** ** Imports from FITS files and reloads *)

Section ImportProperties.
Context `{External}.

Lemma importFITS_table_unlinked rhdu dc sc pc nc ds :
  importFITS_table rhdu dc sc pc nc = inr ds ->
  ds_linked ds = None /\ ds_document ds = false.
Proof.
  unfold importFITS_table, ebind.
  destruct (hdu_field rhdu) as [field|]; [|discriminate].
  destruct (read_column field dc) as [e|datav]; [discriminate|].
  destruct (read_column field sc) as [e|symv]; [discriminate|].
  destruct (read_column field pc) as [e|posv]; [discriminate|].
  destruct (read_column field nc) as [e|negv]; [discriminate|].
  destruct (Dataset_init datav symv negv posv None) as [e|self] eqn:Hinit;
    [discriminate|].
  intros [= <-]. apply Dataset_init_returned in Hinit. simpl. tauto.
Qed.

Lemma importFITS_image_unlinked rhdu ds :
  importFITS_image rhdu = inr ds ->
  ds_linked ds = None /\ ds_document ds = false.
Proof.
  unfold importFITS_image, ebind.
  destruct (hdu_image rhdu) as [e|data]; [discriminate|].
  match goal with
  | |- match ?r with inl _ => _ | inr _ => _ end = _ -> _ =>
      destruct r as [e|ranges]; [discriminate|]
  end.
  destruct (Dataset2D_init data ranges.1 ranges.2) as [e|self] eqn:Hinit;
    [discriminate|].
  intros [= <-]. revert Hinit. unfold Dataset2D_init, ebind.
  repeat match goal with
         | |- match ?x with inl _ => _ | inr _ => _ end = _ -> _ =>
             destruct x; [discriminate|]
         end.
  intros [= <-]. split; reflexivity.
Qed.

(** What a call of [importFITS] comes to: an error before anything is
    stored, or [setData] of the dataset read. *)
Lemma importFITS_cases dsname filename hdu dc sc pc nc linked :
  (exists e, forall d,
      Document_importFITS dsname filename hdu dc sc pc nc linked d
      = (inl e, d))
  \/ (exists ds,
        ds_linked ds = None /\ ds_document ds = false
        /\ forall d,
             Document_importFITS dsname filename hdu dc sc pc nc linked d
             = Document_setData dsname
                 (ds_set_linked
                    ((fun id => fits_link id dsname filename hdu dc sc pc nc)
                       <$> linked) ds) d).
Proof.
  unfold Document_importFITS.
  destruct (negb pyfits_installed); [left; eexists; reflexivity|].
  unfold bind, lift.
  destruct (pyfits_open filename hdu) as [e|rhdu];
    [left; eexists; reflexivity|].
  destruct (match importFITS_table rhdu dc sc pc nc with
            | inl (AttributeError _) => importFITS_image rhdu
            | r => r
            end) as [e|ds] eqn:Hds; [left; eexists; reflexivity|].
  right. exists ds.
  assert (Hfresh : ds_linked ds = None /\ ds_document ds = false).
  { destruct (importFITS_table rhdu dc sc pc nc) as [e|t] eqn:Htable.
    - destruct e; try discriminate Hds.
      apply importFITS_image_unlinked in Hds. exact Hds.
    - injection Hds as <-. apply importFITS_table_unlinked in Htable.
      exact Htable. }
  destruct Hfresh as [Hl Hd]. split; [exact Hl|]. split; [exact Hd|].
  intros d. destruct linked as [id|]; simpl; [reflexivity|].
  destruct ds as [t|t|t]; destruct t; simpl in Hl |- *; rewrite Hl;
    reflexivity.
Qed.

Lemma ds_linked_put v ds :
  ds_linked (ds_set_document true (ds_set_linked v ds)) = v.
Proof. destruct ds; reflexivity. Qed.

Lemma ds_document_put v ds :
  ds_document (ds_set_document true (ds_set_linked v ds)) = true.
Proof. destruct ds; reflexivity. Qed.

(** X18: [importFITS] either raises and leaves the document as it was,
    or it stores one dataset under [dsname] and nothing else: the
    dataset belongs to the document, it is linked exactly when [linked]
    was asked for, to a new link that records the name, the file, the
    HDU and the four columns, and the counter has gone up by one. *)
Theorem importFITS_outcome (dsname filename : string) (hdu : fitskey)
    (datacol symerrcol poserrcol negerrcol : option fitskey)
    (linked : option objid) (d : Document.t) :
  match Document_importFITS dsname filename hdu datacol symerrcol
          poserrcol negerrcol linked d with
  | (inl _, d') => d' = d
  | (inr _, d') =>
      exists ds,
        Document.data d' = <[dsname := ds]> (Document.data d)
        /\ ds_document ds = true
        /\ ds_linked ds
           = (fun id => fits_link id dsname filename hdu datacol symerrcol
                          poserrcol negerrcol) <$> linked
        /\ Document.changeset d' = Document.changeset d + 1
        /\ Document.modified d' = true
        /\ Document.widgets d' = Document.widgets d
  end.
Proof.
  destruct (importFITS_cases dsname filename hdu datacol symerrcol
              poserrcol negerrcol linked)
    as [[e He]|(ds & _ & _ & Hset)]; [rewrite He; reflexivity|].
  rewrite Hset.
  unfold Document_setData, data_setitem, bind, modify, ret. simpl.
  eexists. split; [reflexivity|].
  split; [apply ds_document_put|]. split; [apply ds_linked_put|].
  repeat split.
Qed.

(** X19: reloading a FITS link does not keep the link: a
    [LinkedFITSFile.reloadLinks] that returns has stored under the name
    of the link a dataset that is not linked to anything, so that the
    name is no longer linked to the link reloaded; the other names keep
    their datasets. *)
Theorem fits_reload_unlinks (l : Link) (lfits : LinkedFITSFile)
    (d d' : Document.t) (r : names_read * gmap string Z) :
  link_obj l = IsLinkedFITSFile lfits ->
  reloadLinks l d = (inr r, d') ->
  r = (NameStr (lfits_dsname lfits), {[lfits_dsname lfits := 0]})
  /\ (exists ds,
        Document.data d' = <[lfits_dsname lfits := ds]> (Document.data d)
        /\ ds_linked ds = None /\ ds_document ds = true)
  /\ linked_to l d' (lfits_dsname lfits) = false
  /\ Document.changeset d' = Document.changeset d + 1.
Proof.
  intros Hobj. unfold reloadLinks. rewrite Hobj.
  unfold LinkedFITSFile_reloadLinks.
  unfold bind at 1. unfold modify at 1.
  set (d0 := Document.emit (call_reloadLinks (link_id l)) d).
  unfold bind at 1. unfold lift at 1.
  destruct (column _ 0) as [e|c0]; [discriminate|].
  unfold bind at 1. unfold lift at 1.
  destruct (column _ 1) as [e|c1]; [discriminate|].
  unfold bind at 1. unfold lift at 1.
  destruct (column _ 2) as [e|c2]; [discriminate|].
  unfold bind at 1. unfold lift at 1.
  destruct (column _ 3) as [e|c3]; [discriminate|].
  unfold bind at 1.
  destruct (importFITS_cases (lfits_dsname lfits) (lfits_filename lfits)
              (lfits_hdu lfits) c0 c1 c2 c3 None)
    as [[e He]|(ds & Hl & Hd & Hset)]; [rewrite He; discriminate|].
  rewrite Hset.
  unfold Document_setData, data_setitem, bind, modify, ret. simpl.
  intros [= <- <-]. simpl.
  split; [reflexivity|].
  split; [eexists; split; [reflexivity|];
          split; [apply ds_linked_put | apply ds_document_put]|].
  split; [|reflexivity].
  unfold linked_to. simpl. rewrite lookup_insert_eq, ds_linked_put.
  reflexivity.
Qed.

(** The data that the loop that moves datasets in leaves behind. *)
Lemma move_in_loop_data {S : Type} (self : Link)
    (put : AnyDataset -> AnyDataset) (note : S -> string -> S)
    (items : list (string * AnyDataset)) :
  NoDup items.*1 ->
  forall (acc : S) (d : Document.t) (k : string),
    Document.data (snd (for_fold items (move_in self put note) acc d)) !! k
    = moved_in self put (list_to_map items) (Document.data d) k.
Proof.
  induction items as [|[n x] items IH]; intros Hnd acc d k.
  { simpl. unfold moved_in. rewrite lookup_empty.
    destruct (Document.data d !! k) as [old|]; [|reflexivity].
    destruct (linked_is (ds_linked old) self); reflexivity. }
  simpl in Hnd. apply NoDup_cons in Hnd as [Hn Hnd].
  cbn [for_fold]. unfold bind at 1. unfold move_in at 1.
  unfold bind, gets, data_setitem, modify, ret. cbn [fst snd].
  assert (Hrest : (list_to_map items : gmap string AnyDataset) !! n = None)
    by (apply not_elem_of_list_to_map_1, Hn).
  destruct (Document.data d !! n) as [old|] eqn:Hold;
    [destruct (linked_is (ds_linked old) self) eqn:Hl|];
    cbn [fst snd]; rewrite (IH Hnd); unfold moved_in; cbn [list_to_map foldr];
    cbn [Document.data Document.set_data];
    (destruct (decide (k = n)) as [->|Hne];
     [rewrite ?lookup_insert_eq, ?Hold, ?Hl, ?Hrest;
      try (destruct (linked_is (ds_linked (put x)) self)); reflexivity
     |rewrite ?(lookup_insert_ne _ n k) by congruence; reflexivity]).
Qed.

(** Moving in twice from the same scratch document is moving in once. *)
Lemma moved_in_twice (self : Link) (put : AnyDataset -> AnyDataset)
    (scratch live1 live2 : gmap string AnyDataset) :
  (forall k x, scratch !! k = Some x ->
               linked_is (ds_linked (put x)) self = true) ->
  (forall k, live2 !! k = moved_in self put scratch live1 k) ->
  forall k, moved_in self put scratch live2 k = live2 !! k.
Proof.
  intros Hput H12 k. unfold moved_in at 1. rewrite (H12 k). unfold moved_in.
  destruct (live1 !! k) as [old|]; [|reflexivity].
  destruct (linked_is (ds_linked old) self) eqn:Hl; [|rewrite Hl; reflexivity].
  destruct (scratch !! k) as [x|] eqn:Hx.
  - rewrite (Hput k x Hx). reflexivity.
  - rewrite Hl. reflexivity.
Qed.

(** A [LinkedFile] reload whose file can be read returns, and leaves the
    data that [moved_in] describes. *)
Lemma LinkedFile_reloadLinks_data self lf tempdoc errs d :
  LinkedFile_scratch self lf = inr (tempdoc, errs) ->
  exists d',
    LinkedFile_reloadLinks self lf d
    = (inr (NameList (refreshed self d tempdoc), errs), d')
    /\ forall k, Document.data d' !! k
                 = moved_in self (ds_set_document true)
                     (Document.data tempdoc) (Document.data d) k.
Proof.
  intros Hscratch. unfold LinkedFile_reloadLinks.
  unfold bind at 1. unfold modify at 1.
  unfold bind at 1. unfold lift at 1. rewrite Hscratch.
  simpl fst. simpl snd.
  set (d0 := Document.emit (call_reloadLinks (link_id self)) d).
  rewrite LinkedFile_move_in_shape.
  destruct (move_in_loop self (ds_set_document true)
              (fun read name => read ++ [name])
              (map_to_list (Document.data tempdoc))
              (NoDup_fst_map_to_list _)
              (items_put_linked self _ _
                 (fun name ds Hds =>
                    eq_trans (f_equal (fun x => linked_is x self)
                                (ds_linked_set_document true ds))
                             (LinkedFile_scratch_all_linked _ _ _ _ Hscratch
                                name ds Hds)))
              [] d0)
    as (d1 & Hrun & _).
  pose proof (move_in_loop_data self (ds_set_document true)
                (fun read name => read ++ [name])
                (map_to_list (Document.data tempdoc))
                (NoDup_fst_map_to_list _) [] d0) as Hdata.
  rewrite Hrun in Hdata. cbn [snd] in Hdata.
  rewrite list_to_map_to_list in Hdata.
  unfold bind at 1. rewrite Hrun. rewrite fold_left_snoc. simpl app.
  unfold bind, ret. rewrite setModified_counts.
  eexists. split; [reflexivity|]. exact Hdata.
Qed.

(** The same for a [Linked2DFile] whose file can be read. *)
Lemma Linked2DFile_reloadLinks_data self l2 tempdoc d :
  Linked2DFile_scratch l2 = (inr tt, tempdoc) ->
  exists d',
    Linked2DFile_reloadLinks self l2 d
    = (inr (NameList (refreshed self d tempdoc),
            zero_counts (refreshed self d tempdoc) ∅), d')
    /\ forall k, Document.data d' !! k
                 = moved_in self
                     (fun ds => ds_set_document true
                                  (ds_set_linked (Some self) ds))
                     (Document.data tempdoc) (Document.data d) k.
Proof.
  intros Hscratch. unfold Linked2DFile_reloadLinks.
  unfold bind at 1. unfold modify at 1. rewrite Hscratch.
  set (d0 := Document.emit (call_reloadLinks (link_id self)) d).
  rewrite Linked2DFile_move_in_shape.
  destruct (move_in_loop (S := (list string * gmap string Z)%type) self
              (fun ds => ds_set_document true (ds_set_linked (Some self) ds))
              (fun acc name => (fst acc ++ [name], <[name := 0]> (snd acc)))
              (map_to_list (Document.data tempdoc))
              (NoDup_fst_map_to_list _)
              (items_put_linked self _ _
                 (fun name ds _ =>
                    eq_trans
                      (f_equal (fun x => linked_is x self)
                         (eq_trans (ds_linked_set_document true _)
                                   (ds_linked_set_linked (Some self) ds)))
                      (link_is_refl self)))
              ([], ∅) d0)
    as (d1 & Hrun & _).
  pose proof (move_in_loop_data (S := (list string * gmap string Z)%type) self
                (fun ds => ds_set_document true (ds_set_linked (Some self) ds))
                (fun acc name => (fst acc ++ [name], <[name := 0]> (snd acc)))
                (map_to_list (Document.data tempdoc))
                (NoDup_fst_map_to_list _) ([], ∅) d0) as Hdata.
  rewrite Hrun in Hdata. cbn [snd] in Hdata.
  rewrite list_to_map_to_list in Hdata.
  unfold bind at 1. rewrite Hrun. rewrite fold_left_snoc_zero. simpl app.
  unfold bind, ret. rewrite setModified_counts.
  eexists. split; [reflexivity|]. exact Hdata.
Qed.

(** X20: a reload that has returned can be made again, with the files
    as they are, and changes no dataset: the second [reloadLinks] of
    the same link returns what the first returned and leaves the
    mapping of names to datasets as the first left it.  This holds for
    the three classes of links. *)
Theorem reloadLinks_again (l : Link) (d d1 : Document.t)
    (r : names_read * gmap string Z) :
  reloadLinks l d = (inr r, d1) ->
  exists d2,
    reloadLinks l d1 = (inr r, d2)
    /\ Document.data d2 = Document.data d1.
Proof.
  unfold reloadLinks. destruct (link_obj l) as [lf|l2|lfits] eqn:Hobj.
  - intros Hrun.
    destruct (LinkedFile_reloadLinks_returns l lf d r d1 Hrun)
      as (tempdoc & errs & Hscratch & -> & _ & _ & Hs).
    destruct (LinkedFile_reloadLinks_data l lf tempdoc errs d Hscratch)
      as (d1' & Hrun1 & Hdata1).
    rewrite Hrun in Hrun1. injection Hrun1 as <-.
    destruct (LinkedFile_reloadLinks_data l lf tempdoc errs d1 Hscratch)
      as (d2 & Hrun2 & Hdata2).
    exists d2. rewrite Hrun2, (refreshed_same_links l d d1 tempdoc Hs).
    split; [reflexivity|].
    apply map_eq. intros k. rewrite Hdata2.
    apply (moved_in_twice l (ds_set_document true) (Document.data tempdoc)
             (Document.data d)); [|exact Hdata1].
    intros name x Hx. rewrite ds_linked_set_document.
    exact (LinkedFile_scratch_all_linked _ _ _ _ Hscratch name x Hx).
  - destruct (Linked2DFile_scratch l2) as [[e|[]] tempdoc] eqn:Hscratch.
    + unfold Linked2DFile_reloadLinks. rewrite Hscratch.
      unfold bind, modify, ret, raise.
      destruct e; try discriminate.
      intros [= <- <-]. eexists. split; reflexivity.
    + intros Hrun.
      destruct (Linked2DFile_reloadLinks_returns l l2 d r d1 Hobj Hrun)
        as (_ & _ & _ & Hs).
      destruct (Linked2DFile_reloadLinks_data l l2 tempdoc d Hscratch)
        as (d1' & Hrun1 & Hdata1).
      rewrite Hrun in Hrun1. injection Hrun1 as -> <-.
      destruct (Linked2DFile_reloadLinks_data l l2 tempdoc d1 Hscratch)
        as (d2 & Hrun2 & Hdata2).
      exists d2. rewrite Hrun2, (refreshed_same_links l d d1 tempdoc Hs).
      split; [reflexivity|].
      apply map_eq. intros k. rewrite Hdata2.
      apply (moved_in_twice l _ (Document.data tempdoc)
               (Document.data d)); [|exact Hdata1].
      intros name x Hx.
      rewrite ds_linked_set_document, ds_linked_set_linked.
      apply link_is_refl.
  - unfold LinkedFITSFile_reloadLinks.
    unfold bind at 1 3. unfold modify at 1 2.
    unfold bind at 1 5. unfold lift at 1 5.
    destruct (column _ 0) as [e|c0]; [discriminate|].
    unfold bind at 1 4. unfold lift at 1 4.
    destruct (column _ 1) as [e|c1]; [discriminate|].
    unfold bind at 1 3. unfold lift at 1 3.
    destruct (column _ 2) as [e|c2]; [discriminate|].
    unfold bind at 1 2. unfold lift at 1 2.
    destruct (column _ 3) as [e|c3]; [discriminate|].
    unfold bind.
    destruct (importFITS_cases (lfits_dsname lfits) (lfits_filename lfits)
                (lfits_hdu lfits) c0 c1 c2 c3 None)
      as [[e He]|(ds & _ & _ & Hset)]; rewrite ?He, ?Hset; [discriminate|].
    unfold Document_setData, data_setitem, bind, modify, ret. simpl.
    intros [= <- <-]. eexists. split; [reflexivity|]. simpl.
    apply insert_insert_eq.
Qed.

End ImportProperties.

Lemma fits_reload_unlinks_witness :
  linked_to sky_link sky_doc "Z" = true
  /\ exists d',
       snd (@reloadLinks lab sky_link sky_doc) = d'
       /\ linked_to sky_link d' "X" = false
       /\ Document.changeset d' = Document.changeset sky_doc + 1.
Proof.
  split; [vm_compute; reflexivity|].
  destruct (@reloadLinks lab sky_link sky_doc) as [[e|r] d'] eqn:Hrun;
    [vm_compute in Hrun; discriminate Hrun|].
  destruct (@fits_reload_unlinks lab sky_link _ sky_doc d' r eq_refl Hrun)
    as (_ & _ & Hl & Hc).
  exists d'. auto.
Defined.

Lemma reloadLinks_again_witness :
  exists r d1 d2,
    @reloadLinks lab run_link run_doc = (inr r, d1)
    /\ @reloadLinks lab run_link d1 = (inr r, d2)
    /\ Document.data d2 = Document.data d1.
Proof.
  destruct (@reloadLinks lab run_link run_doc) as [[e|r] d1] eqn:Hrun;
    [vm_compute in Hrun; discriminate Hrun|].
  destruct (@reloadLinks_again lab run_link run_doc d1 r Hrun)
    as (d2 & Hrun2 & Hdata).
  exists r, d1, d2. auto.
Defined.

(** ** The parts of an expression dataset *)




Section ExpressionProperties.
Context `{External}.


End ExpressionProperties.


(** ** The ranges of the points of a dataset *)

Lemma zip_add_length (l1 l2 : list float) :
  length l1 = length l2 -> length (zip_add l1 l2) = length l1.
Proof.
  revert l2. induction l1 as [|x1 l1 IH]; intros [|x2 l2]; simpl;
    try discriminate; [reflexivity|].
  intros [= Hl]. f_equal. apply IH, Hl.
Qed.

Lemma zip_sub_length (l1 l2 : list float) :
  length l1 = length l2 -> length (zip_sub l1 l2) = length l1.
Proof.
  revert l2. induction l1 as [|x1 l1 IH]; intros [|x2 l2]; simpl;
    try discriminate; [reflexivity|].
  intros [= Hl]. f_equal. apply IH, Hl.
Qed.

Lemma in_place_add_same_shape (vals : ndarray) (err : option ndarray)
    (data : option ndarray) (a : ndarray) :
  data = Some a -> nd_shape vals = nd_shape a -> part_matches data err ->
  exists r, in_place_if nd_add vals err = inr r
            /\ nd_shape r = nd_shape a
            /\ (err = None -> r = vals).
Proof.
  intros -> Hv Herr. destruct err as [e|]; simpl; [|eauto].
  destruct Herr as (a' & [= <-] & He). rewrite <- Hv in He.
  unfold in_place, ebind.
  destruct vals as [x|l], e as [y|l']; simpl in He; try discriminate; simpl.
  - eexists. split; [reflexivity|]. split; [exact Hv | discriminate].
  - injection He as He. rewrite He, Nat.eqb_refl. simpl.
    rewrite zip_add_length by (symmetry; exact He).
    rewrite bool_decide_eq_true_2 by reflexivity.
    eexists. split; [reflexivity|]. split; [|discriminate].
    simpl. rewrite zip_add_length by (symmetry; exact He). exact Hv.
Qed.

Lemma in_place_sub_same_shape (vals : ndarray) (err : option ndarray)
    (data : option ndarray) (a : ndarray) :
  data = Some a -> nd_shape vals = nd_shape a -> part_matches data err ->
  exists r, in_place_if nd_sub vals err = inr r
            /\ nd_shape r = nd_shape a
            /\ (err = None -> r = vals).
Proof.
  intros -> Hv Herr. destruct err as [e|]; simpl; [|eauto].
  destruct Herr as (a' & [= <-] & He). rewrite <- Hv in He.
  unfold in_place, ebind.
  destruct vals as [x|l], e as [y|l']; simpl in He; try discriminate; simpl.
  - eexists. split; [reflexivity|]. split; [exact Hv | discriminate].
  - injection He as He. rewrite He, Nat.eqb_refl. simpl.
    rewrite zip_sub_length by (symmetry; exact He).
    rewrite bool_decide_eq_true_2 by reflexivity.
    eexists. split; [reflexivity|]. split; [|discriminate].
    simpl. rewrite zip_sub_length by (symmetry; exact He). exact Hv.
Qed.

(** X23: [getPointRanges] needs values: without them it raises
    [AttributeError].  On a dataset whose error parts have the shape of
    the values it returns minima and maxima of that shape, and both are
    the values themselves when the dataset has no errors. *)
Theorem getPointRanges_outcome (self : Dataset.t) :
  (Dataset.data self = None ->
   Dataset_getPointRanges self
   = inl (AttributeError "'NoneType' object has no attribute 'copy'"))
  /\ (forall a,
        Dataset.data self = Some a -> errors_match self ->
        exists minvals maxvals,
          Dataset_getPointRanges self = inr (minvals, maxvals)
          /\ nd_shape minvals = nd_shape a
          /\ nd_shape maxvals = nd_shape a
          /\ (Dataset_hasErrors self = false ->
              minvals = a /\ maxvals = a)).
Proof.
  split.
  - intros Hdata. unfold Dataset_getPointRanges. rewrite Hdata. reflexivity.
  - intros a Hdata (Hs & Hn & Hp). unfold Dataset_getPointRanges.
    rewrite Hdata.
    destruct (in_place_sub_same_shape a _ _ a Hdata eq_refl Hs)
      as (min1 & -> & Smin1 & Emin1).
    destruct (in_place_add_same_shape a _ _ a Hdata eq_refl Hs)
      as (max1 & Hmax1 & Smax1 & Emax1).
    destruct (in_place_add_same_shape min1 _ _ a Hdata Smin1 Hn)
      as (min2 & Hmin2 & Smin2 & Emin2).
    destruct (in_place_add_same_shape max1 _ _ a Hdata Smax1 Hp)
      as (max2 & Hmax2 & Smax2 & Emax2).
    unfold ebind at 1. unfold ebind at 1. rewrite Hmax1.
    unfold ebind at 1. rewrite Hmin2.
    unfold ebind at 1. rewrite Hmax2.
    exists min2, max2. split; [reflexivity|].
    split; [exact Smin2|]. split; [exact Smax2|].
    unfold Dataset_hasErrors. intros Hnone.
    apply orb_false_iff in Hnone as [Hnone Hpe].
    apply orb_false_iff in Hnone as [Hse Hne].
    apply bool_decide_eq_false in Hse, Hne, Hpe.
    assert (Es : Dataset.serr self = None)
      by (destruct (Dataset.serr self); [destruct Hse; discriminate | reflexivity]).
    assert (En : Dataset.nerr self = None)
      by (destruct (Dataset.nerr self); [destruct Hne; discriminate | reflexivity]).
    assert (Ep : Dataset.perr self = None)
      by (destruct (Dataset.perr self); [destruct Hpe; discriminate | reflexivity]).
    rewrite (Emin2 En), (Emax2 Ep), (Emin1 Es), (Emax1 Es). auto.
Qed.

Lemma getPointRanges_outcome_witness :
  let self := Dataset.Mk false (Some (Arr1 [1; 2; 3]%float))
                (Some (Arr1 [0.5; 0.5; 0.5]%float)) None None None in
  exists minvals maxvals,
    Dataset_getPointRanges self = inr (minvals, maxvals)
    /\ nd_shape minvals = [3%nat] /\ nd_shape maxvals = [3%nat].
Proof.
  intros self.
  assert (Hok : errors_match self).
  { repeat split. exists (Arr1 [1; 2; 3]%float). split; reflexivity. }
  destruct (proj2 (getPointRanges_outcome self) _ eq_refl Hok)
    as (minvals & maxvals & Hrun & Hmin & Hmax & _).
  exists minvals, maxvals. auto.
Defined.

(** ** Searching the tree of widgets *)

Lemma recursiveGet_children (ws : widget_store) (name typename : option string)
    (depth : nat) (newmaxlevels : Z)
    (IH : forall root outlist,
        exists added,
          _recursiveGet depth ws root name typename outlist newmaxlevels
          = inr (outlist ++ added)
          /\ Forall (fun w => wanted ws name typename w = true) added
          /\ (newmaxlevels = 0 -> added = [])) :
  forall (children : list objid) (outlist : list objid),
  exists added,
    efold (fun out w =>
             let out' := if wanted ws name typename w
                         then out ++ [w] else out in
             _recursiveGet depth ws w name typename out' newmaxlevels)
          children outlist
    = inr (outlist ++ added)
    /\ Forall (fun w => wanted ws name typename w = true) added
    /\ (newmaxlevels = 0 ->
        added = List.filter (wanted ws name typename) children).
Proof.
  induction children as [|w children IHc]; intros outlist; cbn [efold].
  { exists []. rewrite app_nil_r. repeat split; auto. }
  cbv zeta.
  destruct (wanted ws name typename w) eqn:Hw.
  - destruct (IH w (outlist ++ [w])) as (below & -> & Hbelow & Hzero).
    unfold ebind at 1.
    destruct (IHc ((outlist ++ [w]) ++ below)) as (rest & Hrun & Hrest & Hzero').
    exists (w :: below ++ rest). split.
    { etrans; [exact Hrun|]. f_equal. rewrite <- !app_assoc. reflexivity. }
    split.
    { apply Forall_cons. split; [exact Hw|]. apply Forall_app. auto. }
    intros H0. rewrite (Hzero H0), (Hzero' H0). simpl. rewrite Hw. reflexivity.
  - destruct (IH w outlist) as (below & -> & Hbelow & Hzero).
    unfold ebind at 1.
    destruct (IHc (outlist ++ below)) as (rest & Hrun & Hrest & Hzero').
    exists (below ++ rest). split.
    { etrans; [exact Hrun|]. f_equal. rewrite <- !app_assoc. reflexivity. }
    split; [apply Forall_app; auto|].
    intros H0. rewrite (Hzero H0), (Hzero' H0). simpl. rewrite Hw. reflexivity.
Qed.

(** X24: a search with a bound, [0 <= maxlevels], that the interpreter
    can follow, [maxlevels < depth], returns: [_recursiveGet] keeps what
    is in [outlist] and appends to it only widgets that meet the two
    criteria.  With [maxlevels = 0] it appends nothing, and with
    [maxlevels = 1] it appends the children of [root] that meet the
    criteria, in their order. *)
Theorem recursiveGet_bounded (ws : widget_store) (name typename : option string)
    (depth : nat) (root : objid) (outlist : list objid) (maxlevels : Z) :
  (0 <= maxlevels < Z.of_nat depth)%Z ->
  exists added,
    _recursiveGet depth ws root name typename outlist maxlevels
    = inr (outlist ++ added)
    /\ Forall (fun w => wanted ws name typename w = true) added
    /\ (maxlevels = 0%Z -> added = [])
    /\ (maxlevels = 1%Z ->
        added = List.filter (wanted ws name typename)
                            (Widget_children ws root)).
Proof.
  revert root outlist maxlevels.
  induction depth as [|depth IH]; intros root outlist maxlevels Hbound;
    [lia|].
  cbn [_recursiveGet].
  destruct (Z.eqb_spec maxlevels 0) as [->|Hne]; cbn [negb].
  { exists []. rewrite app_nil_r. repeat split; auto. discriminate. }
  assert (Hbelow : forall r out,
            exists added,
              _recursiveGet depth ws r name typename out (maxlevels - 1)
              = inr (out ++ added)
              /\ Forall (fun w => wanted ws name typename w = true) added
              /\ (maxlevels - 1 = 0 -> added = [])%Z).
  { intros r out.
    destruct (IH r out (maxlevels - 1)%Z ltac:(lia))
      as (added & Hrun & Hall & Hzero & _).
    exists added. auto. }
  destruct (recursiveGet_children ws name typename depth (maxlevels - 1)
              Hbelow (Widget_children ws root) outlist)
    as (added & Hrun & Hall & Hone).
  exists added. split; [exact Hrun|]. split; [exact Hall|].
  split; [intros; contradiction|].
  intros ->. apply Hone. reflexivity.
Qed.

Lemma recursiveGet_bounded_witness :
  _recursiveGet 5 page_widgets 1%positive None (Some "graph") [] 2
  = inr [3%positive]
  /\ _recursiveGet 5 page_widgets 1%positive None None [] 1
     = inr [2%positive].
Proof.
  split.
  - destruct (recursiveGet_bounded page_widgets None (Some "graph") 5
                1%positive [] 2 ltac:(lia)) as (added & Hrun & _).
    rewrite Hrun. vm_compute in Hrun. injection Hrun as <-. reflexivity.
  - destruct (recursiveGet_bounded page_widgets None None 5
                1%positive [] 1 ltac:(lia)) as (added & Hrun & _ & _ & Hone).
    rewrite Hrun, (Hone eq_refl). vm_compute. reflexivity.
Defined.
